(** * PharmaFlow inventory ledger: a shallow embedding of the controllers

    The development follows the JavaScript controllers of the repository:
    [SalesController] (createSale, processRefund, the pagination of
    getSales), [StockMovementController] (createAdjustment, createTransfer),
    [InventoryController] (inventoryAdjustment, bulkUpdateQuantities),
    [PurchaseOrderController] (receiveGoods, cancelPurchaseOrder,
    updatePurchaseOrderStatus), [AlertController] (generateExpirationAlerts,
    acknowledgeAlert, bulkAcknowledgeAlerts, getLowStockAlerts, the
    pagination of getAllAlerts), [ReportController] (getExpirationReport,
    getLowStockReport) and the [transaction] helper of config/database.js.

    Modelling conventions.
    - A table with a primary key is a finite map from the key to the row
      ([gmap Z row]); [stock_movements] is the append-only list of its rows
      in insertion order.
    - A controller body that runs on a database client is a computation in
      the monad [Tx]: it threads the working database and may throw.
    - Identifiers and quantities of a request body are JSON numbers with an
      integral value. For the two ids of [createTransfer], which the guard
      against the same batch compares with [===] as they come, and for the
      quantity of [receiveGoods], which is added with [+] as it comes, the
      value is a [body_number]: such a number, or the string that spells it.
    - Dates are day numbers. Monetary amounts are rationals: the arithmetic
      on prices is exact here, where the code computes in IEEE doubles, so no
      statement below says what an amount is worth.
    - A field of the request body that may be missing is an [option].
    - A string holds the UTF-8 bytes of its text. A string that JavaScript
      tests for truthiness is falsy when empty. *)

From Stdlib Require Import ZArith QArith Qabs Ascii.
From Stdlib Require DecimalString.
From stdpp Require Import base decidable option list gmap strings sorting pretty.

#[local] Open Scope Z_scope.

(** ** Tables *)

Module Products.
Record row := Row {
  product_name : string;
  requires_prescription : bool;
  tax_rate : Q;
  is_active : bool
}.
End Products.

Module Inventory.
Record row := Row {
  product_id : Z;
  supplier_id : Z;
  batch_number : option string;
  lot_number : option string;
  quantity_on_hand : Z;
  quantity_reserved : Z;
  unit_cost : Q;
  expiration_date : option Z;
  received_date : Z;
  status : string
}.

(** Modelled from the spec: the schema of the [inventory] table is not
    part of the sources; [quantity_available] is the derived column
    "on_hand - reserved" of the data model. *)
Definition quantity_available (i : row) : Z :=
  quantity_on_hand i - quantity_reserved i.

Definition set_quantity_on_hand (v : Z) (i : row) : row :=
  Row (product_id i) (supplier_id i) (batch_number i) (lot_number i)
      v (quantity_reserved i) (unit_cost i) (expiration_date i)
      (received_date i) (status i).

Definition set_quantity_reserved (v : Z) (i : row) : row :=
  Row (product_id i) (supplier_id i) (batch_number i) (lot_number i)
      (quantity_on_hand i) v (unit_cost i) (expiration_date i)
      (received_date i) (status i).
End Inventory.

Module Sales.
Record row := Row {
  customer_id : option Z;
  cashier_id : Z;
  subtotal : Q;
  tax_amount : Q;
  total_amount : Q;
  payment_method : string;
  prescription_number : option string;
  doctor_name : option string;
  insurance_claim_amount : Q;
  customer_payment_amount : option Q;
  notes : option string;
  payment_status : string
}.

Definition set_status_notes (st : string) (n : option string) (s : row) : row :=
  Row (customer_id s) (cashier_id s) (subtotal s) (tax_amount s)
      (total_amount s) (payment_method s) (prescription_number s)
      (doctor_name s) (insurance_claim_amount s) (customer_payment_amount s)
      n st.
End Sales.

Module SaleItems.
Record row := Row {
  sale_id : Z;
  product_id : Z;
  inventory_id : Z;
  quantity : Z;
  unit_price : Q;
  discount_percentage : Q;
  discount_amount : Q;
  line_total : Q;
  expiration_date : option Z;
  batch_number : option string
}.
End SaleItems.

Module StockMovements.
Record row := Row {
  inventory_id : Z;
  product_id : Z;
  movement_type : string;
  quantity_change : Z;
  quantity_before : Z;
  quantity_after : Z;
  reference_id : option Z;
  reference_type : option string;
  unit_cost : option Q;
  reason : string;
  performed_by : Z
}.
End StockMovements.

Module PurchaseOrders.
Record row := Row {
  supplier_id : Z;
  status : string;
  actual_delivery_date : option Z;
  notes : option string
}.
End PurchaseOrders.

Module PurchaseOrderItems.
Record row := Row {
  po_id : Z;
  product_id : Z;
  quantity_ordered : Z;
  quantity_received : Z;
  unit_cost : Q;
  status : string
}.
End PurchaseOrderItems.

Record db := Db {
  products : gmap Z Products.row;
  inventory : gmap Z Inventory.row;
  sales : gmap Z Sales.row;
  sale_items : gmap Z SaleItems.row;
  stock_movements : list StockMovements.row;
  purchase_orders : gmap Z PurchaseOrders.row;
  purchase_order_items : gmap Z PurchaseOrderItems.row
}.

Definition with_inventory (f : gmap Z Inventory.row → gmap Z Inventory.row)
    (d : db) : db :=
  Db (products d) (f (inventory d)) (sales d) (sale_items d)
     (stock_movements d) (purchase_orders d) (purchase_order_items d).

Definition with_sales (f : gmap Z Sales.row → gmap Z Sales.row) (d : db) : db :=
  Db (products d) (inventory d) (f (sales d)) (sale_items d)
     (stock_movements d) (purchase_orders d) (purchase_order_items d).

Definition with_sale_items (f : gmap Z SaleItems.row → gmap Z SaleItems.row)
    (d : db) : db :=
  Db (products d) (inventory d) (sales d) (f (sale_items d))
     (stock_movements d) (purchase_orders d) (purchase_order_items d).

Definition with_stock_movements
    (f : list StockMovements.row → list StockMovements.row) (d : db) : db :=
  Db (products d) (inventory d) (sales d) (sale_items d)
     (f (stock_movements d)) (purchase_orders d) (purchase_order_items d).

Definition with_purchase_orders
    (f : gmap Z PurchaseOrders.row → gmap Z PurchaseOrders.row) (d : db) : db :=
  Db (products d) (inventory d) (sales d) (sale_items d)
     (stock_movements d) (f (purchase_orders d)) (purchase_order_items d).

Definition with_purchase_order_items
    (f : gmap Z PurchaseOrderItems.row → gmap Z PurchaseOrderItems.row)
    (d : db) : db :=
  Db (products d) (inventory d) (sales d) (sale_items d)
     (stock_movements d) (purchase_orders d) (f (purchase_order_items d)).

(** Modelled from the spec: the schema is not part of the sources; the
    persisted layout keys every table by an auto-incrementing id, taken here
    as one more than the largest key in use. *)
Definition next_id {V : Type} (t : gmap Z V) : Z :=
  1 + foldr Z.max 0 ((map_to_list t).*1).

(** ** Database client computations *)

Inductive outcome (A : Type) : Type :=
  | Returned (a : A)
  | Thrown (message : string).
Arguments Returned {A} a.
Arguments Thrown {A} message.

Definition Tx (A : Type) : Type := db → outcome A * db.

#[global] Instance tx_ret : MRet Tx := λ A a d, (Returned a, d).

#[global] Instance tx_bind : MBind Tx := λ A B k c d,
  match c d with
  | (Returned a, d') => k a d'
  | (Thrown e, d') => (Thrown e, d')
  end.

Definition throw {A : Type} (message : string) : Tx A :=
  λ d, (Thrown message, d).

(** A SELECT: reads the working database. *)
Definition select {A : Type} (q : db → A) : Tx A :=
  λ d, (Returned (q d), d).

(** An INSERT or UPDATE: rewrites the working database. *)
Definition execute (u : db → db) : Tx unit :=
  λ d, (Returned tt, u d).

(** [for (const x of l) body], threading the loop's local variables. *)
Fixpoint for_of {A S : Type} (l : list A) (body : S → A → Tx S) (s : S) : Tx S :=
  match l with
  | [] => mret s
  | x :: l' => s' ← body s x; for_of l' body s'
  end.

(** config/database.js, [transaction]: BEGIN, the callback, COMMIT; a throw
    of the callback is answered by ROLLBACK, which discards the working
    database, and the error is thrown again. *)
Definition transaction {A : Type} (callback : Tx A) : Tx A :=
  λ committed,
    match callback committed with
    | (Returned result, working) => (Returned result, working)
    | (Thrown error, _) => (Thrown error, committed)
    end.

(** Unfolding of the monad's operations, and reduction that leaves the
    arithmetic on amounts folded. *)
Ltac tx_unfold :=
  unfold mbind, tx_bind, mret, tx_ret, select, execute, throw in *.

Ltac tx_simpl :=
  cbn -[Qplus Qminus Qmult Qdiv Qabs Qle_bool Qeq_bool inject_Z next_id] in *.

(** ** HTTP responses *)

Inductive payload : Type :=
  | NoData
  | SaleData (id : Z) (subtotal taxAmount totalAmount : Q) (itemCount : nat)
  | RefundData (saleId : Z) (refundAmount : Q) (newPaymentStatus : string)
  | AdjustmentData (inventoryId quantityChange quantityBefore quantityAfter : Z)
  | TransferData (fromQuantityBefore fromQuantityAfter
                  toQuantityBefore toQuantityAfter : Z)
  | ReceiptData (po : PurchaseOrders.row).

Record response := Response {
  http_status : Z;
  success : bool;
  message : string;
  data : payload
}.

Definition failure (code : Z) (msg : string) : response :=
  Response code false msg NoData.

(** [error.message || fallback] *)
Definition message_or (msg fallback : string) : string :=
  if decide (msg = "") then fallback else msg.

(** [x || fallback] on an optional string, and its truthiness. *)
Definition truthy (s : option string) : bool :=
  match s with
  | Some s => bool_decide (s ≠ "")
  | None => false
  end.

Definition truthy_id (id : option Z) : option Z :=
  match id with
  | Some id => if decide (id = 0) then None else Some id
  | None => None
  end.

(** ** SalesController.createSale *)

Module CreateSale.
Record item := Item {
  productId : Z;
  quantity : Z;
  unitPrice : Q;
  discountPercentage : Q;
  inventoryId : option Z
}.

Record request := Request {
  customerId : option Z;
  items : list item;
  paymentMethod : string;
  prescriptionNumber : option string;
  doctorName : option string;
  insuranceClaimAmount : Q;
  customerPaymentAmount : option Q;
  notes : option string;
  cashierId : Z
}.

Record processed_item := Processed {
  p_productId : Z;
  p_inventoryId : Z;
  p_quantity : Z;
  p_unitPrice : Q;
  p_discountPercentage : Q;
  p_discountAmount : Q;
  p_lineTotal : Q;
  p_expirationDate : option Z;
  p_batchNumber : option string
}.

(** The variables of the callback that the item loop updates. *)
Record locals := Locals {
  subtotal : Q;
  totalTaxAmount : Q;
  processedItems : list processed_item
}.
End CreateSale.

Definition validPaymentMethods : list string :=
  ["cash"; "card"; "insurance"; "check"; "digital"].

(** [WHERE product_id = $1 AND status = 'active' AND quantity_available >= $2] *)
Definition eligible (productId quantity : Z) (i : Inventory.row) : Prop :=
  Inventory.product_id i = productId ∧ Inventory.status i = "active" ∧
  quantity ≤ Inventory.quantity_available i.

#[global] Instance eligible_dec productId quantity i :
  Decision (eligible productId quantity i).
Proof. unfold eligible. apply _. Defined.

(** [ORDER BY expiration_date ASC]: ascending, a NULL date after every date. *)
Definition expiration_le (a b : Z * Inventory.row) : Prop :=
  match Inventory.expiration_date a.2, Inventory.expiration_date b.2 with
  | Some x, Some y => x ≤ y
  | _, None => True
  | None, Some _ => False
  end.

#[global] Instance expiration_le_dec : RelDecision expiration_le.
Proof.
  intros a b. unfold expiration_le.
  destruct (Inventory.expiration_date a.2), (Inventory.expiration_date b.2);
    apply _.
Defined.

(** The query for a pinned batch ([inventoryId] given). *)
Definition select_pinned (inventoryId productId quantity : Z) (d : db)
    : list (Z * Inventory.row) :=
  match inventory d !! inventoryId with
  | Some i =>
      if decide (eligible productId quantity i) then [(inventoryId, i)] else []
  | None => []
  end.

(** The query "Use FIFO - first expiring available inventory":
    the eligible rows, [ORDER BY expiration_date ASC LIMIT 1]. *)
Definition select_fifo (productId quantity : Z) (d : db)
    : list (Z * Inventory.row) :=
  take 1 (merge_sort expiration_le
            (filter (λ kr, eligible productId quantity kr.2)
                    (map_to_list (inventory d)))).

(** "Reserve inventory": [SET quantity_reserved = quantity_reserved + $1] *)
Definition reserve (quantity : Z) (i : Inventory.row) : Inventory.row :=
  Inventory.set_quantity_reserved (Inventory.quantity_reserved i + quantity) i.

(** "Update actual inventory quantities": [SET quantity_on_hand =
    quantity_on_hand - $1, quantity_reserved = quantity_reserved - $1] *)
Definition consume (quantity : Z) (i : Inventory.row) : Inventory.row :=
  Inventory.set_quantity_reserved (Inventory.quantity_reserved i - quantity)
    (Inventory.set_quantity_on_hand (Inventory.quantity_on_hand i - quantity) i).

(** "Verify inventory availability": the pinned batch when the item names
    one, the first expiring batch otherwise. *)
Definition inventoryCheck (it : CreateSale.item) (d : db)
    : list (Z * Inventory.row) :=
  match truthy_id (CreateSale.inventoryId it) with
  | Some id =>
      select_pinned id (CreateSale.productId it) (CreateSale.quantity it) d
  | None => select_fifo (CreateSale.productId it) (CreateSale.quantity it) d
  end.

(** [Math.abs(totalPayments - totalAmount) > 0.01], where [totalPayments] is
    [Number(insuranceClaimAmount) + Number(customerPaymentAmount)]: when the
    body has no [customerPaymentAmount], [Number(undefined)] is not a number,
    neither is the sum, and a comparison with it is false. *)
Definition payments_mismatch (insuranceClaimAmount : Q)
    (customerPaymentAmount : option Q) (totalAmount : Q) : bool :=
  match customerPaymentAmount with
  | Some customerPaymentAmount =>
      let totalPayments := (insuranceClaimAmount + customerPaymentAmount)%Q in
      negb (Qle_bool (Qabs (totalPayments - totalAmount)) (1 # 100))
  | None => false
  end.

#[global] Arguments payments_mismatch : simpl never.

Section SalesController.
(** The INSERT into [sales] leaves [payment_status] to the column default
    of the schema, which is not part of the sources. *)
Variable payment_status_default : string.

Import CreateSale.

(** The body of [for (const item of items)]. *)
Definition process_item (req : request) (acc : locals) (it : item)
    : Tx locals :=
  if decide (productId it = 0 ∨ quantity it = 0 ∨ quantity it ≤ 0) then
    throw "Invalid item: productId and positive quantity required"
  else
    productResult ← select (λ d,
      match products d !! productId it with
      | Some p => if Products.is_active p then [p] else []
      | None => []
      end);
    match productResult with
    | [] =>
        throw ("Product with ID " +:+ pretty (productId it) +:+
               " not found or inactive")
    | product :: _ =>
        if Products.requires_prescription product &&
           negb (truthy (prescriptionNumber req)) then
          throw ("Prescription required for product: " +:+
                 Products.product_name product)
        else
          inventoryResult ← select (inventoryCheck it);
          match inventoryResult with
          | [] =>
              throw ("Insufficient inventory for product: " +:+
                     Products.product_name product)
          | (inventory_id, inv) :: _ =>
              execute (with_inventory
                         (alter (reserve (quantity it)) inventory_id));;
              let lineSubtotal := (unitPrice it * inject_Z (quantity it))%Q in
              let discountAmount :=
                (lineSubtotal * discountPercentage it / 100)%Q in
              let lineTotal := (lineSubtotal - discountAmount)%Q in
              let lineTaxAmount :=
                (lineTotal * Products.tax_rate product / 100)%Q in
              mret (Locals
                      (subtotal acc + lineTotal)%Q
                      (totalTaxAmount acc + lineTaxAmount)%Q
                      (processedItems acc ++
                         [Processed (productId it) inventory_id (quantity it)
                            (unitPrice it) (discountPercentage it)
                            discountAmount lineTotal
                            (Inventory.expiration_date inv)
                            (Inventory.batch_number inv)]))
          end
    end.

(** The body of [for (const item of processedItems)]: the sale line is
    inserted and the batch is decremented. *)
Definition commit_item (sale_id : Z) (_ : unit) (it : processed_item)
    : Tx unit :=
  execute (λ d, with_sale_items
                  (insert (next_id (sale_items d))
                     (SaleItems.Row sale_id (p_productId it) (p_inventoryId it)
                        (p_quantity it) (p_unitPrice it)
                        (p_discountPercentage it) (p_discountAmount it)
                        (p_lineTotal it) (p_expirationDate it)
                        (p_batchNumber it))) d);;
  execute (with_inventory (alter (consume (p_quantity it)) (p_inventoryId it))).

(** The callback given to [transaction]. The body's [insuranceClaimAmount]
    defaults to 0. *)
Definition createSale_callback (req : request) : Tx response :=
  acc ← for_of (items req) (process_item req) (Locals 0 0 []);
  let totalAmount := (subtotal acc + totalTaxAmount acc)%Q in
  if payments_mismatch (insuranceClaimAmount req) (customerPaymentAmount req)
       totalAmount then
    throw "Payment amounts do not match total amount"
  else
    sale_id ← select (λ d, next_id (sales d));
    execute (with_sales
               (insert sale_id
                  (Sales.Row (customerId req) (cashierId req) (subtotal acc)
                     (totalTaxAmount acc) totalAmount (paymentMethod req)
                     (prescriptionNumber req) (doctorName req)
                     (insuranceClaimAmount req) (customerPaymentAmount req)
                     (notes req) payment_status_default)));;
    for_of (processedItems acc) (commit_item sale_id) tt;;
    mret (Response 201 true "Sale created successfully"
            (SaleData sale_id (subtotal acc) (totalTaxAmount acc) totalAmount
               (length (processedItems acc)))).

Definition createSale (req : request) (d : db) : response * db :=
  if decide (items req = []) then
    (failure 400 "At least one item is required for the sale", d)
  else if decide (paymentMethod req = "") then
    (failure 400 "Payment method is required", d)
  else if decide (paymentMethod req ∈ validPaymentMethods) then
    match transaction (createSale_callback req) d with
    | (Returned res, d') => (res, d')
    | (Thrown error, d') =>
        (failure 400 (message_or error "Failed to create sale"), d')
    end
  else (failure 400 "Invalid payment method", d).
End SalesController.

(** ** SalesController.processRefund *)

Module ProcessRefund.
Record item := Item {
  saleItemId : Z;
  quantityToRefund : Z
}.

Record request := Request {
  saleId : Z;
  items : list item;
  reason : option string;
  refundAmount : option Q;
  processedBy : Z
}.
End ProcessRefund.

(** [x || fallback] on an optional string. *)
Definition string_or (s : option string) (fallback : string) : string :=
  match s with
  | Some s => if decide (s = "") then fallback else s
  | None => fallback
  end.

(** A number of the request body that is present and not zero. *)
Definition truthy_amount (a : option Q) : option Q :=
  match a with
  | Some a => if Qeq_bool a 0 then None else Some a
  | None => None
  end.

(** [COALESCE(notes, '') || suffix] *)
Definition append_note (notes : option string) (suffix : string) : option string :=
  Some (default "" notes +:+ suffix).

(** [SET quantity_on_hand = quantity_on_hand + $1] *)
Definition restock (quantity : Z) (i : Inventory.row) : Inventory.row :=
  Inventory.set_quantity_on_hand (Inventory.quantity_on_hand i + quantity) i.

(** The row that the refund of [quantity] units of a sale line inserts into
    [stock_movements] for a batch that holds [after] units once restocked:
    ['return', $3, i.quantity_on_hand - $3, i.quantity_on_hand]. *)
Definition return_movement (req : ProcessRefund.request) (line : SaleItems.row)
    (quantity after : Z) : StockMovements.row :=
  StockMovements.Row (SaleItems.inventory_id line) (SaleItems.product_id line)
    "return" quantity (after - quantity) after
    (Some (ProcessRefund.saleId req)) (Some "sale_refund") None
    (string_or (ProcessRefund.reason req) "Sale refund")
    (ProcessRefund.processedBy req).

Section Refund.
(** How JavaScript prints a number inside a template string. *)
Variable number_to_string : Q → string.

Import ProcessRefund.

(** The body of [for (const refundItem of items)]; the loop variable is
    [totalRefundAmount]. A division by a sold quantity of zero, which
    JavaScript answers with a non-number, gives zero here. *)
Definition refund_item (req : request) (totalRefundAmount : Q) (it : item)
    : Tx Q :=
  itemResult ← select (λ d,
    match sale_items d !! saleItemId it with
    | Some si =>
        if decide (SaleItems.sale_id si = saleId req) then
          match products d !! SaleItems.product_id si with
          | Some p => [(si, Products.product_name p)]
          | None => []
          end
        else []
    | None => []
    end);
  match itemResult with
  | [] => throw ("Sale item " +:+ pretty (saleItemId it) +:+ " not found")
  | (si, product_name) :: _ =>
      if decide (SaleItems.quantity si < quantityToRefund it) then
        throw ("Cannot refund " +:+ pretty (quantityToRefund it) +:+ " of " +:+
               product_name +:+ ", only " +:+ pretty (SaleItems.quantity si) +:+
               " were sold")
      else
        let itemRefundAmount :=
          (SaleItems.line_total si / inject_Z (SaleItems.quantity si) *
           inject_Z (quantityToRefund it))%Q in
        execute (with_inventory
                   (alter (restock (quantityToRefund it))
                          (SaleItems.inventory_id si)));;
        execute (λ d,
          match inventory d !! SaleItems.inventory_id si with
          | Some i =>
              with_stock_movements
                (λ log, log ++
                   [return_movement req si (quantityToRefund it)
                      (Inventory.quantity_on_hand i)]) d
          | None => d
          end);;
        mret (totalRefundAmount + itemRefundAmount)%Q
  end.

Definition processRefund_callback (req : request) : Tx response :=
  saleResult ← select (λ d,
    match sales d !! saleId req with
    | Some s =>
        if decide (Sales.payment_status s = "completed") then [s] else []
    | None => []
    end);
  match saleResult with
  | [] => throw "Sale not found or cannot be refunded"
  | sale :: _ =>
      totalRefundAmount ← for_of (items req) (refund_item req) 0%Q;
      if match truthy_amount (refundAmount req) with
         | Some a => negb (Qle_bool (Qabs (a - totalRefundAmount)) (1 # 100))
         | None => false
         end
      then throw "Provided refund amount does not match calculated amount"
      else
        let finalRefundAmount :=
          default totalRefundAmount (truthy_amount (refundAmount req)) in
        let newPaymentStatus :=
          if Qle_bool (Sales.total_amount sale) finalRefundAmount
          then "refunded" else "partial" in
        execute (with_sales
                   (alter (λ s, Sales.set_status_notes newPaymentStatus
                                  (append_note (Sales.notes s)
                                     (String "010"%char "Refund processed: $" +:+
                                      number_to_string finalRefundAmount +:+
                                      ". Reason: " +:+
                                      string_or (reason req) "N/A")) s)
                          (saleId req)));;
        mret (Response 200 true "Refund processed successfully"
                (RefundData (saleId req) finalRefundAmount newPaymentStatus))
  end.

Definition processRefund (req : request) (d : db) : response * db :=
  if decide (items req = []) then
    (failure 400 "Items to refund are required", d)
  else
    match transaction (processRefund_callback req) d with
    | (Returned res, d') => (res, d')
    | (Thrown error, d') =>
        (failure 400 (message_or error "Failed to process refund"), d')
    end.
End Refund.

(** ** StockMovementController.createAdjustment and createTransfer *)

(** [s.trim()] strips the white space and the line terminators of JavaScript
    from both ends of [s]: the six of ASCII (tab, line feed, vertical tab,
    form feed, carriage return, space), U+00A0, U+1680, U+2000 to U+200A,
    U+2028, U+2029, U+202F, U+205F, U+3000 and U+FEFF. In UTF-8 the first
    six are one byte, U+00A0 is the two bytes C2 A0, the others are three
    bytes. *)
Definition space_of_two_bytes (a b : ascii) : bool :=
  bool_decide (nat_of_ascii a = 194 ∧ nat_of_ascii b = 160)%nat.

Definition space_of_three_bytes (a b c : ascii) : bool :=
  let a := nat_of_ascii a in
  let b := nat_of_ascii b in
  let c := nat_of_ascii c in
  bool_decide
    ((a = 225 ∧ b = 154 ∧ c = 128) ∨
     (a = 226 ∧ b = 128 ∧ (128 ≤ c ≤ 138 ∨ c = 168 ∨ c = 169 ∨ c = 175)) ∨
     (a = 226 ∧ b = 129 ∧ c = 159) ∨
     (a = 227 ∧ b = 128 ∧ c = 128) ∨
     (a = 239 ∧ b = 187 ∧ c = 191))%nat.

Fixpoint trim_start (s : string) : string :=
  match s with
  | String a s1 =>
      if Ascii.is_space a then trim_start s1
      else
        match s1 with
        | String b s2 =>
            if space_of_two_bytes a b then trim_start s2
            else
              match s2 with
              | String c s3 =>
                  if space_of_three_bytes a b c then trim_start s3 else s
              | EmptyString => s
              end
        | EmptyString => s
        end
  | EmptyString => EmptyString
  end.

(** The end of the text is cut where only white space follows. *)
Fixpoint trim_end (s : string) : string :=
  match s with
  | String a s' =>
      if bool_decide (trim_start s = "") then "" else String a (trim_end s')
  | EmptyString => EmptyString
  end.

Definition trim (s : string) : string := trim_end (trim_start s).

(** [!reason || reason.trim().length === 0] *)
Definition blank (reason : option string) : bool :=
  match reason with
  | Some r => bool_decide (trim r = "")
  | None => true
  end.

(** The inventory row of a batch joined with its product, when the batch is
    active: [FROM inventory i JOIN products p ... WHERE i.inventory_id = $1
    AND i.status = 'active' FOR UPDATE]. *)
Definition select_active_batch (inventoryId : Z) (d : db) : list Inventory.row :=
  match inventory d !! inventoryId with
  | Some i =>
      if decide (Inventory.status i = "active") then
        match products d !! Inventory.product_id i with
        | Some _ => [i]
        | None => []
        end
      else []
  | None => []
  end.

Module CreateAdjustment.
(** [inventoryId] and [quantityChange] are JSON numbers; a field that the
    body does not have is rejected as the number 0 is. *)
Record request := Request {
  inventoryId : Z;
  adjustmentType : string;
  quantityChange : Z;
  reason : option string;
  unitCost : option Q;
  userId : Z
}.
End CreateAdjustment.

Definition createAdjustment_callback (req : CreateAdjustment.request)
    : Tx response :=
  let inventoryId := CreateAdjustment.inventoryId req in
  let quantityChange := CreateAdjustment.quantityChange req in
  inventoryResult ← select (select_active_batch inventoryId);
  match inventoryResult with
  | [] => throw "Inventory record not found or inactive"
  | inv :: _ =>
      let quantityBefore := Inventory.quantity_on_hand inv in
      let quantityAfter := quantityBefore + quantityChange in
      if decide (quantityAfter < 0) then
        throw ("Cannot reduce quantity by " +:+ pretty (Z.abs quantityChange) +:+
               ". Available: " +:+ pretty quantityBefore)
      else
        execute (with_inventory
                   (alter (Inventory.set_quantity_on_hand quantityAfter)
                          inventoryId));;
        execute (with_stock_movements
                   (λ log, log ++
                      [StockMovements.Row inventoryId (Inventory.product_id inv)
                         (CreateAdjustment.adjustmentType req) quantityChange
                         quantityBefore quantityAfter None None
                         (Some (default (Inventory.unit_cost inv)
                                  (truthy_amount (CreateAdjustment.unitCost req))))
                         (trim (default "" (CreateAdjustment.reason req)))
                         (CreateAdjustment.userId req)]));;
        mret (Response 201 true "Stock adjustment created successfully"
                (AdjustmentData inventoryId quantityChange
                   quantityBefore quantityAfter))
  end.

Definition createAdjustment (req : CreateAdjustment.request) (d : db)
    : response * db :=
  if decide (CreateAdjustment.inventoryId req = 0 ∨
             CreateAdjustment.quantityChange req = 0) then
    (failure 400 "Inventory ID and non-zero quantity change are required", d)
  else if blank (CreateAdjustment.reason req) then
    (failure 400 "Reason for adjustment is required", d)
  else
    match transaction (createAdjustment_callback req) d with
    | (Returned res, d') => (res, d')
    | (Thrown error, d') =>
        (failure 400 (message_or error "Failed to create stock adjustment"), d')
    end.

(** A number of a request body as the handler receives it: the JSON number
    [n], or the JSON string that spells [n] in decimal (['1'] for [1]). *)
Inductive body_number : Type :=
  | AsNumber (n : Z)
  | AsString (n : Z).

#[global] Instance body_number_eq_dec : EqDecision body_number.
Proof. solve_decision. Defined.

(** The integer that PostgreSQL reads when the value is the parameter of a
    query in the place of an integer, and that [parseInt] gives. *)
Definition number_of (v : body_number) : Z :=
  match v with
  | AsNumber n | AsString n => n
  end.

(** [!v]: the number 0 is falsy; a string that spells a number is not
    empty, so it is truthy, ['0'] too. *)
Definition falsy_number (v : body_number) : Prop :=
  match v with
  | AsNumber n => n = 0
  | AsString _ => False
  end.

#[global] Instance falsy_number_dec v : Decision (falsy_number v).
Proof. destruct v; apply _. Defined.

(** The body gives the value as a JSON number. *)
Definition is_number (v : body_number) : Prop :=
  match v with
  | AsNumber _ => True
  | AsString _ => False
  end.

Module CreateTransfer.
(** A [quantity] that is sent as the string of a number is refused or
    accepted as the number is ([quantity <= 0] and [parseInt] convert it),
    so it is that number here. *)
Record request := Request {
  fromInventoryId : body_number;
  toInventoryId : body_number;
  quantity : Z;
  reason : option string;
  userId : Z
}.
End CreateTransfer.

(** The callback given to [transaction]. The two ids are parameters of the
    queries, where they stand for [number_of]. Both rows are read before
    either is written. *)
Definition createTransfer_callback (req : CreateTransfer.request)
    : Tx response :=
  let fromInventoryId := number_of (CreateTransfer.fromInventoryId req) in
  let toInventoryId := number_of (CreateTransfer.toInventoryId req) in
  let reason := trim (default "" (CreateTransfer.reason req)) in
  fromInventoryResult ← select (select_active_batch fromInventoryId);
  match fromInventoryResult with
  | [] => throw "Source inventory record not found or inactive"
  | fromInventory :: _ =>
      toInventoryResult ← select (select_active_batch toInventoryId);
      match toInventoryResult with
      | [] => throw "Destination inventory record not found or inactive"
      | toInventory :: _ =>
          if decide (Inventory.product_id fromInventory ≠
                     Inventory.product_id toInventory) then
            throw "Cannot transfer between different products"
          else
            let transferQuantity := CreateTransfer.quantity req in
            let fromQuantityBefore := Inventory.quantity_on_hand fromInventory in
            let toQuantityBefore := Inventory.quantity_on_hand toInventory in
            if decide (fromQuantityBefore < transferQuantity) then
              throw ("Insufficient quantity in source batch. Available: " +:+
                     pretty fromQuantityBefore)
            else
              let fromQuantityAfter := fromQuantityBefore - transferQuantity in
              let toQuantityAfter := toQuantityBefore + transferQuantity in
              execute (with_inventory
                         (alter (Inventory.set_quantity_on_hand fromQuantityAfter)
                                fromInventoryId));;
              execute (with_inventory
                         (alter (Inventory.set_quantity_on_hand toQuantityAfter)
                                toInventoryId));;
              execute (with_stock_movements
                         (λ log, log ++
                            [StockMovements.Row fromInventoryId
                               (Inventory.product_id fromInventory) "transfer"
                               (- transferQuantity) fromQuantityBefore
                               fromQuantityAfter (Some toInventoryId)
                               (Some "transfer_out")
                               (Some (Inventory.unit_cost fromInventory))
                               ("Transfer out: " +:+ reason)
                               (CreateTransfer.userId req)]));;
              execute (with_stock_movements
                         (λ log, log ++
                            [StockMovements.Row toInventoryId
                               (Inventory.product_id toInventory) "transfer"
                               transferQuantity toQuantityBefore
                               toQuantityAfter (Some fromInventoryId)
                               (Some "transfer_in")
                               (Some (Inventory.unit_cost toInventory))
                               ("Transfer in: " +:+ reason)
                               (CreateTransfer.userId req)]));;
              mret (Response 201 true "Stock transfer completed successfully"
                      (TransferData fromQuantityBefore fromQuantityAfter
                         toQuantityBefore toQuantityAfter))
      end
  end.

(** The guard [fromInventoryId === toInventoryId] compares the two values
    of the body as they are, before any conversion: a number and a string
    are never strictly equal. *)
Definition createTransfer (req : CreateTransfer.request) (d : db)
    : response * db :=
  if decide (falsy_number (CreateTransfer.fromInventoryId req) ∨
             falsy_number (CreateTransfer.toInventoryId req) ∨
             CreateTransfer.quantity req = 0 ∨
             CreateTransfer.quantity req ≤ 0) then
    (failure 400
       "From inventory, to inventory, and positive quantity are required", d)
  else if decide (CreateTransfer.fromInventoryId req =
                  CreateTransfer.toInventoryId req) then
    (failure 400 "Cannot transfer to the same inventory record", d)
  else if blank (CreateTransfer.reason req) then
    (failure 400 "Reason for transfer is required", d)
  else
    match transaction (createTransfer_callback req) d with
    | (Returned res, d') => (res, d')
    | (Thrown error, d') =>
        (failure 400 (message_or error "Failed to create stock transfer"), d')
    end.

(** ** PurchaseOrderController.receiveGoods *)

Module ReceiveGoods.
Record item := Item {
  po_item_id : Z;
  quantity_received : body_number;
  batch_number : option string;
  expiration_date : option Z;
  lot_number : option string
}.

(** [now] is the value of [NOW()] when the request is served. *)
Record request := Request {
  id : Z;
  items : list item;
  actual_delivery_date : option Z;
  notes : option string;
  now : Z
}.
End ReceiveGoods.

(** [COALESCE(new, old)] *)
Definition coalesce {A : Type} (new old : option A) : option A :=
  match new with
  | Some _ => new
  | None => old
  end.

(** The value of [poItem.quantity_received + quantity_received]: [+] adds
    two numbers, and when the body gives the quantity as a string it
    concatenates the decimal spelling of the quantity received so far with
    that string. *)
Inductive js_value : Type :=
  | JsNumber (n : Z)
  | JsString (s : string).

Definition js_plus (received : Z) (quantity : body_number) : js_value :=
  match quantity with
  | AsNumber n => JsNumber (received + n)
  | AsString n => JsString (pretty received +:+ pretty n)
  end.

(** The integer that a string of decimal digits, with a minus sign before
    them or without, spells; a string of another form spells none. *)
Definition integer_of_string (s : string) : option Z :=
  Z.of_int <$> DecimalString.NilZero.int_of_string s.

(** [v > n] for a number [n]: a string is converted to the number it
    spells, and a string that spells none is greater than nothing. *)
Definition js_gt (v : js_value) (n : Z) : Prop :=
  match v with
  | JsNumber m => n < m
  | JsString s =>
      match integer_of_string s with
      | Some m => n < m
      | None => False
      end
  end.

#[global] Instance js_gt_dec v n : Decision (js_gt v n).
Proof.
  destruct v as [m|s]; simpl; [apply _|].
  destruct (integer_of_string s); apply _.
Defined.

(** [v === n] for a number [n]: no conversion, a string is never strictly
    equal to a number. *)
Definition js_strict_eq (v : js_value) (n : Z) : Prop :=
  match v with
  | JsNumber m => m = n
  | JsString _ => False
  end.

#[global] Instance js_strict_eq_dec v n : Decision (js_strict_eq v n).
Proof. destruct v; simpl; apply _. Defined.

(** The value as the parameter of a query in the place of an integer:
    PostgreSQL reads a string as the integer it spells and refuses a string
    that spells none, so that the query throws. *)
Definition integer_parameter (v : js_value) : Tx Z :=
  match v with
  | JsNumber m => mret m
  | JsString s =>
      match integer_of_string s with
      | Some m => mret m
      | None => throw ("invalid input syntax for type integer: " +:+ s)
      end
  end.

(** The body of [for (const item of items)]. The new batch starts with no
    reserved quantity (the column default of the schema, which is not part of
    the sources). *)
Definition receive_item (req : ReceiveGoods.request) (_ : unit)
    (it : ReceiveGoods.item) : Tx unit :=
  let po_item_id := ReceiveGoods.po_item_id it in
  poItemResult ← select (λ d,
    match purchase_order_items d !! po_item_id with
    | Some poi =>
        if decide (PurchaseOrderItems.po_id poi = ReceiveGoods.id req) then
          match products d !! PurchaseOrderItems.product_id poi with
          | Some _ => [poi]
          | None => []
          end
        else []
    | None => []
    end);
  match poItemResult with
  | [] => throw ("Purchase order item " +:+ pretty po_item_id +:+ " not found")
  | poItem :: _ =>
      let newQuantityReceived :=
        js_plus (PurchaseOrderItems.quantity_received poItem)
          (ReceiveGoods.quantity_received it) in
      if decide (js_gt newQuantityReceived
                   (PurchaseOrderItems.quantity_ordered poItem))
      then
        throw ("Cannot receive more than ordered quantity for item " +:+
               pretty po_item_id)
      else
        let newStatus :=
          if decide (js_strict_eq newQuantityReceived
                       (PurchaseOrderItems.quantity_ordered poItem))
          then "received" else "partially_received" in
        quantity_received ← integer_parameter newQuantityReceived;
        execute (with_purchase_order_items
                   (alter (λ poi, PurchaseOrderItems.Row
                                    (PurchaseOrderItems.po_id poi)
                                    (PurchaseOrderItems.product_id poi)
                                    (PurchaseOrderItems.quantity_ordered poi)
                                    quantity_received
                                    (PurchaseOrderItems.unit_cost poi)
                                    newStatus)
                          po_item_id));;
        supplier ← select (λ d, purchase_orders d !! ReceiveGoods.id req);
        match supplier with
        | None =>
            throw "Cannot read properties of undefined (reading 'supplier_id')"
        | Some po =>
            execute (λ d, with_inventory
                            (insert (next_id (inventory d))
                               (Inventory.Row
                                  (PurchaseOrderItems.product_id poItem)
                                  (PurchaseOrders.supplier_id po)
                                  (ReceiveGoods.batch_number it)
                                  (ReceiveGoods.lot_number it)
                                  (number_of
                                     (ReceiveGoods.quantity_received it)) 0
                                  (PurchaseOrderItems.unit_cost poItem)
                                  (ReceiveGoods.expiration_date it)
                                  (ReceiveGoods.now req) "active")) d)
        end
  end.

Definition receiveGoods_callback (req : ReceiveGoods.request)
    : Tx (option PurchaseOrders.row) :=
  let id := ReceiveGoods.id req in
  for_of (ReceiveGoods.items req) (receive_item req) tt;;
  po_items ← select (λ d,
    filter (λ kr, PurchaseOrderItems.po_id kr.2 = id)
           (map_to_list (purchase_order_items d)));
  let total_items := length po_items in
  let received_items :=
    length (filter (λ kr, PurchaseOrderItems.status kr.2 = "received") po_items) in
  let partial_items :=
    length (filter (λ kr, PurchaseOrderItems.status kr.2 = "partially_received")
                   po_items) in
  let poStatus :=
    if decide (received_items = total_items) then "received"
    else if decide (0 < partial_items ∨ 0 < received_items)%nat
         then "partially_received" else "ordered" in
  execute (with_purchase_orders
             (alter (λ po, PurchaseOrders.Row
                             (PurchaseOrders.supplier_id po) poStatus
                             (coalesce (ReceiveGoods.actual_delivery_date req)
                                (PurchaseOrders.actual_delivery_date po))
                             (coalesce (ReceiveGoods.notes req)
                                (PurchaseOrders.notes po)))
                    id));;
  select (λ d, purchase_orders d !! id).

Definition receiveGoods (req : ReceiveGoods.request) (d : db) : response * db :=
  if decide (ReceiveGoods.items req = []) then
    (failure 400 "No items to receive", d)
  else
    match transaction (receiveGoods_callback req) d with
    | (Returned (Some po), d') =>
        (Response 200 true "Goods received successfully" (ReceiptData po), d')
    | (Returned None, d') =>
        (Response 200 true "Goods received successfully" NoData, d')
    | (Thrown error, d') => (failure 500 "Error receiving goods", d')
    end.

(** ** InventoryController.inventoryAdjustment *)

Module InventoryAdjustment.
(** [id] is the route parameter after [parseInt]; a parameter that is not a
    number is [None]. *)
Record request := Request {
  id : option Z;
  adjustment_quantity : Z;
  reason : option string
}.
End InventoryAdjustment.

Section InventoryController.
(** The model layer (models/Inventory.js) is not part of the sources: its two
    functions are parameters of the controller. *)
Variable Inventory_findById : Z → Tx (option Inventory.row).
Variable Inventory_updateQuantity : Z → Z → string → Tx Inventory.row.

(** The quantity handed to [Inventory.updateQuantity]. *)
Definition newQuantity (current : Inventory.row) (adjustment_quantity : Z) : Z :=
  Z.max 0 (Inventory.quantity_on_hand current + adjustment_quantity).

(** The handler passes an error to [next]; the answer is then the error's
    status and message (500 for an error of the model layer). *)
Definition inventoryAdjustment (req : InventoryAdjustment.request) (d : db)
    : response * db :=
  match InventoryAdjustment.id req with
  | None => (failure 400 "Invalid inventory ID", d)
  | Some inventoryId =>
      if decide (inventoryId ≤ 0) then (failure 400 "Invalid inventory ID", d)
      else if blank (InventoryAdjustment.reason req) then
        (failure 400 "Reason is required for inventory adjustments", d)
      else
        match Inventory_findById inventoryId d with
        | (Thrown error, d1) => (failure 500 error, d1)
        | (Returned None, d1) => (failure 404 "Inventory record not found", d1)
        | (Returned (Some currentInventory), d1) =>
            let newQuantity :=
              newQuantity currentInventory
                (InventoryAdjustment.adjustment_quantity req) in
            match Inventory_updateQuantity inventoryId newQuantity
                    (default "" (InventoryAdjustment.reason req)) d1 with
            | (Thrown error, d2) => (failure 500 error, d2)
            | (Returned updatedInventory, d2) =>
                (Response 200 true "Inventory adjustment completed successfully"
                   (AdjustmentData inventoryId
                      (InventoryAdjustment.adjustment_quantity req)
                      (Inventory.quantity_on_hand currentInventory)
                      (Inventory.quantity_on_hand updatedInventory)), d2)
            end
        end
  end.
End InventoryController.

(** ** Expiry tiers *)

Inductive urgency := Expired | Critical | Warning | Watch.

(** ReportController.getExpirationReport, the CASE of [urgency_level]:
    dates are day numbers, so [expiration_date - CURRENT_DATE] is a number of
    days. *)
Definition urgency_level (expiration_date current_date : Z) : urgency :=
  if decide (expiration_date < current_date) then Expired
  else if decide (expiration_date - current_date ≤ 30) then Critical
  else if decide (expiration_date - current_date ≤ 60) then Warning
  else Watch.

(** The rows of the report: [i.expiration_date <= CURRENT_DATE + INTERVAL
    'days days'], with [days = 90] unless the query string gives another. *)
Definition within_horizon (days expiration_date current_date : Z) : Prop :=
  expiration_date ≤ current_date + days.

(** The conditions that the report adds to its WHERE clause when the query
    string asks for one [urgencyLevel]. *)
Definition urgency_filter (u : urgency) (expiration_date current_date : Z)
    : Prop :=
  match u with
  | Expired => expiration_date < current_date
  | Critical =>
      current_date ≤ expiration_date ∧ expiration_date ≤ current_date + 30
  | Warning =>
      current_date + 30 < expiration_date ∧ expiration_date ≤ current_date + 60
  | Watch => current_date + 60 < expiration_date
  end.

(** AlertController.generateExpirationAlerts, the CASE of [alert_type]; a
    CASE without ELSE yields NULL when no branch applies. *)
Definition alert_type (expiration_date current_date : Z) : option string :=
  if decide (expiration_date < current_date) then Some "expired"
  else if decide (expiration_date ≤ current_date + 30) then Some "30_days"
  else if decide (expiration_date ≤ current_date + 60) then Some "60_days"
  else if decide (expiration_date ≤ current_date + 90) then Some "90_days"
  else None.

(** AlertController.getAlertStats names the alert types by tier:
    '30_days' is counted as critical, '60_days' as warning, '90_days' as
    watch. *)
Definition alert_type_of_urgency (u : urgency) : string :=
  match u with
  | Expired => "expired"
  | Critical => "30_days"
  | Warning => "60_days"
  | Watch => "90_days"
  end.

(** ** PurchaseOrderController.cancelPurchaseOrder and
    updatePurchaseOrderStatus *)

Module CancelPurchaseOrder.
Record request := Request {
  id : Z;
  cancellation_reason : option string
}.
End CancelPurchaseOrder.

(** The UPDATE of the handler:
    [SET status = 'cancelled', notes = CONCAT(COALESCE(notes, ''), CASE ...
    END, 'Cancelled: ', $2) WHERE po_id = $1 RETURNING *]. The parameter [$2]
    occurs only as an argument of CONCAT, which takes arguments of any type,
    so PostgreSQL cannot tell the type of the parameter and refuses the
    statement before running it (error 42P18): the query throws and writes
    nothing, whatever the order and the reason are. *)
Definition cancel_update (id : Z) (reason : string)
    : Tx (option PurchaseOrders.row) :=
  throw "could not determine data type of parameter $2".

(** The two queries go to the pool one after the other, outside any
    transaction; the answer of a cancellation would carry the row that the
    UPDATE returns, and an error of a query is answered with 500. *)
Definition cancelPurchaseOrder (req : CancelPurchaseOrder.request) (d : db)
    : response * db :=
  let id := CancelPurchaseOrder.id req in
  match purchase_orders d !! id with
  | None => (failure 404 "Purchase order not found", d)
  | Some checked =>
      if decide (PurchaseOrders.status checked ∈ ["received"; "cancelled"]) then
        (failure 400
           "Cannot cancel a purchase order that is already received or cancelled",
         d)
      else
        match cancel_update id
                (string_or (CancelPurchaseOrder.cancellation_reason req)
                   "No reason provided") d with
        | (Returned (Some po), d') =>
            (Response 200 true "Purchase order cancelled successfully"
               (ReceiptData po), d')
        | (Returned None, d') =>
            (Response 200 true "Purchase order cancelled successfully" NoData,
             d')
        | (Thrown error, d') =>
            (failure 500 "Error cancelling purchase order", d')
        end
  end.

Module UpdatePurchaseOrderStatus.
Record request := Request {
  id : Z;
  status : string;
  notes : option string
}.
End UpdatePurchaseOrderStatus.

Definition validStatuses : list string :=
  ["pending"; "ordered"; "partially_received"; "received"; "cancelled"].

(** [UPDATE purchase_orders SET status = $1, notes = COALESCE($2, notes)
    WHERE po_id = $3 RETURNING *] *)
Definition updatePurchaseOrderStatus
    (req : UpdatePurchaseOrderStatus.request) (d : db) : response * db :=
  let id := UpdatePurchaseOrderStatus.id req in
  if decide (UpdatePurchaseOrderStatus.status req ∈ validStatuses) then
    let d' :=
      with_purchase_orders
        (alter (λ po, PurchaseOrders.Row
                        (PurchaseOrders.supplier_id po)
                        (UpdatePurchaseOrderStatus.status req)
                        (PurchaseOrders.actual_delivery_date po)
                        (coalesce (UpdatePurchaseOrderStatus.notes req)
                           (PurchaseOrders.notes po)))
               id) d in
    match purchase_orders d' !! id with
    | None => (failure 404 "Purchase order not found", d')
    | Some po =>
        (Response 200 true "Purchase order status updated successfully"
           (ReceiptData po), d')
    end
  else (failure 400 "Invalid status", d).

(** ** AlertController: the expiration alerts *)

Module ExpirationAlerts.
(** The table [expiration_alerts] is a map from [alert_id] to these rows. *)
Record row := Row {
  inventory_id : Z;
  product_id : Z;
  batch_number : option string;
  expiration_date : Z;
  quantity : Z;
  alert_type : string;
  alert_date : Z;
  is_acknowledged : bool;
  acknowledged_by : option Z;
  acknowledged_at : option Z;
  action_taken : option string
}.
End ExpirationAlerts.

(** [EXISTS (SELECT 1 FROM expiration_alerts ea WHERE ea.inventory_id = $1
    AND ea.expiration_date = $2 AND ea.alert_type = $3)] *)
Definition alert_exists (alerts : gmap Z ExpirationAlerts.row) (inventory_id expiration_date : Z)
    (type : string) : Prop :=
  Exists (λ ka : Z * ExpirationAlerts.row,
            ExpirationAlerts.inventory_id ka.2 = inventory_id ∧
            ExpirationAlerts.expiration_date ka.2 = expiration_date ∧
            ExpirationAlerts.alert_type ka.2 = type)
         (map_to_list alerts).

#[global] Instance alert_exists_dec alerts inventory_id expiration_date type :
  Decision (alert_exists alerts inventory_id expiration_date type).
Proof. unfold alert_exists. apply _. Defined.

(** The subquery of NOT EXISTS for a batch: an alert for this batch, this
    expiration date and the alert type that the CASE gives the date. A
    comparison with the NULL of a CASE that has no branch for the date is not
    true, so that there is no such alert then. *)
Definition has_alert (current_date : Z) (alerts : gmap Z ExpirationAlerts.row)
    (inventory_id expiration_date : Z) : Prop :=
  match alert_type expiration_date current_date with
  | Some type => alert_exists alerts inventory_id expiration_date type
  | None => False
  end.

#[global] Instance has_alert_dec current_date alerts inventory_id
    expiration_date :
  Decision (has_alert current_date alerts inventory_id expiration_date).
Proof. unfold has_alert. destruct (alert_type _ _); apply _. Defined.

(** A row of the query "inventory items that need alerts but don't have
    them yet". *)
Record alert_item := AlertItem {
  item_inventory_id : Z;
  item_product_id : Z;
  item_batch_number : option string;
  item_expiration_date : Z;
  item_quantity_on_hand : Z;
  item_alert_type : option string
}.

(** The WHERE clause of that query on one batch: active, some quantity on
    hand, an expiration date that is at most 90 days ahead, and no alert yet
    for this batch, this date and this alert type. *)
Definition needs_alert (current_date : Z) (alerts : gmap Z ExpirationAlerts.row)
    (kr : Z * Inventory.row) : option alert_item :=
  match Inventory.expiration_date kr.2 with
  | Some expiration_date =>
      if decide (Inventory.status kr.2 = "active" ∧
                 0 < Inventory.quantity_on_hand kr.2 ∧
                 expiration_date ≤ current_date + 90 ∧
                 ¬ has_alert current_date alerts kr.1 expiration_date)
      then Some (AlertItem kr.1 (Inventory.product_id kr.2)
                   (Inventory.batch_number kr.2) expiration_date
                   (Inventory.quantity_on_hand kr.2)
                   (alert_type expiration_date current_date))
      else None
  | None => None
  end.

Section AlertController.
(** The INSERT into [expiration_alerts] leaves [is_acknowledged] to the
    column default of the schema, which is not part of the sources. *)
Variable is_acknowledged_default : bool.

(** The row of the INSERT for an item of alert type [type]: [VALUES ($1,
    $2, $3, $4, $5, $6, CURRENT_DATE)]. *)
Definition alert_of (current_date : Z) (item : alert_item) (type : string)
    : ExpirationAlerts.row :=
  ExpirationAlerts.Row (item_inventory_id item) (item_product_id item)
    (item_batch_number item) (item_expiration_date item)
    (item_quantity_on_hand item) type current_date
    is_acknowledged_default None None None.

(** The body of [for (const item of inventoryItems.rows)]; the loop variable
    is [alertsCreated]. *)
Definition insert_alert (current_date : Z) (acc : nat * gmap Z ExpirationAlerts.row)
    (item : alert_item) : nat * gmap Z ExpirationAlerts.row :=
  match item_alert_type item with
  | Some type =>
      (S acc.1, <[next_id acc.2 := alert_of current_date item type]> acc.2)
  | None => acc
  end.

(** [generateExpirationAlerts] on the day [current_date]: the number of
    alerts created, which the answer carries as [alerts_created], and the
    alerts table that the transaction commits. *)
Definition generateExpirationAlerts (current_date : Z) (d : db)
    (alerts : gmap Z ExpirationAlerts.row) : nat * gmap Z ExpirationAlerts.row :=
  let inventoryItems :=
    omap (needs_alert current_date alerts) (map_to_list (inventory d)) in
  foldl (insert_alert current_date) (0%nat, alerts) inventoryItems.
End AlertController.

(** The answers of the handlers that acknowledge alerts: the status, the
    flag, the message and the rows of [data]. *)
Record alert_response := AlertResponse {
  alert_http_status : Z;
  alert_success : bool;
  alert_message : string;
  alert_data : list ExpirationAlerts.row
}.

Module AcknowledgeAlert.
(** [errors_isEmpty] is the verdict of the request validators, which are
    not part of the sources; [now] is the value of [NOW()]. *)
Record request := Request {
  id : Z;
  action_taken : option string;
  acknowledged_by : option Z;
  errors_isEmpty : bool;
  now : Z
}.
End AcknowledgeAlert.

(** [SET is_acknowledged = true, acknowledged_by = $1, acknowledged_at =
    NOW(), action_taken = $2] *)
Definition acknowledged (by_user : option Z) (now : Z) (action : option string)
    (a : ExpirationAlerts.row) : ExpirationAlerts.row :=
  ExpirationAlerts.Row (ExpirationAlerts.inventory_id a)
    (ExpirationAlerts.product_id a) (ExpirationAlerts.batch_number a)
    (ExpirationAlerts.expiration_date a) (ExpirationAlerts.quantity a)
    (ExpirationAlerts.alert_type a) (ExpirationAlerts.alert_date a)
    true by_user (Some now) action.

Definition acknowledgeAlert (req : AcknowledgeAlert.request)
    (alerts : gmap Z ExpirationAlerts.row) : alert_response * gmap Z ExpirationAlerts.row :=
  let id := AcknowledgeAlert.id req in
  if negb (AcknowledgeAlert.errors_isEmpty req) then
    (AlertResponse 400 false "Validation errors" [], alerts)
  else
    match alerts !! id with
    | None => (AlertResponse 404 false "Alert not found" [], alerts)
    | Some alertCheck =>
        if ExpirationAlerts.is_acknowledged alertCheck then
          (AlertResponse 400 false "Alert has already been acknowledged" [],
           alerts)
        else
          let alerts' :=
            alter (acknowledged (AcknowledgeAlert.acknowledged_by req)
                     (AcknowledgeAlert.now req)
                     (AcknowledgeAlert.action_taken req)) id alerts in
          (AlertResponse 200 true "Alert acknowledged successfully"
             (option_list (alerts' !! id)), alerts')
    end.

Module BulkAcknowledgeAlerts.
Record request := Request {
  alert_ids : list Z;
  action_taken : option string;
  acknowledged_by : option Z;
  now : Z
}.
End BulkAcknowledgeAlerts.

(** [WHERE alert_id = ANY($3::int[]) AND is_acknowledged = false] *)
Definition to_acknowledge (alert_ids : list Z) (k : Z)
    (a : ExpirationAlerts.row) : Prop :=
  k ∈ alert_ids ∧ ExpirationAlerts.is_acknowledged a = false.

#[global] Instance to_acknowledge_dec alert_ids k a :
  Decision (to_acknowledge alert_ids k a).
Proof. unfold to_acknowledge. apply _. Defined.

(** The UPDATE of [bulkAcknowledgeAlerts], with the rows it returns. *)
Definition bulkAcknowledgeAlerts (req : BulkAcknowledgeAlerts.request)
    (alerts : gmap Z ExpirationAlerts.row) : alert_response * gmap Z ExpirationAlerts.row :=
  let alert_ids := BulkAcknowledgeAlerts.alert_ids req in
  if decide (alert_ids = []) then
    (AlertResponse 400 false "Alert IDs array is required" [], alerts)
  else
    let acknowledge :=
      acknowledged (BulkAcknowledgeAlerts.acknowledged_by req)
        (BulkAcknowledgeAlerts.now req)
        (BulkAcknowledgeAlerts.action_taken req) in
    let result :=
      (λ ka, acknowledge ka.2) <$>
        filter (λ ka, to_acknowledge alert_ids ka.1 ka.2)
               (map_to_list alerts) in
    (AlertResponse 200 true
       (pretty (length result) +:+ " alerts acknowledged successfully") result,
     map_imap (λ k a, Some (if decide (to_acknowledge alert_ids k a)
                            then acknowledge a else a)) alerts).

(** ** ReportController.getExpirationReport *)

Module ExpirationReport.
(** [days] is [parseInt(days)], 90 when the query string gives none;
    [sortBy] is 'expiration_date' when the query string gives none. *)
Record request := Request {
  days : Z;
  urgencyLevel : option string;
  categoryId : option Z;
  sortBy : string
}.

(** A row of the report; the amounts are the numbers before [toFixed(2)]
    prints them. *)
Record item := Item {
  inventoryId : Z;
  productId : Z;
  quantityOnHand : Z;
  unitCost : Q;
  expirationDate : Z;
  daysToExpiry : Z;
  urgencyLevel_of : urgency;
  valueAtRisk : Q
}.

Record tally := Tally {
  count : nat;
  quantity : Z;
  value : Q
}.

Record summary := Summary {
  expired : tally;
  critical : tally;
  warning : tally;
  watch : tally
}.

Record report := Report {
  totalItems : nat;
  totalQuantityAtRisk : Z;
  totalValueAtRisk : Q;
  urgencyBreakdown : summary;
  items : list item
}.
End ExpirationReport.

(** The conditions that [switch (urgencyLevel)] pushes; a level that is
    none of the four cases, the empty string among them, pushes none. *)
Definition urgency_conditions (urgencyLevel : option string)
    (expiration_date current_date : Z) : Prop :=
  match urgencyLevel with
  | Some level =>
      if decide (level = "expired") then
        urgency_filter Expired expiration_date current_date
      else if decide (level = "critical") then
        urgency_filter Critical expiration_date current_date
      else if decide (level = "warning") then
        urgency_filter Warning expiration_date current_date
      else if decide (level = "watch") then
        urgency_filter Watch expiration_date current_date
      else True
  | None => True
  end.

#[global] Instance within_horizon_dec days e c :
  Decision (within_horizon days e c).
Proof. unfold within_horizon. apply _. Defined.

#[global] Instance urgency_filter_dec u e c : Decision (urgency_filter u e c).
Proof. destruct u; simpl; apply _. Defined.

#[global] Instance urgency_conditions_dec l e c :
  Decision (urgency_conditions l e c).
Proof.
  unfold urgency_conditions. destruct l; [|apply _].
  repeat case_decide; apply _.
Defined.

(** [ORDER BY value_at_risk DESC], [i.quantity_on_hand DESC] or
    [i.expiration_date ASC], by [sortBy]. *)
Definition report_order (sortBy : string) (a b : ExpirationReport.item) : Prop :=
  if decide (sortBy = "value_at_risk") then
    Qle_bool (ExpirationReport.valueAtRisk b) (ExpirationReport.valueAtRisk a)
      = true
  else if decide (sortBy = "quantity") then
    ExpirationReport.quantityOnHand b ≤ ExpirationReport.quantityOnHand a
  else ExpirationReport.expirationDate a ≤ ExpirationReport.expirationDate b.

#[global] Instance report_order_dec sortBy : RelDecision (report_order sortBy).
Proof. intros a b. unfold report_order. repeat case_decide; apply _. Defined.

(** [summary[urgency].count += 1; summary[urgency].quantity += ...;
    summary[urgency].value += ...] *)
Definition add_to_tally (row : ExpirationReport.item)
    (t : ExpirationReport.tally) : ExpirationReport.tally :=
  ExpirationReport.Tally
    (S (ExpirationReport.count t))
    (ExpirationReport.quantity t + ExpirationReport.quantityOnHand row)
    (ExpirationReport.value t + ExpirationReport.valueAtRisk row)%Q.

Definition summarize (s : ExpirationReport.summary)
    (row : ExpirationReport.item) : ExpirationReport.summary :=
  match ExpirationReport.urgencyLevel_of row with
  | Expired =>
      ExpirationReport.Summary (add_to_tally row (ExpirationReport.expired s))
        (ExpirationReport.critical s) (ExpirationReport.warning s)
        (ExpirationReport.watch s)
  | Critical =>
      ExpirationReport.Summary (ExpirationReport.expired s)
        (add_to_tally row (ExpirationReport.critical s))
        (ExpirationReport.warning s) (ExpirationReport.watch s)
  | Warning =>
      ExpirationReport.Summary (ExpirationReport.expired s)
        (ExpirationReport.critical s)
        (add_to_tally row (ExpirationReport.warning s))
        (ExpirationReport.watch s)
  | Watch =>
      ExpirationReport.Summary (ExpirationReport.expired s)
        (ExpirationReport.critical s) (ExpirationReport.warning s)
        (add_to_tally row (ExpirationReport.watch s))
  end.

Section ReportController.
(** The column [category_id] of [products], which the product rows above
    leave out; NULL is [None]. *)
Variable category_id : Products.row → option Z.

(** [p.category_id = $1], pushed when the query string gives a
    [categoryId]. *)
Definition category_condition (categoryId : option Z) (p : Products.row)
    : Prop :=
  match categoryId with
  | Some c => category_id p = Some c
  | None => True
  end.

#[global] Instance category_condition_dec c p :
  Decision (category_condition c p).
Proof. destruct c; simpl; apply _. Defined.

(** The WHERE clause and the select list on one batch joined with its
    product. A comparison with a NULL expiration date or category is not
    true. *)
Definition expiration_row (req : ExpirationReport.request) (current_date : Z)
    (d : db) (kr : Z * Inventory.row) : option ExpirationReport.item :=
  match products d !! Inventory.product_id kr.2,
        Inventory.expiration_date kr.2 with
  | Some p, Some expiration_date =>
      if decide (Inventory.status kr.2 = "active" ∧
                 0 < Inventory.quantity_on_hand kr.2 ∧
                 within_horizon (ExpirationReport.days req) expiration_date
                   current_date ∧
                 urgency_conditions (ExpirationReport.urgencyLevel req)
                   expiration_date current_date ∧
                 category_condition (ExpirationReport.categoryId req) p)
      then Some (ExpirationReport.Item kr.1 (Inventory.product_id kr.2)
                   (Inventory.quantity_on_hand kr.2) (Inventory.unit_cost kr.2)
                   expiration_date (expiration_date - current_date)
                   (urgency_level expiration_date current_date)
                   (inject_Z (Inventory.quantity_on_hand kr.2) *
                    Inventory.unit_cost kr.2)%Q)
      else None
  | _, _ => None
  end.

Definition getExpirationReport (req : ExpirationReport.request)
    (current_date : Z) (d : db) : ExpirationReport.report :=
  let rows :=
    merge_sort (report_order (ExpirationReport.sortBy req))
      (omap (expiration_row req current_date d) (map_to_list (inventory d))) in
  let zero := ExpirationReport.Tally 0 0 0 in
  ExpirationReport.Report
    (length rows)
    (foldl (λ sum row, sum + ExpirationReport.quantityOnHand row) 0 rows)
    (foldl (λ sum row, sum + ExpirationReport.valueAtRisk row)%Q 0%Q rows)
    (foldl summarize (ExpirationReport.Summary zero zero zero zero) rows)
    rows.
End ReportController.

(** The names that the report gives the tiers. *)
Definition urgency_name (u : urgency) : string :=
  match u with
  | Expired => "expired"
  | Critical => "critical"
  | Warning => "warning"
  | Watch => "watch"
  end.

(** The tally of a tier in the breakdown. *)
Definition tally_of (s : ExpirationReport.summary) (u : urgency)
    : ExpirationReport.tally :=
  match u with
  | Expired => ExpirationReport.expired s
  | Critical => ExpirationReport.critical s
  | Warning => ExpirationReport.warning s
  | Watch => ExpirationReport.watch s
  end.

(** ** AlertController.getLowStockAlerts and
    ReportController.getLowStockReport *)

(** [COALESCE(SUM(i.quantity_available), 0)] over [LEFT JOIN inventory i ON
    i.product_id = p.product_id AND i.status = 'active']. *)
Definition total_available (d : db) (product_id : Z) : Z :=
  foldr (λ kr sum, Inventory.quantity_available kr.2 + sum) 0
    (filter (λ kr : Z * Inventory.row,
               Inventory.product_id kr.2 = product_id ∧
               Inventory.status kr.2 = "active")
            (map_to_list (inventory d))).

Record stock_row := StockRow {
  stock_product_id : Z;
  current_stock : Z;
  minimum_level : Z;
  reorder_level : Z;
  shortage_quantity : Z;
  stock_status : string
}.

(** The CASE of [getLowStockAlerts]. *)
Definition alert_stock_status (current minimum reorder : Z) : string :=
  if decide (current ≤ 0) then "Out of Stock"
  else if decide (current ≤ minimum) then "Low Stock"
  else if decide (current ≤ reorder) then "Reorder Point"
  else "Normal".

(** [ORDER BY shortage_quantity DESC] and [ORDER BY shortage_quantity DESC,
    total_available ASC]. *)
Definition shortage_desc (a b : stock_row) : Prop :=
  shortage_quantity b ≤ shortage_quantity a.

Definition shortage_desc_available_asc (a b : stock_row) : Prop :=
  shortage_quantity b < shortage_quantity a ∨
  (shortage_quantity b = shortage_quantity a ∧
   current_stock a ≤ current_stock b).

#[global] Instance shortage_desc_dec : RelDecision shortage_desc.
Proof. intros a b. unfold shortage_desc. apply _. Defined.

#[global] Instance shortage_desc_available_asc_dec :
  RelDecision shortage_desc_available_asc.
Proof. intros a b. unfold shortage_desc_available_asc. apply _. Defined.

(** The counters of the low stock report; the estimated restock value, which
    needs the unit cost of the product, is left out. *)
Record stock_summary := StockSummary {
  totalProducts : nat;
  outOfStock : nat;
  critical_products : nat;
  low : nat;
  reorder : nat
}.

(** [switch (row.stock_status)] of the report's [forEach]. *)
Definition count_status (s : stock_summary) (row : stock_row) : stock_summary :=
  if decide (stock_status row = "out_of_stock") then
    StockSummary (totalProducts s) (S (outOfStock s)) (critical_products s)
      (low s) (reorder s)
  else if decide (stock_status row = "critical") then
    StockSummary (totalProducts s) (outOfStock s) (S (critical_products s))
      (low s) (reorder s)
  else if decide (stock_status row = "low") then
    StockSummary (totalProducts s) (outOfStock s) (critical_products s)
      (S (low s)) (reorder s)
  else if decide (stock_status row = "reorder") then
    StockSummary (totalProducts s) (outOfStock s) (critical_products s)
      (low s) (S (reorder s))
  else s.

Section LowStock.
(** The columns [minimum_stock_level], [reorder_point] and [category_id] of
    [products], which the product rows above leave out, and
    [config.pharmacy.criticalStockThreshold]. *)
Variable minimum_stock_level : Products.row → Z.
Variable reorder_point : Products.row → Z.
Variable category_id : Products.row → option Z.
Variable criticalStockThreshold : Z.

(** A group of [getLowStockAlerts] with its HAVING clause. *)
Definition low_stock_alert (d : db) (kp : Z * Products.row) : option stock_row :=
  let current := total_available d kp.1 in
  if decide (Products.is_active kp.2 = true ∧
             current ≤ minimum_stock_level kp.2)
  then Some (StockRow kp.1 current (minimum_stock_level kp.2)
               (reorder_point kp.2) (minimum_stock_level kp.2 - current)
               (alert_stock_status current (minimum_stock_level kp.2)
                  (reorder_point kp.2)))
  else None.

(** [limit] is the LIMIT of the query, 20 when the query string gives
    none. *)
Definition getLowStockAlerts (limit : nat) (d : db) : list stock_row :=
  take limit
    (merge_sort shortage_desc (omap (low_stock_alert d) (map_to_list (products d)))).

(** The CASE of [getLowStockReport]. *)
Definition report_stock_status (current minimum reorder : Z) : string :=
  if decide (current ≤ 0) then "out_of_stock"
  else if decide (current ≤ criticalStockThreshold) then "critical"
  else if decide (current ≤ minimum) then "low"
  else if decide (current ≤ reorder) then "reorder"
  else "normal".

(** The HAVING clause of [getLowStockReport]: [<= 5] when [criticalOnly] is
    'true', [<= p.minimum_stock_level] otherwise. *)
Definition report_having (criticalOnly : string) (current : Z)
    (p : Products.row) : Prop :=
  if decide (criticalOnly = "true") then current ≤ 5
  else current ≤ minimum_stock_level p.

#[global] Instance report_having_dec criticalOnly current p :
  Decision (report_having criticalOnly current p).
Proof. unfold report_having. case_decide; apply _. Defined.

(** A group of [getLowStockReport] with its WHERE and HAVING clauses. *)
Definition low_stock_product (categoryId : option Z) (criticalOnly : string)
    (d : db) (kp : Z * Products.row) : option stock_row :=
  let current := total_available d kp.1 in
  if decide (Products.is_active kp.2 = true ∧
             category_condition category_id categoryId kp.2 ∧
             report_having criticalOnly current kp.2)
  then Some (StockRow kp.1 current (minimum_stock_level kp.2)
               (reorder_point kp.2) (minimum_stock_level kp.2 - current)
               (report_stock_status current (minimum_stock_level kp.2)
                  (reorder_point kp.2)))
  else None.

(** [criticalOnly] is 'false' when the query string gives none. *)
Definition getLowStockReport (categoryId : option Z) (criticalOnly : string)
    (d : db) : stock_summary * list stock_row :=
  let rows :=
    merge_sort shortage_desc_available_asc
      (omap (low_stock_product categoryId criticalOnly d)
            (map_to_list (products d))) in
  (foldl count_status (StockSummary (length rows) 0 0 0 0) rows, rows).
End LowStock.

(** ** Pagination of SalesController.getSales and AlertController.getAllAlerts *)

(** [page] and [limit] are the numbers that the query string gives, 1 and
    20 (50 for the alerts) when it gives none. *)

(** [Math.ceil(total / limit)], for a [limit] that is not zero. *)
Definition ceil_div (total limit : Z) : Z := - ((- total) / limit).

(** [const offset = (page - 1) * limit], in both handlers. *)
Definition offset (page limit : Z) : Z := (page - 1) * limit.

Record sales_pagination := SalesPagination {
  currentPage : Z;
  totalPages : Z;
  totalItems : Z;
  itemsPerPage : Z;
  hasNextPage : bool;
  hasPrevPage : bool
}.

(** The [pagination] object of [getSales]. *)
Definition getSales_pagination (page limit total : Z) : sales_pagination :=
  let totalPages := ceil_div total limit in
  SalesPagination page totalPages total limit
    (bool_decide (page < totalPages)) (bool_decide (1 < page)).

Record alerts_pagination := AlertsPagination {
  alerts_currentPage : Z;
  alerts_totalPages : Z;
  totalRecords : Z;
  hasNext : bool;
  hasPrev : bool
}.

(** The [pagination] object of [getAllAlerts]. *)
Definition getAllAlerts_pagination (page limit totalRecords : Z)
    : alerts_pagination :=
  AlertsPagination page (ceil_div totalRecords limit) totalRecords
    (bool_decide (page * limit < totalRecords)) (bool_decide (1 < page)).

(** ** InventoryController.bulkUpdateQuantities *)

Module BulkUpdateQuantities.
Record update := Update {
  inventory_id : Z;
  new_quantity : Z;
  reason : option string
}.

(** An element of [validatedUpdates]. *)
Record validated := Validated {
  v_inventory_id : Z;
  v_new_quantity : Z;
  v_reason : string
}.
End BulkUpdateQuantities.

(** The answers of the handler: the status, the flag, the message and the
    rows of [data]. *)
Record rows_response := RowsResponse {
  rows_http_status : Z;
  rows_success : bool;
  rows_message : string;
  rows_data : list Inventory.row
}.

(** [updates.map((update, index) => ...)] from [index] on: the first update
    that does not pass throws, and no array is built. *)
Fixpoint validate_updates (index : nat)
    (updates : list BulkUpdateQuantities.update)
    : string + list BulkUpdateQuantities.validated :=
  match updates with
  | [] => inr []
  | update :: rest =>
      if decide (BulkUpdateQuantities.inventory_id update ≤ 0) then
        inl ("Update at index " +:+ pretty index +:+ ": Invalid inventory ID")
      else if decide (BulkUpdateQuantities.new_quantity update < 0) then
        inl ("Update at index " +:+ pretty index +:+
             ": Quantity must be a non-negative number")
      else
        match validate_updates (S index) rest with
        | inl error => inl error
        | inr validated =>
            inr (BulkUpdateQuantities.Validated
                   (BulkUpdateQuantities.inventory_id update)
                   (BulkUpdateQuantities.new_quantity update)
                   (string_or (BulkUpdateQuantities.reason update)
                      "Bulk update") :: validated)
        end
  end.

Section BulkUpdate.
(** The model layer (models/Inventory.js) is not part of the sources. *)
Variable Inventory_bulkUpdateQuantities :
  list BulkUpdateQuantities.validated → Tx (list Inventory.row).

(** The handler passes an error to [next]; the answer is then the error's
    status and message (500 for an error of the model layer). *)
Definition bulkUpdateQuantities (updates : list BulkUpdateQuantities.update)
    (d : db) : rows_response * db :=
  if decide (updates = []) then
    (RowsResponse 400 false "Updates array is required" [], d)
  else if decide (100 < length updates)%nat then
    (RowsResponse 400 false
       "Cannot update more than 100 inventory records at once" [], d)
  else
    match validate_updates 0 updates with
    | inl error => (RowsResponse 400 false error [], d)
    | inr validatedUpdates =>
        match Inventory_bulkUpdateQuantities validatedUpdates d with
        | (Thrown error, d1) => (RowsResponse 500 false error [], d1)
        | (Returned updatedInventory, d1) =>
            (RowsResponse 200 true
               (pretty (length updatedInventory) +:+
                " inventory records updated successfully") updatedInventory,
             d1)
        end
    end.
End BulkUpdate.

(** One validated update, as [validate_updates] builds it. *)
Definition validated_of (update : BulkUpdateQuantities.update)
    : BulkUpdateQuantities.validated :=
  BulkUpdateQuantities.Validated
    (BulkUpdateQuantities.inventory_id update)
    (BulkUpdateQuantities.new_quantity update)
    (string_or (BulkUpdateQuantities.reason update) "Bulk update").


(** ** Observations used in the statements *)

(** The quantity on hand of a batch, when the batch exists. *)
Definition on_hand (d : db) (id : Z) : option Z :=
  Inventory.quantity_on_hand <$> inventory d !! id.

(** The signed sum of the deltas of a list of movements. *)
Definition signed_sum (log : list StockMovements.row) : Z :=
  foldr (λ m s, StockMovements.quantity_change m + s) 0 log.

(** The movements written after the log had [n] rows. *)
Definition written_since (n : nat) (log : list StockMovements.row)
    : list StockMovements.row :=
  drop n log.

(** The batch that the receipt of the line [it] inserts. *)
Definition received_batch (it : ReceiveGoods.item) (now : Z) (i : Inventory.row)
    : Prop :=
  Inventory.batch_number i = ReceiveGoods.batch_number it ∧
  Inventory.lot_number i = ReceiveGoods.lot_number it ∧
  Inventory.expiration_date i = ReceiveGoods.expiration_date it ∧
  Inventory.quantity_on_hand i =
    number_of (ReceiveGoods.quantity_received it) ∧
  Inventory.quantity_reserved i = 0 ∧
  Inventory.received_date i = now ∧
  Inventory.status i = "active".

(** ** The core operations *)

Inductive operation : Type :=
  | Sale (req : CreateSale.request)
  | Refund (req : ProcessRefund.request)
  | Adjustment (req : CreateAdjustment.request)
  | Transfer (req : CreateTransfer.request)
  | Receipt (req : ReceiveGoods.request).

(** One request served on the committed database: the answer and the
    database that persists. *)
Definition run (payment_status_default : string) (number_to_string : Q → string)
    (op : operation) (d : db) : response * db :=
  match op with
  | Sale req => createSale payment_status_default req d
  | Refund req => processRefund number_to_string req d
  | Adjustment req => createAdjustment req d
  | Transfer req => createTransfer req d
  | Receipt req => receiveGoods req d
  end.

(** ** Observations used in the further statements *)

(** The quantity that an allocation, a list of (batch id, quantity taken),
    takes from batch [k]. *)
Definition taken (alloc : list (Z * Z)) (k : Z) : Z :=
  foldr (λ a s, if decide (a.1 = k) then a.2 + s else s) 0 alloc.

(** The batches that a sale's lines were allocated to, as the callback keeps
    them in [processedItems]. *)
Definition allocation (ps : list CreateSale.processed_item) : list (Z * Z) :=
  (λ p, (CreateSale.p_inventoryId p, CreateSale.p_quantity p)) <$> ps.

(** The reservations, then the decrements, of the lines of an allocation. *)
Definition reserve_all (alloc : list (Z * Z)) (m : gmap Z Inventory.row)
    : gmap Z Inventory.row :=
  foldl (λ m a, alter (reserve a.2) a.1 m) m alloc.

Definition consume_all (alloc : list (Z * Z)) (m : gmap Z Inventory.row)
    : gmap Z Inventory.row :=
  foldl (λ m a, alter (consume a.2) a.1 m) m alloc.

(** Invariant 1 of the data model on one batch and on the whole table. *)
Definition batch_ok (i : Inventory.row) : Prop :=
  0 ≤ Inventory.quantity_reserved i ≤ Inventory.quantity_on_hand i.

Definition inventory_ok (d : db) : Prop :=
  ∀ k i, inventory d !! k = Some i → batch_ok i.


(** A line [it] of a sale is served by the allocation entry [a] (batch id,
    quantity taken) on the batches [m]: the whole quantity of the line, on
    the batch the line names if it names one, on an active batch of the
    line's product. *)
Definition serves (m : gmap Z Inventory.row) (it : CreateSale.item)
    (a : Z * Z) : Prop :=
  a.2 = CreateSale.quantity it ∧ 0 < CreateSale.quantity it ∧
  (∀ id, truthy_id (CreateSale.inventoryId it) = Some id → a.1 = id) ∧
  ∃ i, m !! a.1 = Some i ∧
       Inventory.product_id i = CreateSale.productId it ∧
       Inventory.status i = "active".

(** Batch [k] is the row that the query "first expiring available
    inventory" returns for the line [it] on the working database [w]: a
    batch of [w] that is eligible for the line on its own, and that every
    eligible batch follows in the order of the query. *)
Definition first_expiring (w : db) (it : CreateSale.item) (k : Z) : Prop :=
  ∃ i, inventory w !! k = Some i ∧
       eligible (CreateSale.productId it) (CreateSale.quantity it) i ∧
       ∀ k' i', inventory w !! k' = Some i' →
                eligible (CreateSale.productId it) (CreateSale.quantity it) i' →
                expiration_le (k, i) (k', i').

(** The allocation [alloc] serves the lines [items] of a sale on [d], first
    expiring first: entry [n] takes the whole quantity of line [n] from one
    batch, and when line [n] pins no batch, that batch is the first expiring
    one on the batches as the lines before it have left them, their
    quantities reserved. *)
Definition fifo_allocation (d : db) (items : list CreateSale.item)
    (alloc : list (Z * Z)) : Prop :=
  Forall2 (λ it a, a.2 = CreateSale.quantity it) items alloc ∧
  ∀ n it a, items !! n = Some it → alloc !! n = Some a →
    truthy_id (CreateSale.inventoryId it) = None →
    first_expiring (with_inventory (reserve_all (take n alloc)) d) it a.1.

(** The signed sum of the movements of a log that are about batch [k]. *)
Definition signed_sum_of (k : Z) (log : list StockMovements.row) : Z :=
  signed_sum (filter (λ m, StockMovements.inventory_id m = k) log).

(** The movements that the log of [d'] has after those of [d]. *)
Definition written (d d' : db) : list StockMovements.row :=
  written_since (length (stock_movements d)) (stock_movements d').

(** Invariant 3 of the data model between two states of the database: the
    log has only grown, every movement written carries a quantity after
    that is its quantity before plus its delta, and every batch's quantity
    on hand has changed by the signed sum of the movements written about
    it. *)
Definition accounted (d d' : db) : Prop :=
  stock_movements d' = stock_movements d ++ written d d' ∧
  Forall (λ m, StockMovements.quantity_after m =
               StockMovements.quantity_before m +
               StockMovements.quantity_change m) (written d d') ∧
  ∀ k, on_hand d' k = (λ q, q + signed_sum_of k (written d d')) <$> on_hand d k.


(** Requests served one after the other, each on the database that the one
    before has left. *)
Definition serve (payment_status_default : string)
    (number_to_string : Q → string) (ops : list operation) (d : db) : db :=
  foldl (λ d op, (run payment_status_default number_to_string op d).2) d ops.

(** The amount that the refund loop adds for [q] units of a sale line:
    [(line_total / quantity) * quantityToRefund]. *)
Definition itemRefundAmount (line : SaleItems.row) (q : Z) : Q :=
  (SaleItems.line_total line / inject_Z (SaleItems.quantity line) *
   inject_Z q)%Q.

(** The lines of a goods receipt as (purchase order line, quantity) pairs. *)
Definition receipts (items : list ReceiveGoods.item) : list (Z * Z) :=
  (λ it, (ReceiveGoods.po_item_id it,
          number_of (ReceiveGoods.quantity_received it))) <$> items.

(** No purchase order line has received more than was ordered. *)
Definition po_items_ok (d : db) : Prop :=
  ∀ k poi, purchase_order_items d !! k = Some poi →
    PurchaseOrderItems.quantity_received poi ≤
    PurchaseOrderItems.quantity_ordered poi.

(** The status that a goods receipt gives the purchase order [id], from the
    statuses of the order's lines. *)
Definition poStatus (id : Z) (d : db) : string :=
  let po_items :=
    filter (λ kr, PurchaseOrderItems.po_id kr.2 = id)
           (map_to_list (purchase_order_items d)) in
  if decide (length (filter (λ kr, PurchaseOrderItems.status kr.2 = "received")
                       po_items) = length po_items)
  then "received"
  else if decide (0 < length (filter (λ kr, PurchaseOrderItems.status kr.2 =
                                            "partially_received") po_items) ∨
                  0 < length (filter (λ kr, PurchaseOrderItems.status kr.2 =
                                            "received") po_items))%nat
       then "partially_received" else "ordered".

(** Two rows of one batch that differ at most in their quantities. *)
Definition same_batch (i i' : Inventory.row) : Prop :=
  Inventory.product_id i' = Inventory.product_id i ∧
  Inventory.supplier_id i' = Inventory.supplier_id i ∧
  Inventory.batch_number i' = Inventory.batch_number i ∧
  Inventory.lot_number i' = Inventory.lot_number i ∧
  Inventory.unit_cost i' = Inventory.unit_cost i ∧
  Inventory.expiration_date i' = Inventory.expiration_date i ∧
  Inventory.received_date i' = Inventory.received_date i ∧
  Inventory.status i' = Inventory.status i.

(** Between two states of the database the products are the same and every
    batch is still there, changed at most in its quantities. *)
Definition quantities_only (d d' : db) : Prop :=
  products d' = products d ∧
  ∀ k i, inventory d !! k = Some i →
    ∃ i', inventory d' !! k = Some i' ∧ same_batch i i'.

(** Every sale line was sold with a positive quantity. *)
Definition sold_positive (d : db) : Prop :=
  map_Forall (λ _ line, 0 < SaleItems.quantity line) (sale_items d).

(** ** Example data *)

Module Examples.
Definition aspirin : Products.row := Products.Row "Aspirin" false 0 true.

(** Batch X: on_hand 10, expires 2024-01-01 (day 19723). *)
Definition batch_X : Inventory.row :=
  Inventory.Row 1 1 (Some "X") None 10 0 1 (Some 19723) 19000 "active".

(** Batch Y: on_hand 10, expires 2024-06-01 (day 19875). *)
Definition batch_Y : Inventory.row :=
  Inventory.Row 1 1 (Some "Y") None 10 0 1 (Some 19875) 19000 "active".

(** Product 1 with batch X under id 1 and batch Y under id 2. *)
Definition pharmacy : db :=
  Db {[1 := aspirin]} {[1 := batch_X; 2 := batch_Y]} ∅ ∅ [] ∅ ∅.

(** A cash sale of [q] units of product 1 at unit price 1, no pinned batch,
    paid exactly. *)
Definition sale_of (q : Z) : CreateSale.request :=
  CreateSale.Request None [CreateSale.Item 1 q 1 0 None] "cash" None None
    0 (Some (inject_Z q)) None 7.

(** Two lines of product 1: 5 units, then 15 units. *)
Definition two_line_sale : CreateSale.request :=
  CreateSale.Request None
    [CreateSale.Item 1 5 1 0 None; CreateSale.Item 1 15 1 0 None]
    "cash" None None 0 (Some 20%Q) None 7.

Definition number_to_string (a : Q) : string :=
  pretty (Qnum a) +:+ "/" +:+ pretty (Z.pos (Qden a)).

(** A batch of product 1 with 3 units on hand, under id 1. *)
Definition batch_of_3 : Inventory.row :=
  Inventory.Row 1 1 (Some "Z") None 3 0 1 (Some 19875) 19000 "active".

Definition shelf : db := Db {[1 := aspirin]} {[1 := batch_of_3]} ∅ ∅ [] ∅ ∅.

(** [Inventory.findById] as the lookup of the batch row. *)
Definition findById (id : Z) : Tx (option Inventory.row) :=
  select (λ d, inventory d !! id).

(** An [Inventory.updateQuantity] that stores the quantity it is given. *)
Definition updateQuantity (id quantity : Z) (reason : string)
    : Tx Inventory.row :=
  λ d, match inventory d !! id with
       | Some i =>
           (Returned (Inventory.set_quantity_on_hand quantity i),
            with_inventory (alter (Inventory.set_quantity_on_hand quantity) id) d)
       | None => (Thrown "Inventory record not found", d)
       end.

(** [adjustment_quantity = -5], reason "damaged", on batch 1. *)
Definition adjustment_of_minus_5 : InventoryAdjustment.request :=
  InventoryAdjustment.Request (Some 1) (-5) (Some "damaged").

(** The same adjustment sent to the stock movement controller. *)
Definition movement_of_minus_5 : CreateAdjustment.request :=
  CreateAdjustment.Request 1 "adjustment" (-5) (Some "damaged") None 7.

(** Purchase order 1 of supplier 1 with one line: 20 units of product 1
    ordered at unit cost 1, none received yet; batch X, of the same product
    and supplier, is in stock. *)
Definition depot : db :=
  Db {[1 := aspirin]} {[1 := batch_X]} ∅ ∅ []
     {[1 := PurchaseOrders.Row 1 "ordered" None None]}
     {[1 := PurchaseOrderItems.Row 1 1 20 0 1 "ordered"]}.

(** Receipt of 5 units with the batch number, lot number and expiration date
    of batch X. *)
Definition receipt_matching_X : ReceiveGoods.request :=
  ReceiveGoods.Request 1
    [ReceiveGoods.Item 1 (AsNumber 5) (Some "X") (Some 19723) None]
    None None 19500.

(** The pharmacy after the sale of 5 units: sale 1 with the sale line 1,
    taken from batch X. *)
Definition sold_pharmacy : db := (createSale "completed" (sale_of 5) pharmacy).2.

(** The refund of the 5 units of sale line 1. *)
Definition full_refund : ProcessRefund.request :=
  ProcessRefund.Request 1 [ProcessRefund.Item 1 5] None None 7.

(** One refund call that lists sale line 1 twice, 5 units each time. *)
Definition double_refund : ProcessRefund.request :=
  ProcessRefund.Request 1 [ProcessRefund.Item 1 5; ProcessRefund.Item 1 5]
    None None 7.

(** 4 units from batch 1 to batch 2. *)
Definition transfer_of_4 : CreateTransfer.request :=
  CreateTransfer.Request (AsNumber 1) (AsNumber 2) 4 (Some "shelf move") 7.

(** 4 units from batch 1 to batch 1, named once by the number and once by
    the string: the body [{ fromInventoryId: 1, toInventoryId: '1',
    quantity: 4, reason: 'shelf move' }]. *)
Definition transfer_to_itself : CreateTransfer.request :=
  CreateTransfer.Request (AsNumber 1) (AsString 1) 4 (Some "shelf move") 7.
End Examples.

Module AlertExamples.
(** An open alert on batch X and an alert on batch Y that user 3 has
    acknowledged. *)
Definition open_alert : ExpirationAlerts.row :=
  ExpirationAlerts.Row 1 1 (Some "X") 19723 10 "30_days" 19700
    false None None None.

Definition closed_alert : ExpirationAlerts.row :=
  ExpirationAlerts.Row 2 1 (Some "Y") 19875 10 "90_days" 19700
    true (Some 3) (Some 19701) (Some "returned to supplier").

Definition alerts : gmap Z ExpirationAlerts.row :=
  {[1 := open_alert; 2 := closed_alert]}.

(** User 7 acknowledges alerts 1 and 2 in one request. *)
Definition acknowledge_both : BulkAcknowledgeAlerts.request :=
  BulkAcknowledgeAlerts.Request [1; 2] (Some "checked") (Some 7) 19710.
End AlertExamples.

(** * Properties *)

(** ** Fresh keys and the computation monad *)

Lemma foldr_max_bound {V : Type} (l : list (Z * V)) k v :
  (k, v) ∈ l → k ≤ foldr Z.max 0 (l.*1).
Proof.
  induction l as [|[k' v'] l IH]; intros Hin.
  - by apply elem_of_nil in Hin.
  - rewrite fmap_cons. simpl. apply elem_of_cons in Hin as [Heq|Hin].
    + injection Heq as -> ->. lia.
    + specialize (IH Hin). lia.
Qed.

Lemma next_id_fresh {V : Type} (t : gmap Z V) : t !! next_id t = None.
Proof.
  destruct (t !! next_id t) as [v|] eqn:E; [|done]. exfalso.
  apply elem_of_map_to_list in E. apply foldr_max_bound in E.
  unfold next_id in E. lia.
Qed.

Lemma alter_as_insert {V : Type} (f : V → V) (m : gmap Z V) i x :
  m !! i = Some x → alter f i m = <[i := f x]> m.
Proof.
  intros Hi. rewrite <- (insert_id m i x) at 1 by done.
  apply alter_insert_eq.
Qed.

Lemma bind_run {A B : Type} (c : Tx A) (k : A → Tx B) d :
  (c ≫= k) d =
  match c d with
  | (Returned a, d') => k a d'
  | (Thrown e, d') => (Thrown e, d')
  end.
Proof. reflexivity. Qed.

Lemma bind_returned {A B : Type} (c : Tx A) (k : A → Tx B) d b d' :
  (c ≫= k) d = (Returned b, d') →
  ∃ a d1, c d = (Returned a, d1) ∧ k a d1 = (Returned b, d').
Proof.
  rewrite bind_run. destruct (c d) as [[a|e] d1]; [eauto|done].
Qed.

Lemma transaction_thrown {A : Type} (callback : Tx A) d e d' :
  transaction callback d = (Thrown e, d') → d' = d.
Proof.
  unfold transaction. destruct (callback d) as [[a|e'] w]; congruence.
Qed.

Lemma transaction_returned {A : Type} (callback : Tx A) d a d' :
  transaction callback d = (Returned a, d') → callback d = (Returned a, d').
Proof.
  unfold transaction. destruct (callback d) as [[a'|e'] w]; congruence.
Qed.

(** A property of the working database that every round of a loop keeps is
    kept by the loop. *)
Lemma for_of_preserves {A S : Type} (I : db → Prop) (body : S → A → Tx S) :
  (∀ s x d, I d → I (body s x d).2) →
  ∀ l s d, I d → I (for_of l body s d).2.
Proof.
  intros Hbody l. induction l as [|x l IH]; intros s d Hd; [done|].
  simpl. rewrite bind_run. specialize (Hbody s x d Hd).
  destruct (body s x d) as [[s'|e] d1]; simpl in *; [by apply IH|done].
Qed.

(** A loop over [l1 ++ l2] is the loop over [l1], then the loop over [l2]. *)
Lemma for_of_app {A S : Type} (body : S → A → Tx S) l1 l2 s d :
  for_of (l1 ++ l2) body s d =
  match for_of l1 body s d with
  | (Returned s', d') => for_of l2 body s' d'
  | (Thrown e, d') => (Thrown e, d')
  end.
Proof.
  revert s d. induction l1 as [|x l1 IH]; intros s d; [done|].
  simpl. rewrite !bind_run. destruct (body s x d) as [[s'|e] d1]; [|done].
  apply IH.
Qed.

(** ** The sale and the receipt write no movement *)

Lemma process_item_stock_movements req acc it d :
  stock_movements (process_item req acc it d).2 = stock_movements d.
Proof.
  unfold process_item. tx_unfold. repeat case_match; simplify_eq/=; done.
Qed.

Lemma commit_item_stock_movements sale_id u it d :
  stock_movements (commit_item sale_id u it d).2 = stock_movements d.
Proof. reflexivity. Qed.

Lemma createSale_callback_stock_movements st req d :
  stock_movements (createSale_callback st req d).2 = stock_movements d.
Proof.
  unfold createSale_callback. rewrite bind_run.
  pose proof (for_of_preserves (λ w, stock_movements w = stock_movements d)
                (process_item req)) as Hloop.
  specialize (Hloop (λ s x w Hw, eq_trans (process_item_stock_movements req s x w) Hw)
                (CreateSale.items req) (CreateSale.Locals 0 0 []) d eq_refl).
  destruct (for_of _ _ _ d) as [[acc|e] d1]; simpl in *; [|done].
  case_match; [done|]. tx_unfold. simpl.
  pose proof (for_of_preserves (λ w, stock_movements w = stock_movements d)
                (commit_item (next_id (sales d1)))) as Hcommit.
  specialize (Hcommit (λ s x w Hw, Hw) (CreateSale.processedItems acc) tt
                (with_sales
                   (insert (next_id (sales d1))
                      (Sales.Row (CreateSale.customerId req)
                         (CreateSale.cashierId req) (CreateSale.subtotal acc)
                         (CreateSale.totalTaxAmount acc)
                         (CreateSale.subtotal acc + CreateSale.totalTaxAmount acc)%Q
                         (CreateSale.paymentMethod req)
                         (CreateSale.prescriptionNumber req)
                         (CreateSale.doctorName req)
                         (CreateSale.insuranceClaimAmount req)
                         (CreateSale.customerPaymentAmount req)
                         (CreateSale.notes req) st)) d1) Hloop).
  destruct (for_of _ _ _ _) as [[[]|e] d2]; simpl in *; done.
Qed.

Lemma createSale_stock_movements st req d :
  stock_movements (createSale st req d).2 = stock_movements d.
Proof.
  unfold createSale. repeat case_decide; try done.
  pose proof (createSale_callback_stock_movements st req d) as Hcb.
  unfold transaction.
  destruct (createSale_callback st req d) as [[res|e] d1]; simpl in *; done.
Qed.

(** A parameter is read or refused; the database is not touched. *)
Lemma integer_parameter_run v d :
  (∃ e, integer_parameter v d = (Thrown e, d)) ∨
  ∃ m, integer_parameter v d = (Returned m, d) ∧
       (∀ n, ¬ js_gt v n → m ≤ n) ∧ (∀ n, v = JsNumber n → m = n).
Proof.
  destruct v as [n|s]; simpl.
  - right. exists n. split; [done|]. split; [lia|]. by intros ? [= <-].
  - destruct (integer_of_string s) as [m|]; [|left; by eexists].
    right. exists m. split; [done|]. split; [lia|done].
Qed.

Lemma receive_item_stock_movements req u it d :
  stock_movements (receive_item req u it d).2 = stock_movements d.
Proof.
  unfold receive_item. rewrite bind_run. unfold select at 1.
  destruct (match purchase_order_items d !! _ with Some _ => _ | None => _ end)
    as [|poItem ?]; [done|].
  case_decide; [done|]. rewrite bind_run.
  destruct (integer_parameter_run
              (js_plus (PurchaseOrderItems.quantity_received poItem)
                 (ReceiveGoods.quantity_received it)) d)
    as [[e ->]|(m & -> & _)]; [done|].
  tx_unfold. repeat case_match; simplify_eq/=; done.
Qed.

Lemma receiveGoods_stock_movements req d :
  stock_movements (receiveGoods req d).2 = stock_movements d.
Proof.
  unfold receiveGoods. case_decide; [done|].
  unfold transaction, receiveGoods_callback. rewrite bind_run.
  pose proof (for_of_preserves (λ w, stock_movements w = stock_movements d)
                (receive_item req)) as Hloop.
  specialize (Hloop (λ s x w Hw, eq_trans (receive_item_stock_movements req s x w) Hw)
                (ReceiveGoods.items req) tt d eq_refl).
  destruct (for_of _ _ _ d) as [[[]|e] d1]; simpl in *; [|done].
  tx_unfold. simpl. by case_match.
Qed.

(** ** A request that is answered with a failure persists nothing *)

Lemma createSale_callback_success st req d res d' :
  createSale_callback st req d = (Returned res, d') → success res = true.
Proof.
  unfold createSale_callback. rewrite bind_run.
  destruct (for_of _ _ _ d) as [[acc|e] d1]; [|done].
  case_match; [done|]. tx_unfold. simpl.
  destruct (for_of _ _ _ _) as [[[]|e] d2]; [|done].
  by intros [= <- <-].
Qed.

Lemma processRefund_callback_success nts req d res d' :
  processRefund_callback nts req d = (Returned res, d') → success res = true.
Proof.
  unfold processRefund_callback. tx_unfold.
  destruct (match sales d !! _ with Some _ => _ | None => _ end) as [|sale ?];
    [done|].
  destruct (for_of _ _ _ d) as [[total|e] d1]; [|done].
  case_match; [done|]. by intros [= <- <-].
Qed.

Lemma createAdjustment_callback_success req d res d' :
  createAdjustment_callback req d = (Returned res, d') → success res = true.
Proof.
  unfold createAdjustment_callback. tx_unfold.
  destruct (select_active_batch _ d) as [|inv ?]; [done|].
  case_decide; [done|]. by intros [= <- <-].
Qed.

Lemma createTransfer_callback_success req d res d' :
  createTransfer_callback req d = (Returned res, d') → success res = true.
Proof.
  unfold createTransfer_callback. tx_unfold.
  destruct (select_active_batch _ d) as [|a ?]; [done|].
  destruct (select_active_batch _ d) as [|b ?]; [done|].
  repeat (case_decide; [done|]). by intros [= <- <-].
Qed.

Lemma createSale_failure st req d :
  success (createSale st req d).1 = false → (createSale st req d).2 = d.
Proof.
  unfold createSale. repeat case_decide; try done.
  destruct (transaction _ d) as [[res|e] d1] eqn:E; simpl.
  - apply transaction_returned, createSale_callback_success in E. congruence.
  - intros _. by apply transaction_thrown in E.
Qed.

Lemma processRefund_failure nts req d :
  success (processRefund nts req d).1 = false → (processRefund nts req d).2 = d.
Proof.
  unfold processRefund. case_decide; [done|].
  destruct (transaction _ d) as [[res|e] d1] eqn:E; simpl.
  - apply transaction_returned, processRefund_callback_success in E. congruence.
  - intros _. by apply transaction_thrown in E.
Qed.

Lemma createAdjustment_failure req d :
  success (createAdjustment req d).1 = false → (createAdjustment req d).2 = d.
Proof.
  unfold createAdjustment. case_decide; [done|]. case_match; [done|].
  destruct (transaction _ d) as [[res|e] d1] eqn:E; simpl.
  - apply transaction_returned, createAdjustment_callback_success in E.
    congruence.
  - intros _. by apply transaction_thrown in E.
Qed.

Lemma createTransfer_failure req d :
  success (createTransfer req d).1 = false → (createTransfer req d).2 = d.
Proof.
  unfold createTransfer. repeat (case_decide; [done|]). case_match; [done|].
  destruct (transaction _ d) as [[res|e] d1] eqn:E; simpl.
  - apply transaction_returned, createTransfer_callback_success in E.
    congruence.
  - intros _. by apply transaction_thrown in E.
Qed.

Lemma receiveGoods_failure req d :
  success (receiveGoods req d).1 = false → (receiveGoods req d).2 = d.
Proof.
  unfold receiveGoods. case_decide; [done|].
  destruct (transaction _ d) as [[[po|]|e] d1] eqn:E; simpl; try done.
  intros _. by apply transaction_thrown in E.
Qed.

(** C4. Every core operation (sale, refund, adjustment, transfer, receipt)
    that is answered with a failure leaves the committed database exactly as
    it was: no batch quantity, reservation or movement of the failed request
    persists. *)
Theorem failed_operation_persists_nothing st nts op d :
  success (run st nts op d).1 = false → (run st nts op d).2 = d.
Proof.
  destruct op; simpl.
  - apply createSale_failure.
  - apply processRefund_failure.
  - apply createAdjustment_failure.
  - apply createTransfer_failure.
  - apply receiveGoods_failure.
Qed.

(** The callback of the two-line sale has reserved the first line on batch X
    when the second line throws; the rollback discards that reservation. *)
Example two_line_sale_reserves_then_throws :
  (Inventory.quantity_reserved <$>
     inventory (createSale_callback "completed" Examples.two_line_sale
                  Examples.pharmacy).2 !! 1) = Some 5 ∧
  (createSale "completed" Examples.two_line_sale Examples.pharmacy).2
    = Examples.pharmacy.
Proof. split; vm_compute; reflexivity. Qed.

(** The two-line sale is answered with a failure and the pharmacy is as it
    was. *)
Lemma failed_operation_persists_nothing_witness :
  success (run "completed" Examples.number_to_string
             (Sale Examples.two_line_sale) Examples.pharmacy).1 = false ∧
  (run "completed" Examples.number_to_string
     (Sale Examples.two_line_sale) Examples.pharmacy).2 = Examples.pharmacy.
Proof.
  split; [reflexivity|].
  apply (failed_operation_persists_nothing "completed"
           Examples.number_to_string (Sale Examples.two_line_sale)
           Examples.pharmacy).
  reflexivity.
Defined.

(** ** First-expiring allocation *)

#[global] Instance expiration_le_trans : Transitive expiration_le.
Proof.
  intros a b c. unfold expiration_le.
  destruct (Inventory.expiration_date a.2), (Inventory.expiration_date b.2),
    (Inventory.expiration_date c.2); intros; try done; lia.
Qed.

#[global] Instance expiration_le_total : Total expiration_le.
Proof.
  intros a b. unfold expiration_le.
  destruct (Inventory.expiration_date a.2), (Inventory.expiration_date b.2);
    auto; lia.
Qed.

Lemma select_fifo_nil productId quantity d :
  select_fifo productId quantity d = [] ↔
  ∀ k i, inventory d !! k = Some i → ¬ eligible productId quantity i.
Proof.
  unfold select_fifo.
  set (l := filter _ (map_to_list (inventory d))).
  pose proof (merge_sort_Permutation expiration_le l) as Hperm.
  split.
  - intros Hnil k i Hk Hel.
    assert ((k, i) ∈ l) as Hin.
    { apply list_elem_of_filter. split; [done|]. by apply elem_of_map_to_list. }
    rewrite <- Hperm in Hin.
    destruct (merge_sort expiration_le l); [by apply elem_of_nil in Hin|done].
  - intros Hnone. destruct l as [|[k i] l'] eqn:El.
    + by apply Permutation_nil_r in Hperm as ->.
    + assert ((k, i) ∈ l) as Hin by (rewrite El; left).
      apply list_elem_of_filter in Hin as [Hel Hin].
      apply elem_of_map_to_list in Hin. by destruct (Hnone k i).
Qed.

Lemma select_fifo_cons productId quantity d k i rest :
  select_fifo productId quantity d = (k, i) :: rest →
  rest = [] ∧ inventory d !! k = Some i ∧ eligible productId quantity i ∧
  ∀ k' i', inventory d !! k' = Some i' → eligible productId quantity i' →
           expiration_le (k, i) (k', i').
Proof.
  unfold select_fifo.
  set (l := filter _ (map_to_list (inventory d))).
  pose proof (merge_sort_Permutation expiration_le l) as Hperm.
  pose proof (StronglySorted_merge_sort expiration_le l) as Hsorted.
  destruct (merge_sort expiration_le l) as [|x s]; [done|].
  simpl. rewrite take_0. intros [= -> <-].
  assert ((k, i) ∈ l) as Hin by (rewrite <- Hperm; left).
  apply list_elem_of_filter in Hin as [Hel Hin].
  apply elem_of_map_to_list in Hin.
  do 3 (split; [done|]).
  intros k' i' Hk' Hel'.
  assert ((k', i') ∈ (k, i) :: s) as Hin'.
  { rewrite Hperm. apply list_elem_of_filter. split; [done|].
    by apply elem_of_map_to_list. }
  apply elem_of_cons in Hin' as [->|Hin'].
  - destruct (total expiration_le (k, i) (k, i)); done.
  - apply StronglySorted_inv in Hsorted as [_ Hall].
    rewrite Forall_forall in Hall. by apply Hall.
Qed.

Section SaleProperties.
Import CreateSale.

Lemma process_item_returned req acc it d acc' d' :
  process_item req acc it d = (Returned acc', d') →
  ∃ k i rest discountAmount lineTotal lineTaxAmount,
    0 < quantity it ∧
    inventoryCheck it d = (k, i) :: rest ∧
    d' = with_inventory (alter (reserve (quantity it)) k) d ∧
    acc' = Locals (subtotal acc + lineTotal)%Q
             (totalTaxAmount acc + lineTaxAmount)%Q (processedItems acc ++
      [Processed (productId it) k (quantity it) (unitPrice it)
         (discountPercentage it) discountAmount lineTotal
         (Inventory.expiration_date i) (Inventory.batch_number i)]).
Proof.
  unfold process_item. tx_unfold.
  repeat case_match; try done.
  intros [= <- <-]. simplify_eq. 
  eexists _, _, _, _, _, _. split; [lia|]. split; [done|]. split; [done|].
  reflexivity.
Qed.

Lemma process_item_thrown req acc it d e d' :
  process_item req acc it d = (Thrown e, d') → d' = d.
Proof.
  unfold process_item. tx_unfold.
  repeat case_match; try done; by intros [= <- <-].
Qed.

(** The line that no batch can serve alone, once it has passed the checks
    that come before the inventory check. *)
Lemma process_item_insufficient req acc it d p :
  productId it ≠ 0 → 0 < quantity it →
  products d !! productId it = Some p → Products.is_active p = true →
  (Products.requires_prescription p = true →
   truthy (prescriptionNumber req) = true) →
  inventoryCheck it d = [] →
  process_item req acc it d =
  (Thrown ("Insufficient inventory for product: " +:+ Products.product_name p),
   d).
Proof.
  intros Hid Hq Hp Hactive Hrx Hnone. unfold process_item.
  rewrite decide_False by lia. tx_unfold. cbv beta iota.
  rewrite Hp, Hactive.
  destruct (Products.requires_prescription p);
    [rewrite Hrx by done|]; cbv beta iota; cbn [andb negb]; by rewrite Hnone.
Qed.


(** A successful sale of one line: the database that persists. *)
Lemma createSale_single st req it d res d' :
  items req = [it] → createSale st req d = (res, d') → success res = true →
  ∃ k i rest sale line,
    0 < quantity it ∧
    inventoryCheck it d = (k, i) :: rest ∧
    Sales.payment_status sale = st ∧
    SaleItems.sale_id line = next_id (sales d) ∧
    SaleItems.product_id line = productId it ∧
    SaleItems.inventory_id line = k ∧
    SaleItems.quantity line = quantity it ∧
    d' = Db (products d)
           (alter (consume (quantity it)) k
              (alter (reserve (quantity it)) k (inventory d)))
           (<[next_id (sales d) := sale]> (sales d))
           (<[next_id (sale_items d) := line]> (sale_items d))
           (stock_movements d) (purchase_orders d) (purchase_order_items d).
Proof.
  intros Hitems Hrun Hsucc. unfold createSale in Hrun.
  repeat case_decide; try by simplify_eq.
  destruct (transaction _ d) as [[r|e] w] eqn:E; [|by simplify_eq].
  injection Hrun as -> ->.
  apply transaction_returned in E. unfold createSale_callback in E.
  rewrite Hitems in E. cbn [for_of] in E. rewrite !bind_run in E.
  destruct (process_item req _ it d) as [[acc'|e] d1] eqn:Ep; [|done].
  apply process_item_returned in Ep
    as (k & i & rest & da & lt & lta & Hpos & Hcheck & -> & ->).
  tx_unfold. tx_simpl. destruct (payments_mismatch _ _ _); [done|].
  unfold commit_item in E. tx_unfold. tx_simpl.
  injection E as <- <-.
  by eexists k, i, rest, (Sales.Row _ _ _ _ _ _ _ _ _ _ _ _),
    (SaleItems.Row _ _ _ _ _ _ _ _ _ _).
Qed.

End SaleProperties.

(** The first expiring batch is skipped when it is too small: with batch Y
    raised to 20 units, the sale of 15 units takes all 15 from batch Y and
    leaves the 10 units of batch X, which expires first. *)
Example sale_skips_the_small_batch :
  let stock :=
    with_inventory (alter (Inventory.set_quantity_on_hand 20) 2)
      Examples.pharmacy in
  let after := (createSale "completed" (Examples.sale_of 15) stock).2 in
  success (createSale "completed" (Examples.sale_of 15) stock).1 = true ∧
  on_hand after 1 = Some 10 ∧ on_hand after 2 = Some 5.
Proof. repeat split; vm_compute; reflexivity. Qed.

(** C1, as stated, fails on the scenario of the claim: with batch X
    (on_hand 10, expires 2024-01-01) and batch Y (on_hand 10, expires
    2024-06-01), the sale of 15 units is rejected and both batches keep
    their 10 units. *)
Lemma sale_of_15_is_rejected :
  createSale "completed" (Examples.sale_of 15) Examples.pharmacy =
  (failure 400 "Insufficient inventory for product: Aspirin",
   Examples.pharmacy).
Proof. vm_compute. reflexivity. Qed.

(** ** Expiry tiers *)

(** C9. Within the 90-day horizon the report's tier is 'expired' exactly when
    the expiration date is before today, 'critical' exactly when the days to
    expiry are between 0 and 30, 'warning' exactly when they are between 31
    and 60, and 'watch' otherwise; the alert generator assigns the alert type
    of the same tier, and the report's filter by urgency level selects the
    rows of that tier. *)
Theorem expiry_tiers_agree expiration_date current_date :
  within_horizon 90 expiration_date current_date →
  let days_to_expiry := expiration_date - current_date in
  (urgency_level expiration_date current_date = Expired ↔
   expiration_date < current_date) ∧
  (urgency_level expiration_date current_date = Critical ↔
   0 ≤ days_to_expiry ≤ 30) ∧
  (urgency_level expiration_date current_date = Warning ↔
   31 ≤ days_to_expiry ≤ 60) ∧
  (urgency_level expiration_date current_date = Watch ↔
   60 < days_to_expiry) ∧
  alert_type expiration_date current_date =
    Some (alert_type_of_urgency (urgency_level expiration_date current_date)) ∧
  ∀ u, urgency_filter u expiration_date current_date ↔
       urgency_level expiration_date current_date = u.
Proof.
  unfold within_horizon. intros Hhorizon. cbv zeta.
  split; [|split; [|split; [|split; [|split]]]].
  1-4: unfold urgency_level; repeat case_decide; split; intros; done || lia.
  - unfold urgency_level, alert_type. repeat case_decide; done || lia.
  - intros u. unfold urgency_level, urgency_filter.
    destruct u; repeat case_decide; split; intros; done || lia.
Qed.

(** A batch that expires in 30 days is critical, and its alert is of type
    '30_days'. *)
Lemma expiry_tiers_agree_witness :
  urgency_level 19753 19723 = Critical ∧
  alert_type 19753 19723 = Some "30_days".
Proof.
  destruct (expiry_tiers_agree 19753 19723)
    as (_ & Hcritical & _ & _ & Halert & _).
  - unfold within_horizon. lia.
  - assert (urgency_level 19753 19723 = Critical) as Htier
      by (apply Hcritical; lia).
    split; [done|]. rewrite Halert, Htier. reflexivity.
Defined.

(** ** Adjustments *)

(** C2, evaluated on the code. The adjustment of -5 on a batch with 3 units
    on hand is not rejected by [inventoryAdjustment]: the controller hands
    the clamped quantity 0 to the model layer, whatever that layer is, and
    answers with success when the layer stores it; the batch then holds 0
    units. The sibling [createAdjustment] rejects the same adjustment and
    leaves the 3 units. *)
Theorem inventoryAdjustment_clamps_to_zero :
  (∀ updateQuantity,
     inventoryAdjustment Examples.findById updateQuantity
       Examples.adjustment_of_minus_5 Examples.shelf =
     match updateQuantity 1 0 "damaged" Examples.shelf with
     | (Thrown error, d) => (failure 500 error, d)
     | (Returned updated, d) =>
         (Response 200 true "Inventory adjustment completed successfully"
            (AdjustmentData 1 (-5) 3 (Inventory.quantity_on_hand updated)), d)
     end) ∧
  success (inventoryAdjustment Examples.findById Examples.updateQuantity
             Examples.adjustment_of_minus_5 Examples.shelf).1 = true ∧
  Inventory.quantity_on_hand <$>
    inventory (inventoryAdjustment Examples.findById Examples.updateQuantity
                 Examples.adjustment_of_minus_5 Examples.shelf).2 !! 1
    = Some 0 ∧
  createAdjustment Examples.movement_of_minus_5 Examples.shelf =
    (failure 400 "Cannot reduce quantity by 5. Available: 3", Examples.shelf).
Proof.
  split; [intros updateQuantity; reflexivity|].
  repeat split; vm_compute; reflexivity.
Qed.

(** ** Movements of the sale and of the receipt *)

(** C3, evaluated on the code. No sale and no goods receipt writes a
    Movement record, although both change quantity_on_hand: the sale of 5
    units takes batch X from 10 to 5 and the receipt of 5 units creates a
    batch of 5, and the movement log stays empty. *)
Theorem sale_and_receipt_write_no_movement :
  (∀ st req d, stock_movements (createSale st req d).2 = stock_movements d) ∧
  (∀ req d, stock_movements (receiveGoods req d).2 = stock_movements d) ∧
  (let after := (createSale "completed" (Examples.sale_of 5) Examples.pharmacy).2 in
   Inventory.quantity_on_hand <$> inventory Examples.pharmacy !! 1 = Some 10 ∧
   Inventory.quantity_on_hand <$> inventory after !! 1 = Some 5 ∧
   stock_movements after = []) ∧
  (let after := (receiveGoods Examples.receipt_matching_X Examples.depot).2 in
   inventory Examples.depot !! 2 = None ∧
   Inventory.quantity_on_hand <$> inventory after !! 2 = Some 5 ∧
   stock_movements after = []).
Proof.
  split; [exact createSale_stock_movements|].
  split; [exact receiveGoods_stock_movements|].
  split; repeat split; vm_compute; reflexivity.
Qed.

(** ** Transfers *)

Lemma select_active_batch_cons id d i rest :
  select_active_batch id d = i :: rest →
  inventory d !! id = Some i ∧ Inventory.status i = "active" ∧ rest = [].
Proof.
  unfold select_active_batch. repeat case_match; try done.
  by intros [= <- <-].
Qed.

Section TransferProperties.
Import CreateTransfer.

Lemma createTransfer_returned req d res d' :
  createTransfer req d = (res, d') → success res = true →
  fromInventoryId req ≠ toInventoryId req ∧
  ∃ a b,
    inventory d !! number_of (fromInventoryId req) = Some a ∧
    inventory d !! number_of (toInventoryId req) = Some b ∧
    Inventory.product_id a = Inventory.product_id b ∧
    inventory d' =
      alter (Inventory.set_quantity_on_hand
               (Inventory.quantity_on_hand b + quantity req))
            (number_of (toInventoryId req))
        (alter (Inventory.set_quantity_on_hand
                  (Inventory.quantity_on_hand a - quantity req))
               (number_of (fromInventoryId req)) (inventory d)) ∧
    stock_movements d' =
      stock_movements d ++
        [StockMovements.Row (number_of (fromInventoryId req))
           (Inventory.product_id a)
           "transfer" (- quantity req) (Inventory.quantity_on_hand a)
           (Inventory.quantity_on_hand a - quantity req)
           (Some (number_of (toInventoryId req))) (Some "transfer_out")
           (Some (Inventory.unit_cost a))
           ("Transfer out: " +:+ trim (default "" (reason req)))
           (userId req);
         StockMovements.Row (number_of (toInventoryId req))
           (Inventory.product_id b)
           "transfer" (quantity req) (Inventory.quantity_on_hand b)
           (Inventory.quantity_on_hand b + quantity req)
           (Some (number_of (fromInventoryId req))) (Some "transfer_in")
           (Some (Inventory.unit_cost b))
           ("Transfer in: " +:+ trim (default "" (reason req)))
           (userId req)].
Proof.
  intros Hrun Hsucc. unfold createTransfer in Hrun.
  repeat (case_decide; [by simplify_eq|]).
  destruct (blank _); [by simplify_eq|].
  destruct (transaction _ d) as [[r|e] w] eqn:E; [|by simplify_eq].
  injection Hrun as -> ->. split; [done|].
  apply transaction_returned in E. unfold createTransfer_callback in E.
  tx_unfold.
  destruct (select_active_batch (number_of (fromInventoryId req)) d)
    as [|a ?] eqn:Ea; [done|].
  destruct (select_active_batch (number_of (toInventoryId req)) d)
    as [|b ?] eqn:Eb; [done|].
  apply select_active_batch_cons in Ea as (Ha & _ & _).
  apply select_active_batch_cons in Eb as (Hb & _ & _).
  repeat (case_decide; [done|]).
  injection E as <- <-. exists a, b.
  do 4 (split; [done|]). simpl. by rewrite <- app_assoc.
Qed.

(** The transfer whose two ids stand for one batch and are not the same
    value: the guard lets it through, both queries read the one row, and the
    second UPDATE overwrites the first. *)
Lemma createTransfer_to_itself req d n i :
  number_of (fromInventoryId req) = n → number_of (toInventoryId req) = n →
  fromInventoryId req ≠ toInventoryId req →
  ¬ falsy_number (fromInventoryId req) → ¬ falsy_number (toInventoryId req) →
  0 < quantity req → blank (reason req) = false →
  inventory d !! n = Some i → Inventory.status i = "active" →
  is_Some (products d !! Inventory.product_id i) →
  quantity req ≤ Inventory.quantity_on_hand i →
  ∃ res d',
    createTransfer req d = (res, d') ∧ success res = true ∧
    inventory d' =
      <[n := Inventory.set_quantity_on_hand
               (Inventory.quantity_on_hand i + quantity req) i]> (inventory d) ∧
    ∃ out into,
      stock_movements d' = stock_movements d ++ [out; into] ∧
      StockMovements.inventory_id out = n ∧
      StockMovements.quantity_change out = - quantity req ∧
      StockMovements.inventory_id into = n ∧
      StockMovements.quantity_change into = quantity req.
Proof.
  intros HA HB Hne HfA HfB Hq Hreason Hi Hactive [p Hp] Hle.
  unfold createTransfer.
  rewrite decide_False by (intros [?|[?|[?|?]]]; try done; lia).
  rewrite decide_False by done. rewrite Hreason.
  unfold transaction, createTransfer_callback. tx_unfold. rewrite HA, HB.
  unfold select_active_batch. rewrite Hi, decide_True, Hp by done.
  cbv beta iota zeta. rewrite Hi, decide_True, Hp by done.
  cbv beta iota zeta.
  rewrite decide_False by (intros H; by apply H).
  rewrite decide_False by lia. cbn [fst snd].
  eexists _, _. split; [reflexivity|]. split; [done|]. split.
  - cbn [inventory with_inventory with_stock_movements].
    apply map_eq. intros j. destruct (decide (j = n)) as [->|Hj].
    + by rewrite lookup_alter_eq, lookup_alter_eq, Hi, lookup_insert_eq.
    + by rewrite !lookup_alter_ne, lookup_insert_ne.
  - eexists _, _. cbn [stock_movements with_inventory with_stock_movements].
    rewrite <- app_assoc. split; [reflexivity|]. done.
Qed.

(** C7, evaluated on the code. A transfer that succeeds between two batches
    moves the quantity from the one to the other: they are batches of one
    product, the source loses the quantity and the destination gains it, so
    the sum of the two quantities on hand is conserved, and the movement log
    grows by the linked pair ("transfer_out" on the source referring to the
    destination, "transfer_in" on the destination referring to the source).
    A transfer that fails changes nothing, a transfer between batches of
    different products fails, and so does a transfer whose two ids are the
    same value. But the guard against the same batch compares the values of
    the body as they are: when one batch is named by two values that are not
    the same (the number and the string that spells it), the transfer is not
    rejected; it raises the quantity on hand of that batch by the quantity of
    the transfer and writes the pair of movements, both about that batch,
    whose deltas add up to zero. *)
Theorem createTransfer_conserves req d :
  let A := number_of (fromInventoryId req) in
  let B := number_of (toInventoryId req) in
  let after := (createTransfer req d).2 in
  (success (createTransfer req d).1 = true → A ≠ B →
   ∃ a b,
     Inventory.product_id <$> inventory d !! A =
       Inventory.product_id <$> inventory d !! B ∧
     on_hand d A = Some a ∧ on_hand d B = Some b ∧
     on_hand after A = Some (a - quantity req) ∧
     on_hand after B = Some (b + quantity req) ∧
     (a - quantity req) + (b + quantity req) = a + b ∧
     ∃ out into,
       stock_movements after = stock_movements d ++ [out; into] ∧
       StockMovements.inventory_id out = A ∧
       StockMovements.quantity_change out = - quantity req ∧
       StockMovements.reference_id out = Some B ∧
       StockMovements.reference_type out = Some "transfer_out" ∧
       StockMovements.inventory_id into = B ∧
       StockMovements.quantity_change into = quantity req ∧
       StockMovements.reference_id into = Some A ∧
       StockMovements.reference_type into = Some "transfer_in") ∧
  (success (createTransfer req d).1 = false → after = d) ∧
  (fromInventoryId req = toInventoryId req →
   success (createTransfer req d).1 = false) ∧
  (∀ a b, inventory d !! A = Some a → inventory d !! B = Some b →
          Inventory.product_id a ≠ Inventory.product_id b →
          success (createTransfer req d).1 = false) ∧
  (∀ i, A = B → fromInventoryId req ≠ toInventoryId req →
        ¬ falsy_number (fromInventoryId req) → ¬ falsy_number (toInventoryId req) →
        0 < quantity req → blank (reason req) = false →
        inventory d !! A = Some i → Inventory.status i = "active" →
        is_Some (products d !! Inventory.product_id i) →
        quantity req ≤ Inventory.quantity_on_hand i →
        success (createTransfer req d).1 = true ∧
        on_hand d A = Some (Inventory.quantity_on_hand i) ∧
        on_hand after A = Some (Inventory.quantity_on_hand i + quantity req) ∧
        ∃ out into,
          stock_movements after = stock_movements d ++ [out; into] ∧
          StockMovements.inventory_id out = A ∧
          StockMovements.quantity_change out = - quantity req ∧
          StockMovements.inventory_id into = A ∧
          StockMovements.quantity_change into = quantity req ∧
          signed_sum [out; into] = 0).
Proof.
  intros A B after. subst A B after. split; [|split; [|split; [|split]]].
  - destruct (createTransfer req d) as [res d'] eqn:Hrun. simpl.
    intros Hsucc HAB.
    destruct (createTransfer_returned _ _ _ _ Hrun Hsucc)
      as (_ & a & b & Ha & Hb & Hprod & Hinv & Hlog).
    exists (Inventory.quantity_on_hand a), (Inventory.quantity_on_hand b).
    unfold on_hand. rewrite Hinv, Ha, Hb.
    rewrite lookup_alter_ne, !lookup_alter_eq, Ha by done.
    rewrite lookup_alter_ne, Hb by done. simpl.
    split; [by rewrite Hprod|]. do 4 (split; [done|]). split; [lia|].
    eexists _, _. split; [exact Hlog|]. done.
  - apply createTransfer_failure.
  - intros Heq. unfold createTransfer.
    case_decide; [done|]. by case_decide.
  - intros a b Ha Hb Hprod.
    destruct (success (createTransfer req d).1) eqn:Hsucc; [|done].
    destruct (createTransfer req d) as [res d'] eqn:Hrun.
    destruct (createTransfer_returned _ _ _ _ Hrun Hsucc)
      as (_ & a' & b' & Ha' & Hb' & Hprod' & _ & _).
    congruence.
  - intros i HAB Hne HfA HfB Hq Hreason Hi Hactive Hp Hle.
    destruct (createTransfer_to_itself req d _ i eq_refl (eq_sym HAB) Hne HfA
                HfB Hq Hreason Hi Hactive Hp Hle)
      as (res & d' & -> & Hsucc & Hinv & out & into & Hlog & Ho & Hoq & Hi'
          & Hiq).
    simpl. split; [done|]. unfold on_hand. rewrite Hi, Hinv, lookup_insert_eq.
    do 2 (split; [done|]). exists out, into.
    do 5 (split; [done|]). unfold signed_sum. simpl. lia.
Qed.
End TransferProperties.

(** The transfer of 4 units from batch X to batch Y: 10 + 10 = 6 + 14. The
    transfer of 4 units from batch X, named by the number 1, to batch X,
    named by the string '1', is answered with success and leaves batch X
    with 14 units. *)
Lemma createTransfer_conserves_witness :
  (let after := (createTransfer Examples.transfer_of_4 Examples.pharmacy).2 in
   on_hand after 1 = Some 6 ∧ on_hand after 2 = Some 14) ∧
  (let after :=
     (createTransfer Examples.transfer_to_itself Examples.pharmacy).2 in
   success (createTransfer Examples.transfer_to_itself Examples.pharmacy).1
     = true ∧
   on_hand Examples.pharmacy 1 = Some 10 ∧ on_hand after 1 = Some (10 + 4) ∧
   ∃ out into,
     stock_movements after = [out; into] ∧
     StockMovements.inventory_id out = 1 ∧
     StockMovements.quantity_change out = - 4 ∧
     StockMovements.inventory_id into = 1 ∧
     StockMovements.quantity_change into = 4 ∧
     signed_sum [out; into] = 0).
Proof.
  split.
  - destruct (createTransfer_conserves Examples.transfer_of_4 Examples.pharmacy)
      as [Hdone _].
    destruct (Hdone eq_refl ltac:(vm_compute; congruence))
      as (a & b & _ & Ha & Hb & Ha' & Hb' & _).
    vm_compute in Ha, Hb. injection Ha as <-. injection Hb as <-.
    split; assumption.
  - destruct (createTransfer_conserves Examples.transfer_to_itself
                Examples.pharmacy) as (_ & _ & _ & _ & Hslip).
    apply (Hslip Examples.batch_X); try done. intros [].
Defined.

(** ** Goods receipts *)

(** One round of the receipt loop that goes on: the line it has updated
    and the batch it has inserted. When the body gives the quantity as a
    number, the line's received quantity grows by it. *)
Lemma receive_item_effect req u it d u' d' :
  receive_item req u it d = (Returned u', d') →
  ∃ poi po stored status,
    purchase_order_items d !! ReceiveGoods.po_item_id it = Some poi ∧
    PurchaseOrderItems.po_id poi = ReceiveGoods.id req ∧
    is_Some (products d !! PurchaseOrderItems.product_id poi) ∧
    purchase_orders d !! ReceiveGoods.id req = Some po ∧
    stored ≤ PurchaseOrderItems.quantity_ordered poi ∧
    (status = "received" ∨ status = "partially_received") ∧
    (∀ n, ReceiveGoods.quantity_received it = AsNumber n →
       stored = PurchaseOrderItems.quantity_received poi + n ∧
       status = if decide (stored = PurchaseOrderItems.quantity_ordered poi)
                then "received" else "partially_received") ∧
    products d' = products d ∧ sales d' = sales d ∧
    sale_items d' = sale_items d ∧
    purchase_orders d' = purchase_orders d ∧
    purchase_order_items d' =
      <[ReceiveGoods.po_item_id it :=
          PurchaseOrderItems.Row
            (PurchaseOrderItems.po_id poi)
            (PurchaseOrderItems.product_id poi)
            (PurchaseOrderItems.quantity_ordered poi)
            stored
            (PurchaseOrderItems.unit_cost poi)
            status]>
        (purchase_order_items d) ∧
    inventory d' =
      <[next_id (inventory d) :=
          Inventory.Row (PurchaseOrderItems.product_id poi)
            (PurchaseOrders.supplier_id po)
            (ReceiveGoods.batch_number it) (ReceiveGoods.lot_number it)
            (number_of (ReceiveGoods.quantity_received it)) 0
            (PurchaseOrderItems.unit_cost poi)
            (ReceiveGoods.expiration_date it) (ReceiveGoods.now req)
            "active"]> (inventory d).
Proof.
  unfold receive_item. rewrite bind_run. unfold select at 1.
  destruct (purchase_order_items d !! ReceiveGoods.po_item_id it)
    as [poi|] eqn:Hpoi; [|done].
  case_decide as Hpo; [|done].
  destruct (products d !! PurchaseOrderItems.product_id poi) eqn:Hp; [|done].
  case_decide as Hgt; [done|]. rewrite bind_run.
  destruct (integer_parameter_run
              (js_plus (PurchaseOrderItems.quantity_received poi)
                 (ReceiveGoods.quantity_received it)) d)
    as [[e ->]|(m & -> & Hle & Hnum)]; [done|].
  tx_unfold. cbn [purchase_orders with_purchase_order_items].
  destruct (purchase_orders d !! ReceiveGoods.id req) as [po|] eqn:Hord; [|done].
  intros [= <- <-]. exists poi, po, m.
  exists (if decide (js_strict_eq
                       (js_plus (PurchaseOrderItems.quantity_received poi)
                          (ReceiveGoods.quantity_received it))
                       (PurchaseOrderItems.quantity_ordered poi))
          then "received" else "partially_received").
  simpl.
  do 2 (split; [done|]). split; [by eexists|]. split; [done|].
  split; [by apply Hle|]. split; [case_decide; auto|]. split.
  { intros n Hn. rewrite Hn in *. simpl in *.
    rewrite (Hnum _ eq_refl). split; [done|].
    repeat case_decide; congruence. }
  do 4 (split; [done|]). split; [|done].
  etrans; [apply (alter_as_insert _ _ _ _ Hpoi)|]. reflexivity.
Qed.

Lemma receive_item_returned req u it d u' d' :
  receive_item req u it d = (Returned u', d') →
  ∃ i, received_batch it (ReceiveGoods.now req) i ∧
       inventory d' = <[next_id (inventory d) := i]> (inventory d).
Proof.
  intros Hrun. apply receive_item_effect in Hrun
    as (poi & po & stored & status & _ & _ & _ & _ & _ & _ & _ & _ & _ & _ & _
        & _ & ->).
  eexists. split; [|reflexivity]. by unfold received_batch.
Qed.

Lemma receive_loop req l :
  ∀ d d', for_of l (receive_item req) () d = (Returned (), d') →
  inventory d ⊆ inventory d' ∧
  size (inventory d') = (size (inventory d) + length l)%nat ∧
  Forall (λ it, ∃ k i, inventory d !! k = None ∧ inventory d' !! k = Some i ∧
                       received_batch it (ReceiveGoods.now req) i) l.
Proof.
  induction l as [|it l IH]; intros d d'; simpl.
  - intros [= <-]. split; [done|]. split; [lia|constructor].
  - rewrite bind_run.
    destruct (receive_item req () it d) as [[[]|e] d1] eqn:E; [|done].
    apply receive_item_returned in E as (i & Hi & Hinv).
    intros Hloop. apply IH in Hloop as (Hsub & Hsize & Hall).
    pose proof (next_id_fresh (inventory d)) as Hfresh.
    assert (inventory d ⊆ inventory d1) as Hsub1
      by (rewrite Hinv; by apply insert_subseteq).
    split; [by etrans|]. split.
    + rewrite Hsize, Hinv, map_size_insert_None by done. lia.
    + constructor.
      * exists (next_id (inventory d)), i. split; [done|]. split; [|done].
        eapply lookup_weaken; [|done]. rewrite Hinv. apply lookup_insert_eq.
      * eapply Forall_impl; [done|]. intros it' (k & i' & Hk & Hk' & Hi').
        exists k, i'. split; [|done].
        by eapply lookup_weaken_None.
Qed.

(** C6 (amended). A goods receipt that succeeds inserts one new batch per
    received line, with the batch number, lot number, expiration date and
    quantity of the line, and leaves every batch that was in stock as it
    was, also a batch of the same product with the same batch number, lot
    number and expiration date. *)
Theorem receiveGoods_creates_batches req d :
  success (receiveGoods req d).1 = true →
  let after := (receiveGoods req d).2 in
  (∀ k i, inventory d !! k = Some i → inventory after !! k = Some i) ∧
  size (inventory after) =
    (size (inventory d) + length (ReceiveGoods.items req))%nat ∧
  Forall (λ it, ∃ k i, inventory d !! k = None ∧
                       inventory after !! k = Some i ∧
                       received_batch it (ReceiveGoods.now req) i)
         (ReceiveGoods.items req).
Proof.
  unfold receiveGoods. case_decide; [done|].
  unfold transaction, receiveGoods_callback. rewrite bind_run.
  destruct (for_of _ _ _ d) as [[[]|e] d1] eqn:E; [|done].
  apply receive_loop in E as (Hsub & Hsize & Hall).
  tx_unfold. tx_simpl. intros _.
  assert (∀ po, inventory (with_purchase_orders po d1) = inventory d1) as Hpo
    by done.
  case_match; simpl; (split; [|split]); try done;
    intros k i Hk; by eapply lookup_weaken.
Qed.

(** The receipt of one line keeps batch X and brings the stock to two
    batches. *)
Lemma receiveGoods_creates_batches_witness :
  let after := (receiveGoods Examples.receipt_matching_X Examples.depot).2 in
  inventory after !! 1 = Some Examples.batch_X ∧ size (inventory after) = 2%nat.
Proof.
  destruct (receiveGoods_creates_batches Examples.receipt_matching_X
              Examples.depot eq_refl) as (Hkept & Hsize & _).
  split; [by apply Hkept|exact Hsize].
Defined.

(** C6, as stated, fails when the received line matches a batch in stock:
    the receipt of 5 units with the batch number, lot number and expiration
    date of batch X leaves batch X at 10 units and inserts a second batch
    of 5 units. *)
Lemma receipt_matching_batch_is_not_merged :
  let after := (receiveGoods Examples.receipt_matching_X Examples.depot).2 in
  success (receiveGoods Examples.receipt_matching_X Examples.depot).1 = true ∧
  inventory Examples.depot !! 1 = Some Examples.batch_X ∧
  inventory Examples.depot !! 2 = None ∧
  inventory after !! 1 = Some Examples.batch_X ∧
  inventory after !! 2 =
    Some (Inventory.Row 1 1 (Some "X") None 5 0 1 (Some 19723) 19500 "active").
Proof. repeat split; vm_compute; reflexivity. Qed.

(** ** Refunds *)

Section RefundProperties.
Import ProcessRefund.

Lemma refund_item_sales req total it d :
  sales (refund_item req total it d).2 = sales d.
Proof.
  unfold refund_item. tx_unfold. repeat case_match; simplify_eq/=; done.
Qed.

(** A refund that succeeds found the sale 'completed' and leaves it
    'refunded' or 'partial'. *)
Lemma processRefund_returned nts req d res d' :
  processRefund nts req d = (res, d') → success res = true →
  ∃ sale sale',
    sales d !! saleId req = Some sale ∧
    Sales.payment_status sale = "completed" ∧
    sales d' !! saleId req = Some sale' ∧
    (Sales.payment_status sale' = "refunded" ∨
     Sales.payment_status sale' = "partial").
Proof.
  intros Hrun Hsucc. unfold processRefund in Hrun.
  case_decide; [by simplify_eq|].
  destruct (transaction _ d) as [[r|e] w] eqn:E; [|by simplify_eq].
  injection Hrun as -> ->. apply transaction_returned in E.
  unfold processRefund_callback in E. rewrite bind_run in E.
  unfold select at 1 in E.
  destruct (sales d !! saleId req) as [sale|] eqn:Hsale; [|done].
  case_decide as Hstatus; [|done].
  rewrite bind_run in E.
  pose proof (for_of_preserves (λ w, sales w = sales d) (refund_item req)) as Hloop.
  specialize (Hloop (λ s x w Hw, eq_trans (refund_item_sales req s x w) Hw)
                (items req) 0%Q d eq_refl).
  destruct (for_of _ _ _ d) as [[total|e] d1]; [|done].
  simpl in Hloop. destruct (match truthy_amount _ with Some _ => _ | None => _ end);
    [done|].
  tx_unfold. injection E as <- <-. cbn [sales with_sales].
  rewrite Hloop, lookup_alter_eq, Hsale. simpl.
  eexists _, _. do 3 (split; [done|]). simpl.
  destruct (Qle_bool _ _); auto.
Qed.

Lemma processRefund_not_completed nts req d sale :
  sales d !! saleId req = Some sale →
  Sales.payment_status sale ≠ "completed" →
  success (processRefund nts req d).1 = false.
Proof.
  intros Hsale Hstatus. unfold processRefund. case_decide; [done|].
  unfold transaction, processRefund_callback. rewrite bind_run.
  unfold select at 1. rewrite Hsale. by case_decide.
Qed.

Lemma second_refund_fails nts req1 req2 d :
  saleId req1 = saleId req2 →
  success (processRefund nts req1 d).1 = true →
  success (processRefund nts req2 (processRefund nts req1 d).2).1 = false.
Proof.
  intros Hsame Hfirst.
  destruct (processRefund nts req1 d) as [res d'] eqn:Hrun.
  destruct (processRefund_returned _ _ _ _ _ Hrun Hfirst)
    as (sale & sale' & _ & _ & Hsale' & Hstatus).
  simpl. rewrite Hsame in Hsale'.
  eapply processRefund_not_completed; [done|].
  destruct Hstatus as [-> | ->]; done.
Qed.

Lemma refund_item_returned req total it d total' d' :
  refund_item req total it d = (Returned total', d') →
  ∃ line,
    sale_items d !! saleItemId it = Some line ∧
    SaleItems.sale_id line = saleId req ∧
    quantityToRefund it ≤ SaleItems.quantity line ∧
    d' = Db (products d)
           (alter (restock (quantityToRefund it)) (SaleItems.inventory_id line)
              (inventory d))
           (sales d) (sale_items d)
           (stock_movements d ++
              match inventory d !! SaleItems.inventory_id line with
              | Some batch =>
                  [return_movement req line (quantityToRefund it)
                     (Inventory.quantity_on_hand batch + quantityToRefund it)]
              | None => []
              end)
           (purchase_orders d) (purchase_order_items d).
Proof.
  unfold refund_item. tx_unfold.
  destruct (sale_items d !! saleItemId it) as [line|]; [|done].
  case_decide; [|done].
  destruct (products d !! SaleItems.product_id line); [|done].
  case_decide; [done|]. tx_simpl. intros [= <- <-].
  exists line. do 2 (split; [done|]). split; [lia|].
  rewrite lookup_alter_eq.
  destruct (inventory d !! SaleItems.inventory_id line); simpl.
  - reflexivity.
  - by rewrite app_nil_r; destruct d.
Qed.

Lemma refund_item_run req total it d line batch :
  sale_items d !! saleItemId it = Some line →
  SaleItems.sale_id line = saleId req →
  is_Some (products d !! SaleItems.product_id line) →
  quantityToRefund it ≤ SaleItems.quantity line →
  inventory d !! SaleItems.inventory_id line = Some batch →
  refund_item req total it d =
  (Returned (total + SaleItems.line_total line /
                       inject_Z (SaleItems.quantity line) *
                       inject_Z (quantityToRefund it))%Q,
   Db (products d)
      (alter (restock (quantityToRefund it)) (SaleItems.inventory_id line)
         (inventory d))
      (sales d) (sale_items d)
      (stock_movements d ++
         [return_movement req line (quantityToRefund it)
            (Inventory.quantity_on_hand batch + quantityToRefund it)])
      (purchase_orders d) (purchase_order_items d)).
Proof.
  intros Hline Hsale [p Hp] Hq Hbatch. unfold refund_item. tx_unfold.
  rewrite Hline. case_decide; [|done]. rewrite Hp.
  case_decide; [lia|]. tx_simpl. by rewrite lookup_alter_eq, Hbatch.
Qed.

(** C10 (amended). The refund quantity is checked entry by entry against
    the quantity sold on the sale line, never against what is left after
    earlier refunds: one refund call that lists a sale line sold with
    quantity q twice, each time with q, succeeds and adds 2q to the batch.
    A second call on the same sale is rejected: the first call has changed
    the sale's payment status from 'completed'. *)
Theorem refund_check_is_per_entry nts d sale line batch req l q :
  sales d !! saleId req = Some sale →
  Sales.payment_status sale = "completed" →
  sale_items d !! l = Some line →
  SaleItems.sale_id line = saleId req →
  SaleItems.quantity line = q →
  is_Some (products d !! SaleItems.product_id line) →
  inventory d !! SaleItems.inventory_id line = Some batch →
  items req = [Item l q; Item l q] →
  refundAmount req = None →
  success (processRefund nts req d).1 = true ∧
  on_hand (processRefund nts req d).2 (SaleItems.inventory_id line) =
    Some (Inventory.quantity_on_hand batch + 2 * q) ∧
  ∀ req', saleId req' = saleId req →
    success (processRefund nts req' (processRefund nts req d).2).1 = false.
Proof.
  intros Hsale Hstatus Hline Hsid Hq Hprod Hbatch Hitems Hamount.
  assert (∃ res d2,
            processRefund nts req d = (res, d2) ∧ success res = true ∧
            inventory d2 =
              alter (restock q) (SaleItems.inventory_id line)
                (alter (restock q) (SaleItems.inventory_id line) (inventory d)))
    as (res & d2 & Hrun & Hsucc & Hinv).
  { unfold processRefund. rewrite Hitems. case_decide; [done|].
    unfold transaction, processRefund_callback. rewrite bind_run.
    unfold select at 1. rewrite Hsale. case_decide; [|done].
    rewrite Hitems. cbn [for_of]. rewrite !bind_run.
    erewrite refund_item_run; [|done|done|done|simpl; lia|done].
    cbv beta iota. rewrite !bind_run.
    erewrite refund_item_run;
      [|done|done|done|simpl; lia|
       cbn [inventory]; etrans; [apply lookup_alter_eq|];
       rewrite Hbatch; reflexivity].
    rewrite Hamount. tx_unfold. cbn [truthy_amount default].
    eexists _, _. split; [reflexivity|]. split; done. }
  rewrite Hrun. cbn [fst snd]. split; [done|]. split.
  - unfold on_hand. rewrite Hinv, !lookup_alter_eq, Hbatch. simpl.
    f_equal. lia.
  - intros req' Hsame.
    pose proof (second_refund_fails nts req req' d (eq_sym Hsame)) as Hsecond.
    rewrite Hrun in Hsecond. by apply Hsecond.
Qed.

Lemma inventoryCheck_lookup it d k i rest :
  inventoryCheck it d = (k, i) :: rest → inventory d !! k = Some i.
Proof.
  unfold inventoryCheck. destruct (truthy_id _) as [id|].
  - unfold select_pinned. repeat case_match; try done. by intros [= <- <- <-].
  - intros Hfifo. by apply select_fifo_cons in Hfifo as (_ & Hk & _).
Qed.

Lemma processRefund_single_returned nts req it d res d' :
  items req = [it] → processRefund nts req d = (res, d') →
  success res = true →
  ∃ line,
    sale_items d !! saleItemId it = Some line ∧
    SaleItems.sale_id line = saleId req ∧
    inventory d' =
      alter (restock (quantityToRefund it)) (SaleItems.inventory_id line)
        (inventory d) ∧
    stock_movements d' =
      stock_movements d ++
        match inventory d !! SaleItems.inventory_id line with
        | Some batch =>
            [return_movement req line (quantityToRefund it)
               (Inventory.quantity_on_hand batch + quantityToRefund it)]
        | None => []
        end.
Proof.
  intros Hitems Hrun Hsucc. unfold processRefund in Hrun.
  case_decide; [by simplify_eq|].
  destruct (transaction _ d) as [[r|e] w] eqn:E; [|by simplify_eq].
  injection Hrun as -> ->. apply transaction_returned in E.
  unfold processRefund_callback in E. rewrite bind_run in E.
  unfold select at 1 in E.
  destruct (sales d !! saleId req) as [sale|]; [|done].
  case_decide; [|done].
  rewrite Hitems in E. cbn [for_of] in E. rewrite !bind_run in E.
  destruct (refund_item req 0 it d) as [[total|e] d1] eqn:Eitem; [|done].
  apply refund_item_returned in Eitem as (line & Hline & Hsid & _ & ->).
  exists line. do 2 (split; [done|]).
  tx_unfold.
  destruct (match truthy_amount _ with Some _ => _ | None => _ end); [done|].
  by injection E as <- <-.
Qed.

Lemma restock_consume_reserve quantity k i (m : gmap Z Inventory.row) :
  m !! k = Some i →
  alter (restock quantity) k
    (alter (consume quantity) k (alter (reserve quantity) k m)) = m.
Proof.
  intros Hk. apply map_eq. intros j.
  destruct (decide (j = k)) as [->|Hne].
  - rewrite !lookup_alter_eq, Hk. simpl. f_equal. destruct i.
    unfold restock, consume, reserve, Inventory.set_quantity_on_hand,
      Inventory.set_quantity_reserved. simpl. f_equal; lia.
  - by rewrite !lookup_alter_ne.
Qed.

(** C5, evaluated on the code. After a one-line sale of q units and the
    full refund of that line, both successful, every batch is back to its
    quantities before the sale; but the two operations have written one
    movement only, the return of +q: the signed sum of what they logged is q,
    which is positive, not zero. *)
Theorem sale_then_full_refund st nts sale_req it refund_req d :
  CreateSale.items sale_req = [it] →
  success (createSale st sale_req d).1 = true →
  saleId refund_req = next_id (sales d) →
  items refund_req =
    [Item (next_id (sale_items d)) (CreateSale.quantity it)] →
  let sold := (createSale st sale_req d).2 in
  success (processRefund nts refund_req sold).1 = true →
  let refunded := (processRefund nts refund_req sold).2 in
  inventory refunded = inventory d ∧
  ∃ m,
    written_since (length (stock_movements d)) (stock_movements refunded)
      = [m] ∧
    StockMovements.movement_type m = "return" ∧
    StockMovements.quantity_change m = CreateSale.quantity it ∧
    signed_sum
      (written_since (length (stock_movements d)) (stock_movements refunded))
      = CreateSale.quantity it ∧
    0 < CreateSale.quantity it.
Proof.
  intros Hitems Hsold Hsid Hline sold. subst sold.
  destruct (createSale st sale_req d) as [res1 d1] eqn:Hrun1.
  cbn [fst snd] in *.
  destruct (createSale_single _ _ _ _ _ _ Hitems Hrun1 Hsold)
    as (k & i & rest & sale & line & Hpos & Hcheck & _ & _ & _ & Hbatch & _ & ->).
  apply inventoryCheck_lookup in Hcheck.
  intros Hrefund.
  destruct (processRefund nts refund_req _) as [res2 d2] eqn:Hrun2.
  cbn [fst snd] in *.
  destruct (processRefund_single_returned _ _ _ _ _ _ Hline Hrun2 Hrefund)
    as (line' & Hline' & _ & Hinv & Hlog).
  cbn [sale_items inventory stock_movements saleItemId quantityToRefund]
    in Hline', Hinv, Hlog.
  rewrite lookup_insert_eq in Hline'. injection Hline' as <-.
  rewrite Hbatch in Hinv, Hlog.
  rewrite Hinv, Hlog. split; [by apply (restock_consume_reserve _ _ i)|].
  rewrite !lookup_alter_eq, Hcheck. cbn [fmap option_fmap option_map].
  unfold written_since. rewrite drop_app_length.
  eexists. split; [reflexivity|]. simpl. repeat split; lia.
Qed.
End RefundProperties.

(** Sale line 1 was sold with 5 units, which left batch X at 5; the refund
    call that lists it twice succeeds and takes batch X to 15. *)
Lemma refund_check_is_per_entry_witness :
  success (processRefund Examples.number_to_string Examples.double_refund
             Examples.sold_pharmacy).1 = true ∧
  on_hand Examples.sold_pharmacy 1 = Some 5 ∧
  on_hand (processRefund Examples.number_to_string Examples.double_refund
             Examples.sold_pharmacy).2 1 = Some 15.
Proof.
  pose proof (λ sale line batch,
                refund_check_is_per_entry Examples.number_to_string
                  Examples.sold_pharmacy sale line batch
                  Examples.double_refund 1 5) as Hentry.
  edestruct Hentry as (Hdone & Hhand & _);
    [first [vm_compute; reflexivity | eexists; vm_compute; reflexivity] ..|].
  split; [exact Hdone|]. split; [reflexivity|exact Hhand].
Defined.

(** C10, as stated, fails: after the refund of the 5 units of sale line 1,
    the same refund call is rejected and batch X stays at its 10 units; and
    there is no sale at all on which two successive refund calls both
    succeed. *)
Lemma second_refund_call_is_rejected :
  (let first := processRefund Examples.number_to_string Examples.full_refund
                  Examples.sold_pharmacy in
   let second := processRefund Examples.number_to_string Examples.full_refund
                   first.2 in
   success first.1 = true ∧ success second.1 = false ∧
   on_hand second.2 1 = Some 10) ∧
  ¬ ∃ nts d req1 req2,
      ProcessRefund.saleId req1 = ProcessRefund.saleId req2 ∧
      success (processRefund nts req1 d).1 = true ∧
      success (processRefund nts req2 (processRefund nts req1 d).2).1 = true.
Proof.
  split; [repeat split; vm_compute; reflexivity|].
  intros (nts & d & req1 & req2 & Hsame & Hfirst & Hsecond).
  rewrite (second_refund_fails nts req1 req2 d Hsame Hfirst) in Hsecond.
  discriminate.
Qed.

(** The sale of 5 units and its full refund: the batches are as before the
    sale, and the movements logged sum to +5. *)
Lemma sale_then_full_refund_witness :
  let refunded :=
    (processRefund Examples.number_to_string Examples.full_refund
       Examples.sold_pharmacy).2 in
  inventory refunded = inventory Examples.pharmacy ∧
  signed_sum (written_since 0 (stock_movements refunded)) = 5.
Proof.
  destruct (sale_then_full_refund "completed" Examples.number_to_string
              (Examples.sale_of 5) (CreateSale.Item 1 5 1 0 None)
              Examples.full_refund Examples.pharmacy
              eq_refl eq_refl eq_refl eq_refl eq_refl)
    as (Hinv & m & _ & _ & _ & Hsum & _).
  split; [exact Hinv|exact Hsum].
Defined.

(** ** The sibling paths log what they change *)


(** ** Two sales served one after the other *)

(** Served one after the other on a batch with 100 units available, two
    sales of 60 units do not both succeed: the first takes the batch to 40,
    the second is rejected and changes nothing. (This is the serial case
    only; it says nothing of two requests in flight at once.) *)
Example two_serial_sales_of_60 :
  let stock :=
    Db {[1 := Examples.aspirin]}
       {[1 := Inventory.set_quantity_on_hand 100 Examples.batch_X]}
       ∅ ∅ [] ∅ ∅ in
  let first := createSale "completed" (Examples.sale_of 60) stock in
  let second := createSale "completed" (Examples.sale_of 60) first.2 in
  success first.1 = true ∧ success second.1 = false ∧
  on_hand first.2 1 = Some 40 ∧ on_hand second.2 1 = Some 40.
Proof. repeat split; vm_compute; reflexivity. Qed.

(** * Further properties *)

(** ** The loops of a sale *)

Lemma reserve_all_lookup alloc m k :
  reserve_all alloc m !! k =
  (λ i, Inventory.set_quantity_reserved
          (Inventory.quantity_reserved i + taken alloc k) i) <$> m !! k.
Proof.
  revert m. induction alloc as [|[k' q] alloc IH]; intros m; simpl.
  - destruct (m !! k) as [[]|]; simpl; [|done].
    unfold Inventory.set_quantity_reserved. simpl. do 2 f_equal. lia.
  - unfold reserve_all in *. simpl. rewrite IH.
    destruct (decide (k' = k)) as [->|Hne].
    + rewrite lookup_alter_eq. destruct (m !! k) as [[]|]; simpl; [|done].
      unfold reserve, Inventory.set_quantity_reserved. simpl. do 2 f_equal. lia.
    + by rewrite lookup_alter_ne.
Qed.

Lemma consume_all_lookup alloc m k :
  consume_all alloc m !! k =
  (λ i, Inventory.set_quantity_reserved
          (Inventory.quantity_reserved i - taken alloc k)
          (Inventory.set_quantity_on_hand
             (Inventory.quantity_on_hand i - taken alloc k) i)) <$> m !! k.
Proof.
  revert m. induction alloc as [|[k' q] alloc IH]; intros m; simpl.
  - destruct (m !! k) as [[]|]; simpl; [|done].
    unfold Inventory.set_quantity_reserved, Inventory.set_quantity_on_hand.
    simpl. f_equal. f_equal; lia.
  - unfold consume_all in *. simpl. rewrite IH.
    destruct (decide (k' = k)) as [->|Hne].
    + rewrite lookup_alter_eq. destruct (m !! k) as [[]|]; simpl; [|done].
      unfold consume, Inventory.set_quantity_reserved,
        Inventory.set_quantity_on_hand. simpl. f_equal. f_equal; lia.
    + by rewrite lookup_alter_ne.
Qed.

Lemma consume_reserve_all_lookup alloc m k :
  consume_all alloc (reserve_all alloc m) !! k =
  (λ i, Inventory.set_quantity_on_hand
          (Inventory.quantity_on_hand i - taken alloc k) i) <$> m !! k.
Proof.
  rewrite consume_all_lookup, reserve_all_lookup.
  destruct (m !! k) as [[]|]; simpl; [|done].
  unfold Inventory.set_quantity_reserved, Inventory.set_quantity_on_hand.
  simpl. f_equal. f_equal; lia.
Qed.

Lemma taken_app a1 a2 k : taken (a1 ++ a2) k = taken a1 k + taken a2 k.
Proof.
  induction a1 as [|a a1 IH]; simpl; [lia|]. case_decide; lia.
Qed.

Lemma reserve_all_app a1 a2 m :
  reserve_all (a1 ++ a2) m = reserve_all a2 (reserve_all a1 m).
Proof. unfold reserve_all. by rewrite foldl_app. Qed.

Lemma inventoryCheck_eligible it d k i rest :
  inventoryCheck it d = (k, i) :: rest →
  eligible (CreateSale.productId it) (CreateSale.quantity it) i.
Proof.
  unfold inventoryCheck. destruct (truthy_id _) as [id|].
  - unfold select_pinned. repeat case_match; try done. by intros [= <- <- <-].
  - intros Hfifo. by apply select_fifo_cons in Hfifo as (_ & _ & Hel & _).
Qed.


Lemma alter_reserve_lookup_inv q k (m : gmap Z Inventory.row) a i' :
  alter (reserve q) k m !! a = Some i' →
  ∃ i, m !! a = Some i ∧ Inventory.product_id i = Inventory.product_id i' ∧
       Inventory.status i = Inventory.status i'.
Proof.
  destruct (decide (a = k)) as [->|Hne].
  - rewrite lookup_alter_eq. destruct (m !! k) as [i|]; [|done].
    intros [= <-]. exists i. by destruct i.
  - rewrite lookup_alter_ne by done. intros ->. by eexists.
Qed.

Section SaleLoops.
Import CreateSale.

(** What the item loop has checked of an item when it goes on. *)
Lemma process_item_checked req acc it d acc' d' :
  process_item req acc it d = (Returned acc', d') →
  ∃ p, products d !! productId it = Some p ∧ Products.is_active p = true ∧
       (Products.requires_prescription p = true →
        truthy (prescriptionNumber req) = true).
Proof.
  unfold process_item. case_decide; [done|]. tx_unfold. cbv beta iota.
  destruct (products d !! productId it) as [p|] eqn:Hp; [|done].
  destruct (Products.is_active p) eqn:Hactive; [|done].
  destruct (Products.requires_prescription p) eqn:Hrx; simpl.
  - destruct (truthy (prescriptionNumber req)); simpl; [|done].
    intros _. by exists p.
  - intros _. exists p. do 2 (split; [done|]). congruence.
Qed.

(** The item loop of a sale that ran to its end: one processed item per
    item, with the item's quantity, each reserved on its batch, and no batch
    reserved beyond what it has on hand. *)
Lemma process_loop req l :
  ∀ acc w acc' w',
    for_of l (process_item req) acc w = (Returned acc', w') →
    ∃ ps,
      processedItems acc' = processedItems acc ++ ps ∧
      Forall2 (λ it p,
        serves (inventory w) it (p_inventoryId p, p_quantity p) ∧
        p_productId p = productId it ∧
        ∃ r, products w !! productId it = Some r ∧
             Products.is_active r = true ∧
             (Products.requires_prescription r = true →
              truthy (prescriptionNumber req) = true)) l ps ∧
      w' = with_inventory (reserve_all (allocation ps)) w ∧
      ((∀ k i, inventory w !! k = Some i →
               Inventory.quantity_reserved i ≤ Inventory.quantity_on_hand i) →
       ∀ k i, inventory w' !! k = Some i →
              Inventory.quantity_reserved i ≤ Inventory.quantity_on_hand i).
Proof.
  induction l as [|it l IH]; intros acc w acc' w'; simpl.
  - intros [= <- <-]. exists []. rewrite app_nil_r.
    split; [done|]. split; [constructor|]. split; [by destruct w|]. done.
  - rewrite bind_run.
    destruct (process_item req acc it w) as [[acc1|e] w1] eqn:E; [|done].
    pose proof (process_item_checked _ _ _ _ _ _ E) as Hchecked.
    apply process_item_returned in E
      as (k & i & rest & da & lt & lta & Hpos & Hcheck & -> & ->).
    pose proof (inventoryCheck_lookup _ _ _ _ _ Hcheck) as Hk.
    pose proof (inventoryCheck_eligible _ _ _ _ _ Hcheck) as (Hprod & Hst & Hq).
    intros Hloop. apply IH in Hloop as (ps & Hps & Hall & -> & Hinv).
    simpl in Hps. rewrite <- app_assoc in Hps. simpl in Hps.
    eexists (_ :: ps). split; [exact Hps|]. split.
    { constructor.
      - split; [|by split]. unfold serves. simpl.
        do 2 (split; [done|]). split; [|by exists i].
        intros id Hid. unfold inventoryCheck in Hcheck. rewrite Hid in Hcheck.
        unfold select_pinned in Hcheck. by repeat case_match; simplify_eq.
      - eapply Forall2_impl; [exact Hall|]. simpl.
        intros it' p' ((Hq' & Hpos' & Hpin & i' & Hi' & Hpr' & Hst') & Hrest).
        split; [|exact Hrest]. unfold serves.
        do 3 (split; [done|]).
        apply alter_reserve_lookup_inv in Hi' as (i0 & Hi0 & Hp0 & Hs0).
        exists i0. by rewrite Hp0, Hs0. }
    split; [by destruct w|].
    intros Hok. apply Hinv. intros k' i' Hk'. simpl in Hk'.
    destruct (decide (k' = k)) as [->|Hne].
    + rewrite lookup_alter_eq in Hk'.
      rewrite Hk in Hk'. injection Hk' as <-.
      unfold Inventory.quantity_available in Hq. destruct i. simpl in *. lia.
    + rewrite lookup_alter_ne in Hk' by done. by eapply Hok.
Qed.

(** The loop over the processed items never throws: it inserts the sale's
    lines beside the lines there were and decrements the batches. *)
Lemma commit_loop sale_id ps :
  ∀ w, ∃ items',
    for_of ps (commit_item sale_id) () w =
    (Returned (),
     Db (products w) (consume_all (allocation ps) (inventory w)) (sales w)
        items' (stock_movements w) (purchase_orders w)
        (purchase_order_items w)) ∧
    sale_items w ⊆ items' ∧
    size items' = (size (sale_items w) + length ps)%nat ∧
    ∀ k line, items' !! k = Some line →
      sale_items w !! k = Some line ∨
      (SaleItems.sale_id line = sale_id ∧
       ∃ p, p ∈ ps ∧ SaleItems.quantity line = p_quantity p ∧
            SaleItems.product_id line = p_productId p ∧
            SaleItems.inventory_id line = p_inventoryId p).
Proof.
  induction ps as [|p ps IH]; intros w; simpl.
  - exists (sale_items w). split; [by destruct w|]. split; [done|].
    split; [lia|]. by left.
  - rewrite bind_run. unfold commit_item at 1. tx_unfold. simpl.
    edestruct IH as (items' & -> & Hsub & Hsize & Hnew). eexists.
    split; [done|]. simpl in *.
    pose proof (next_id_fresh (sale_items w)) as Hfresh. split.
    + etrans; [|exact Hsub]. by apply insert_subseteq.
    + split.
      { rewrite Hsize, map_size_insert_None by done. lia. }
      intros k line Hline.
      apply Hnew in Hline as [Hline|(Hid & p' & Hp' & Hrest)].
      * destruct (decide (k = next_id (sale_items w))) as [->|Hne].
        -- rewrite lookup_insert_eq in Hline. injection Hline as <-. right.
           split; [done|]. exists p. split; [apply list_elem_of_here|done].
        -- rewrite lookup_insert_ne in Hline by done. by left.
      * right. split; [done|]. exists p'.
        split; [by apply list_elem_of_further|done].
Qed.
End SaleLoops.

(** A sale that succeeds: what it answers and what it leaves. *)
Lemma createSale_returned st req d res d' :
  createSale st req d = (res, d') → success res = true →
  ∃ ps sale line_items sub tax,
    Forall2 (λ it p,
        serves (inventory d) it
          (CreateSale.p_inventoryId p, CreateSale.p_quantity p) ∧
        CreateSale.p_productId p = CreateSale.productId it ∧
        ∃ r, products d !! CreateSale.productId it = Some r ∧
             Products.is_active r = true ∧
             (Products.requires_prescription r = true →
              truthy (CreateSale.prescriptionNumber req) = true))
      (CreateSale.items req) ps ∧
    CreateSale.paymentMethod req ∈ validPaymentMethods ∧
    res = Response 201 true "Sale created successfully"
            (SaleData (next_id (sales d)) sub tax (sub + tax)%Q (length ps)) ∧
    payments_mismatch (CreateSale.insuranceClaimAmount req)
      (CreateSale.customerPaymentAmount req) (sub + tax) = false ∧
    Sales.total_amount sale = (sub + tax)%Q ∧
    Sales.payment_status sale = st ∧
    Sales.cashier_id sale = CreateSale.cashierId req ∧
    sale_items d ⊆ line_items ∧
    size line_items = (size (sale_items d) + length ps)%nat ∧
    (∀ k line, line_items !! k = Some line →
       sale_items d !! k = Some line ∨
       (SaleItems.sale_id line = next_id (sales d) ∧
        ∃ p, p ∈ ps ∧ SaleItems.quantity line = CreateSale.p_quantity p ∧
             SaleItems.product_id line = CreateSale.p_productId p ∧
             SaleItems.inventory_id line = CreateSale.p_inventoryId p)) ∧
    ((∀ k i, inventory d !! k = Some i →
            Inventory.quantity_reserved i ≤ Inventory.quantity_on_hand i) →
     ∀ k i, reserve_all (allocation ps) (inventory d) !! k = Some i →
            Inventory.quantity_reserved i ≤ Inventory.quantity_on_hand i) ∧
    d' = Db (products d)
           (consume_all (allocation ps) (reserve_all (allocation ps) (inventory d)))
           (<[next_id (sales d) := sale]> (sales d))
           line_items (stock_movements d) (purchase_orders d)
           (purchase_order_items d).
Proof.
  intros Hrun Hsucc. unfold createSale in Hrun.
  repeat case_decide; try by simplify_eq.
  destruct (transaction _ d) as [[r|e] w] eqn:E; [|by simplify_eq].
  injection Hrun as -> ->.
  apply transaction_returned in E. unfold createSale_callback in E.
  rewrite bind_run in E.
  destruct (for_of _ _ _ d) as [[acc|e] d1] eqn:Eloop; [|done].
  apply process_loop in Eloop as (ps & Hps & Hall & -> & Hinv).
  simpl in Hps. rewrite Hps in E.
  destruct (payments_mismatch _ _ _) eqn:Hpay; [done|].
  tx_unfold. tx_simpl.
  edestruct (commit_loop (next_id (sales d)) ps)
    as (items' & Hcommit & Hsub & Hsize & Hnew).
  rewrite Hcommit in E. injection E as <- <-.
  eexists ps, (Sales.Row _ _ _ _ _ _ _ _ _ _ _ _), items', _, _.
  split; [exact Hall|]. split; [done|]. split; [reflexivity|].
  split; [exact Hpay|].
  do 3 (split; [reflexivity|]). split; [exact Hsub|]. split; [exact Hsize|].
  split; [exact Hnew|].
  split; [exact Hinv|]. reflexivity.
Qed.

(** ** First-expiring allocation *)

Lemma with_inventory_compose f g d :
  with_inventory f (with_inventory g d) = with_inventory (λ m, f (g m)) d.
Proof. by destruct d. Qed.

Lemma no_payment_method : "" ∉ validPaymentMethods.
Proof.
  unfold validPaymentMethods. intros H.
  repeat (apply elem_of_cons in H as [H|H]; [done|]).
  by apply elem_of_nil in H.
Qed.

Section FifoAllocation.
Import CreateSale.

(** The item loop of a sale that ran to its end has allocated the lines
    first expiring first. *)
Lemma process_loop_fifo req l :
  ∀ acc w acc' w',
    for_of l (process_item req) acc w = (Returned acc', w') →
    ∃ ps,
      processedItems acc' = processedItems acc ++ ps ∧
      w' = with_inventory (reserve_all (allocation ps)) w ∧
      fifo_allocation w l (allocation ps).
Proof.
  induction l as [|it l IH]; intros acc w acc' w'; simpl.
  - intros [= <- <-]. exists []. rewrite app_nil_r.
    split; [done|]. split; [by destruct w|]. split; [constructor|].
    intros n it a Hn. by rewrite lookup_nil in Hn.
  - rewrite bind_run.
    destruct (process_item req acc it w) as [[acc1|e] w1] eqn:E; [|done].
    apply process_item_returned in E
      as (k & i & rest & da & lt & lta & Hpos & Hcheck & -> & ->).
    intros Hloop. apply IH in Hloop as (ps & Hps & -> & Hall & Hfifo).
    simpl in Hps. rewrite <- app_assoc in Hps.
    eexists (_ :: ps). split; [exact Hps|].
    split; [by rewrite with_inventory_compose|]. split.
    { by constructor. }
    intros [|n] it' a Hit Ha Hfree; simpl in Hit, Ha.
    + injection Hit as <-. injection Ha as <-. simpl.
      unfold inventoryCheck in Hcheck. rewrite Hfree in Hcheck.
      apply select_fifo_cons in Hcheck as (_ & Hk & Hel & Hmin).
      exists i. by destruct w.
    + specialize (Hfifo n it' a Hit Ha Hfree).
      by rewrite with_inventory_compose in Hfifo.
Qed.

(** C1 (amended). A sale line with no pinned batch is never split. When the
    line is processed, either it throws and leaves the working database as
    it was, or it reserves the whole requested quantity on one batch: the
    first expiring among the active batches of the product whose available
    quantity covers the request alone. For a sale of any number of lines:
    when the sale succeeds, every line was taken whole from one batch, for a
    line with no pinned batch the first expiring batch that could serve it
    alone once the lines before it were reserved, and every batch ends with
    its quantity on hand lowered by what the lines took from it. When a line
    with no pinned batch is reached, has a positive quantity and an active
    product, comes with the prescription number that the product may
    require, and no single batch covers it, the sale is answered with
    "Insufficient inventory for product: " and the product's name, and
    nothing persists, whatever the batches hold together. *)
Theorem fifo_takes_one_batch st req :
  (∀ it acc w, truthy_id (inventoryId it) = None →
     match process_item req acc it w with
     | (Returned acc', w') =>
         ∃ k entry,
           first_expiring w it k ∧
           w' = with_inventory (alter (reserve (quantity it)) k) w ∧
           processedItems acc' = processedItems acc ++ [entry] ∧
           p_inventoryId entry = k ∧ p_quantity entry = quantity it
     | (Thrown _, w') => w' = w
     end) ∧
  (∀ d, success (createSale st req d).1 = true →
     ∃ alloc,
       fifo_allocation d (items req) alloc ∧
       ∀ k, inventory (createSale st req d).2 !! k =
            (λ i, Inventory.set_quantity_on_hand
                    (Inventory.quantity_on_hand i - taken alloc k) i)
              <$> inventory d !! k) ∧
  (∀ d pre it post acc w p,
     items req = pre ++ it :: post →
     paymentMethod req ∈ validPaymentMethods →
     for_of pre (process_item req) (Locals 0 0 []) d = (Returned acc, w) →
     truthy_id (inventoryId it) = None →
     productId it ≠ 0 → 0 < quantity it →
     products d !! productId it = Some p → Products.is_active p = true →
     (Products.requires_prescription p = true →
      truthy (prescriptionNumber req) = true) →
     (∀ k i, inventory w !! k = Some i →
             ¬ eligible (productId it) (quantity it) i) →
     createSale st req d =
     (failure 400
        ("Insufficient inventory for product: " +:+ Products.product_name p),
      d)).
Proof.
  split; [|split].
  - intros it acc w Hfree.
    destruct (process_item req acc it w) as [[acc'|e] w'] eqn:E.
    + apply process_item_returned in E
        as (k & i & rest & da & lt & lta & _ & Hcheck & -> & ->).
      unfold inventoryCheck in Hcheck. rewrite Hfree in Hcheck.
      apply select_fifo_cons in Hcheck as (-> & Hk & Hel & Hmin).
      eexists k, _. split; [by exists i|]. done.
    + by apply process_item_thrown in E.
  - intros d. destruct (createSale st req d) as [res d'] eqn:Hrun. simpl.
    intros Hsucc. unfold createSale in Hrun.
    repeat case_decide; try by simplify_eq.
    destruct (transaction _ d) as [[r|e] w] eqn:E; [|by simplify_eq].
    injection Hrun as -> ->.
    apply transaction_returned in E. unfold createSale_callback in E.
    rewrite bind_run in E.
    destruct (for_of _ _ _ d) as [[acc|e] d1] eqn:Eloop; [|done].
    apply process_loop_fifo in Eloop as (ps & Hps & -> & Hfifo).
    simpl in Hps. rewrite Hps in E.
    destruct (payments_mismatch _ _ _); [done|].
    tx_unfold. tx_simpl.
    edestruct (commit_loop (next_id (sales d)) ps) as (items' & Hcommit & _).
    rewrite Hcommit in E. injection E as <- <-.
    exists (allocation ps). split; [exact Hfifo|].
    intros k. simpl. apply consume_reserve_all_lookup.
  - intros d pre it post acc w p Hitems Hpm Hpre Hfree Hid Hq Hp Hactive Hrx
      Hnone.
    unfold createSale. rewrite decide_False by (rewrite Hitems; by destruct pre).
    rewrite decide_False
      by (intros Hempty; rewrite Hempty in Hpm; by apply no_payment_method in Hpm).
    rewrite decide_True by done.
    unfold transaction, createSale_callback. rewrite bind_run, Hitems.
    rewrite for_of_app, Hpre. cbn [for_of]. rewrite bind_run.
    destruct (process_loop_fifo _ _ _ _ _ _ Hpre) as (ps & _ & Hw & _).
    rewrite (process_item_insufficient req acc it w p); try done.
    + by rewrite Hw.
    + unfold inventoryCheck. rewrite Hfree. by apply select_fifo_nil.
Qed.
End FifoAllocation.

(** On the pharmacy the sale of 5 units is taken whole from batch X, the
    first expiring batch, and the sale of 15 units, which no batch covers
    alone, is answered with the error. So is the sale of 5 units, then 15
    units: when the second line is reached, 5 units of batch X are reserved
    and neither batch has 15 units available. *)
Lemma fifo_takes_one_batch_witness :
  (∃ alloc,
     fifo_allocation Examples.pharmacy
       (CreateSale.items (Examples.sale_of 5)) alloc ∧
     ∀ k, inventory (createSale "completed" (Examples.sale_of 5)
                       Examples.pharmacy).2 !! k =
          (λ i, Inventory.set_quantity_on_hand
                  (Inventory.quantity_on_hand i - taken alloc k) i)
            <$> inventory Examples.pharmacy !! k) ∧
  createSale "completed" (Examples.sale_of 15) Examples.pharmacy =
  (failure 400 "Insufficient inventory for product: Aspirin",
   Examples.pharmacy) ∧
  createSale "completed" Examples.two_line_sale Examples.pharmacy =
  (failure 400 "Insufficient inventory for product: Aspirin",
   Examples.pharmacy).
Proof.
  assert (Examples.aspirin.(Products.requires_prescription) = true →
          truthy None = true) as Hrx by done.
  split; [|split].
  - destruct (fifo_takes_one_batch "completed" (Examples.sale_of 5))
      as (_ & Hsale & _).
    exact (Hsale Examples.pharmacy eq_refl).
  - destruct (fifo_takes_one_batch "completed" (Examples.sale_of 15))
      as (_ & _ & Hfail).
    apply (Hfail Examples.pharmacy [] (CreateSale.Item 1 15 1 0 None) []
             (CreateSale.Locals 0 0 []) Examples.pharmacy Examples.aspirin);
      try done.
    + set_solver.
    + change (map_Forall (λ _ i, ¬ eligible 1 15 i)
                (inventory Examples.pharmacy)).
      apply (bool_decide_unpack _). vm_compute. reflexivity.
  - destruct (fifo_takes_one_batch "completed" Examples.two_line_sale)
      as (_ & _ & Hfail).
    apply (Hfail Examples.pharmacy [CreateSale.Item 1 5 1 0 None]
             (CreateSale.Item 1 15 1 0 None) []
             (CreateSale.Locals (0 + (1 * inject_Z 5 - 1 * inject_Z 5 * 0 / 100))
                (0 + (1 * inject_Z 5 - 1 * inject_Z 5 * 0 / 100) * 0 / 100)
                [CreateSale.Processed 1 1 5 1 0 (1 * inject_Z 5 * 0 / 100)
                   (1 * inject_Z 5 - 1 * inject_Z 5 * 0 / 100)
                   (Some 19723) (Some "X")])
             (with_inventory (alter (reserve 5) 1) Examples.pharmacy)
             Examples.aspirin); try done.
    + set_solver.
    + change (map_Forall (λ _ i, ¬ eligible 1 15 i)
                (inventory (with_inventory (alter (reserve 5) 1)
                              Examples.pharmacy))).
      apply (bool_decide_unpack _). vm_compute. reflexivity.
Defined.

(** ** Sales of several lines *)

Lemma taken_nonneg alloc k :
  Forall (λ a : Z * Z, 0 ≤ a.2) alloc → 0 ≤ taken alloc k.
Proof.
  induction 1 as [|a alloc Ha _ IH]; simpl; [done|]. case_decide; lia.
Qed.

Lemma serves_nonneg m items alloc :
  Forall2 (serves m) items alloc → Forall (λ a : Z * Z, 0 ≤ a.2) alloc.
Proof.
  induction 1 as [|it a items alloc (Hq & Hpos & _) _ IH]; constructor; [lia|done].
Qed.

(** X1. A sale that succeeds serves every line whole from one batch: an
    active batch of the line's product, the batch the line names when it
    names one; and every batch ends with its quantity on hand lowered by what
    the lines took from it, all its other columns, the reservation among
    them, as they were. *)
Theorem createSale_serves_every_line st req d :
  success (createSale st req d).1 = true →
  ∃ alloc,
    Forall2 (serves (inventory d)) (CreateSale.items req) alloc ∧
    ∀ k, inventory (createSale st req d).2 !! k =
         (λ i, Inventory.set_quantity_on_hand
                 (Inventory.quantity_on_hand i - taken alloc k) i)
           <$> inventory d !! k.
Proof.
  destruct (createSale st req d) as [res d'] eqn:E. simpl. intros Hsucc.
  destruct (createSale_returned _ _ _ _ _ E Hsucc)
    as (ps & sale & line_items & sub & tax & Hall & _ & _ & _ & _ & _ & _ & _
        & _ & _ & _ & ->).
  exists (allocation ps). split.
  - unfold allocation. apply Forall2_fmap_r.
    eapply Forall2_impl; [exact Hall|]. by intros it p [? _].
  - intros k. simpl. apply consume_reserve_all_lookup.
Qed.

Lemma createSale_serves_every_line_witness :
  ∃ alloc,
    Forall2 (serves (inventory Examples.pharmacy))
      (CreateSale.items (Examples.sale_of 5)) alloc ∧
    ∀ k, inventory (createSale "completed" (Examples.sale_of 5)
                      Examples.pharmacy).2 !! k =
         (λ i, Inventory.set_quantity_on_hand
                 (Inventory.quantity_on_hand i - taken alloc k) i)
           <$> inventory Examples.pharmacy !! k.
Proof.
  apply (createSale_serves_every_line "completed" (Examples.sale_of 5)
           Examples.pharmacy).
  reflexivity.
Defined.

(** X2. A sale never sells what is reserved or not there: on batches whose
    reservations are between zero and the quantity on hand, a sale that
    succeeds takes from each batch at most its available quantity (on hand
    less reserved), also when several lines draw on one batch, and leaves
    batches with the same property. *)
Theorem createSale_never_oversells st req d :
  inventory_ok d → success (createSale st req d).1 = true →
  inventory_ok (createSale st req d).2 ∧
  ∀ k i, inventory d !! k = Some i →
    ∃ t, 0 ≤ t ≤ Inventory.quantity_available i ∧
         inventory (createSale st req d).2 !! k =
         Some (Inventory.set_quantity_on_hand
                 (Inventory.quantity_on_hand i - t) i).
Proof.
  intros Hok. destruct (createSale st req d) as [res d'] eqn:E. simpl.
  intros Hsucc.
  destruct (createSale_returned _ _ _ _ _ E Hsucc)
    as (ps & sale & line_items & sub & tax & Hall & _ & _ & _ & _ & _ & _ & _
        & _ & _ & Hinv & ->).
  assert (Forall2 (serves (inventory d)) (CreateSale.items req) (allocation ps))
    as Hserves.
  { unfold allocation. apply Forall2_fmap_r.
    eapply Forall2_impl; [exact Hall|]. by intros it p [? _]. }
  assert (∀ k i, inventory d !! k = Some i →
            0 ≤ taken (allocation ps) k ≤ Inventory.quantity_available i)
    as Htaken.
  { intros k i Hk. split.
    - eapply taken_nonneg, serves_nonneg, Hserves.
    - assert (∀ k i, inventory d !! k = Some i →
                Inventory.quantity_reserved i ≤ Inventory.quantity_on_hand i)
        as Hle by (intros k0 i0 H0; apply (Hok k0 i0 H0)).
      specialize (Hinv Hle k). rewrite reserve_all_lookup, Hk in Hinv.
      specialize (Hinv _ eq_refl). unfold Inventory.quantity_available.
      destruct i; simpl in *. lia. }
  split.
  - intros k i'. simpl. rewrite consume_reserve_all_lookup.
    destruct (inventory d !! k) as [i|] eqn:Hk; [|done]. intros [= <-].
    pose proof (Htaken k i Hk) as Ht. pose proof (Hok k i Hk) as Hi.
    unfold batch_ok, Inventory.quantity_available in *.
    destruct i; simpl in *. lia.
  - intros k i Hk. exists (taken (allocation ps) k).
    split; [by apply Htaken|]. simpl.
    by rewrite consume_reserve_all_lookup, Hk.
Qed.

Lemma createSale_never_oversells_witness :
  inventory_ok Examples.pharmacy ∧
  inventory_ok (createSale "completed" (Examples.sale_of 5)
                  Examples.pharmacy).2.
Proof.
  assert (inventory_ok Examples.pharmacy) as Hok.
  { intros k i Hk. change (inventory Examples.pharmacy)
      with ({[1 := Examples.batch_X; 2 := Examples.batch_Y]} : gmap Z _) in Hk.
    apply lookup_insert_Some in Hk as [[_ <-]|[_ Hk]]; [by vm_compute|].
    apply lookup_singleton_Some in Hk as [_ <-]. by vm_compute. }
  split; [exact Hok|].
  apply (createSale_never_oversells "completed" (Examples.sale_of 5)
           Examples.pharmacy Hok).
  reflexivity.
Defined.

(** X3. What a sale that succeeds has checked: the payment method is one of
    cash, card, insurance, check, digital; every line has a positive
    quantity and an active product; and a prescription number came with the
    request if any line's product requires a prescription. A sale that
    misses one of these is answered with a failure. *)
Theorem createSale_checks_every_line st req d :
  success (createSale st req d).1 = true →
  CreateSale.items req ≠ [] ∧
  CreateSale.paymentMethod req ∈ validPaymentMethods ∧
  ∀ it, it ∈ CreateSale.items req →
    0 < CreateSale.quantity it ∧
    ∃ p, products d !! CreateSale.productId it = Some p ∧
         Products.is_active p = true ∧
         (Products.requires_prescription p = true →
          truthy (CreateSale.prescriptionNumber req) = true).
Proof.
  destruct (createSale st req d) as [res d'] eqn:E. simpl. intros Hsucc.
  split.
  { intros Hnil. unfold createSale in E. rewrite decide_True in E by done.
    by simplify_eq. }
  destruct (createSale_returned _ _ _ _ _ E Hsucc)
    as (ps & sale & line_items & sub & tax & Hall & Hpm & _).
  split; [exact Hpm|]. intros it Hit.
  apply list_elem_of_lookup in Hit as [n Hn].
  destruct (Forall2_lookup_l _ _ _ _ _ Hall Hn)
    as (p & _ & (_ & Hpos & _) & _ & Hproduct).
  by split.
Qed.

Lemma createSale_checks_every_line_witness :
  CreateSale.items (Examples.sale_of 5) ≠ [] ∧
  CreateSale.paymentMethod (Examples.sale_of 5) ∈ validPaymentMethods ∧
  ∀ it, it ∈ CreateSale.items (Examples.sale_of 5) →
    0 < CreateSale.quantity it ∧
    ∃ p, products Examples.pharmacy !! CreateSale.productId it = Some p ∧
         Products.is_active p = true ∧
         (Products.requires_prescription p = true →
          truthy (CreateSale.prescriptionNumber (Examples.sale_of 5)) = true).
Proof.
  apply (createSale_checks_every_line "completed" (Examples.sale_of 5)
           Examples.pharmacy).
  reflexivity.
Defined.

(** X4. What a sale that succeeds records: the answer is 201 with the new
    sale's id, one more than the largest id in use, three amounts and the
    number of lines of the request; the sale is stored under that id with the
    cashier and the schema's default payment status; one sale line is added
    per line of the request, each for the new sale with the product and the
    positive quantity of a line of the request; the sales, sale lines,
    products, movements and purchase orders there were are untouched. *)
Theorem createSale_records_the_sale st req d :
  success (createSale st req d).1 = true →
  ∃ sale sub tax total,
    (createSale st req d).1 =
      Response 201 true "Sale created successfully"
        (SaleData (next_id (sales d)) sub tax total
           (length (CreateSale.items req))) ∧
    sales d !! next_id (sales d) = None ∧
    sales (createSale st req d).2 = <[next_id (sales d) := sale]> (sales d) ∧
    Sales.cashier_id sale = CreateSale.cashierId req ∧
    Sales.payment_status sale = st ∧
    sale_items d ⊆ sale_items (createSale st req d).2 ∧
    size (sale_items (createSale st req d).2) =
      (size (sale_items d) + length (CreateSale.items req))%nat ∧
    (∀ k line, sale_items (createSale st req d).2 !! k = Some line →
       sale_items d !! k = Some line ∨
       (SaleItems.sale_id line = next_id (sales d) ∧
        0 < SaleItems.quantity line ∧
        ∃ it, it ∈ CreateSale.items req ∧
              SaleItems.quantity line = CreateSale.quantity it ∧
              SaleItems.product_id line = CreateSale.productId it)) ∧
    products (createSale st req d).2 = products d ∧
    stock_movements (createSale st req d).2 = stock_movements d ∧
    purchase_orders (createSale st req d).2 = purchase_orders d ∧
    purchase_order_items (createSale st req d).2 = purchase_order_items d.
Proof.
  destruct (createSale st req d) as [res d'] eqn:E. simpl. intros Hsucc.
  destruct (createSale_returned _ _ _ _ _ E Hsucc)
    as (ps & sale & line_items & sub & tax & Hall & _ & -> & _ & _
        & Hst & Hcashier & Hsub & Hsize & Hnew & _ & ->).
  exists sale, sub, tax, (sub + tax)%Q. simpl.
  rewrite (Forall2_length _ _ _ Hall).
  split; [done|]. split; [apply next_id_fresh|].
  do 4 (split; [done|]). split; [exact Hsize|]. split; [|done].
  intros k line Hline.
  destruct (Hnew k line Hline) as [Hold|(Hid & p & Hp & Hq & Hprod & _)];
    [by left|right].
  apply list_elem_of_lookup in Hp as [n Hn].
  destruct (Forall2_lookup_r _ _ _ _ _ Hall Hn)
    as (it & Hit & (Hq' & Hpos & _) & Hprod' & _).
  simpl in Hq'. split; [done|]. split; [lia|]. exists it.
  split; [by eapply list_elem_of_lookup_2|]. split; congruence.
Qed.

Lemma createSale_records_the_sale_witness :
  success (createSale "completed" (Examples.sale_of 5)
             Examples.pharmacy).1 = true ∧
  ∃ sale sub tax total,
    (createSale "completed" (Examples.sale_of 5) Examples.pharmacy).1 =
      Response 201 true "Sale created successfully"
        (SaleData (next_id (sales Examples.pharmacy)) sub tax total
           (length (CreateSale.items (Examples.sale_of 5)))) ∧
    sales Examples.pharmacy !! next_id (sales Examples.pharmacy) = None ∧
    sales (createSale "completed" (Examples.sale_of 5) Examples.pharmacy).2 =
      <[next_id (sales Examples.pharmacy) := sale]> (sales Examples.pharmacy) ∧
    Sales.cashier_id sale = CreateSale.cashierId (Examples.sale_of 5) ∧
    Sales.payment_status sale = "completed".
Proof.
  split; [reflexivity|].
  destruct (createSale_records_the_sale "completed" (Examples.sale_of 5)
              Examples.pharmacy eq_refl)
    as (sale & sub & tax & total & H1 & H2 & H3 & H4 & H5 & _).
  exists sale, sub, tax, total. repeat (split; [assumption|]). assumption.
Defined.

(** The payment check passes when the body has no [customerPaymentAmount]:
    the sale of 5 units at 1 each is recorded with no payment at all. *)
Example sale_without_customer_payment :
  let req :=
    CreateSale.Request None [CreateSale.Item 1 5 1 0 None] "cash" None None
      0 None None 7 in
  success (createSale "completed" req Examples.pharmacy).1 = true ∧
  on_hand (createSale "completed" req Examples.pharmacy).2 1 = Some 5.
Proof. split; vm_compute; reflexivity. Qed.

(** ** The movement log accounts for the quantities *)

Lemma signed_sum_app l1 l2 :
  signed_sum (l1 ++ l2) = signed_sum l1 + signed_sum l2.
Proof. induction l1 as [|m l1 IH]; simpl; lia. Qed.

Lemma signed_sum_of_app k l1 l2 :
  signed_sum_of k (l1 ++ l2) = signed_sum_of k l1 + signed_sum_of k l2.
Proof. unfold signed_sum_of. by rewrite filter_app, signed_sum_app. Qed.

Lemma written_app d d' new :
  stock_movements d' = stock_movements d ++ new → written d d' = new.
Proof.
  intros Hlog. unfold written, written_since.
  by rewrite Hlog, drop_app_length.
Qed.

(** [accounted] from the movements written, whatever they are called. *)
Lemma accounted_intro d d' new :
  stock_movements d' = stock_movements d ++ new →
  Forall (λ m, StockMovements.quantity_after m =
               StockMovements.quantity_before m +
               StockMovements.quantity_change m) new →
  (∀ k, on_hand d' k = (λ q, q + signed_sum_of k new) <$> on_hand d k) →
  accounted d d'.
Proof.
  intros Hlog Hall Hk. unfold accounted.
  by rewrite (written_app _ _ _ Hlog).
Qed.

Lemma accounted_refl d : accounted d d.
Proof.
  apply (accounted_intro d d []).
  - by rewrite app_nil_r.
  - constructor.
  - intros k. unfold on_hand, signed_sum_of. simpl.
    destruct (inventory d !! k); simpl; [f_equal; lia|done].
Qed.

Lemma accounted_trans d1 d2 d3 :
  accounted d1 d2 → accounted d2 d3 → accounted d1 d3.
Proof.
  intros (Hlog1 & Hall1 & Hk1) (Hlog2 & Hall2 & Hk2).
  apply (accounted_intro d1 d3 (written d1 d2 ++ written d2 d3)).
  - by rewrite Hlog2, Hlog1, app_assoc.
  - by apply Forall_app.
  - intros k. rewrite Hk2, Hk1, signed_sum_of_app.
    destruct (on_hand d1 k); simpl; [f_equal; lia|done].
Qed.

Lemma accounted_same d d' :
  inventory d' = inventory d → stock_movements d' = stock_movements d →
  accounted d d'.
Proof.
  intros Hinv Hlog. apply (accounted_intro d d' []).
  - by rewrite app_nil_r.
  - constructor.
  - intros k. unfold on_hand, signed_sum_of. rewrite Hinv. simpl.
    destruct (inventory d !! k); simpl; [f_equal; lia|done].
Qed.

Lemma signed_sum_of_singleton k m :
  signed_sum_of k [m] =
  if decide (StockMovements.inventory_id m = k)
  then StockMovements.quantity_change m else 0.
Proof.
  unfold signed_sum_of. rewrite filter_cons, filter_nil.
  case_decide; simpl; lia.
Qed.

Section RefundLoop.
Import ProcessRefund.

Lemma refund_item_accounted req total it d total' d' :
  refund_item req total it d = (Returned total', d') →
  accounted d d' ∧
  Forall (λ m, StockMovements.movement_type m = "return" ∧
               StockMovements.reference_id m = Some (saleId req) ∧
               StockMovements.reference_type m = Some "sale_refund")
    (written d d').
Proof.
  intros Hrun. pose proof Hrun as Hrun'.
  apply refund_item_returned in Hrun as (line & Hline & Hsid & Hq & ->).
  destruct (inventory d !! SaleItems.inventory_id line) as [batch|] eqn:Hbatch.
  - split.
    + eapply accounted_intro; [reflexivity| |].
      * constructor; [|constructor]. simpl. lia.
      * intros k. rewrite signed_sum_of_singleton. unfold on_hand. simpl.
        destruct (decide (SaleItems.inventory_id line = k)) as [<-|Hne].
        -- by rewrite lookup_alter_eq, Hbatch.
        -- rewrite lookup_alter_ne by done.
           destruct (inventory d !! k); simpl; [f_equal; lia|done].
    + erewrite written_app; [|reflexivity]. by repeat constructor.
  - split.
    + apply accounted_same; simpl; [|by rewrite app_nil_r].
      apply map_eq. intros k.
      destruct (decide (SaleItems.inventory_id line = k)) as [<-|Hne].
      * by rewrite lookup_alter_eq, Hbatch.
      * by rewrite lookup_alter_ne.
    + erewrite written_app; [|reflexivity]. constructor.
Qed.

(** The refund loop that ran to its end. *)
Lemma refund_loop req l :
  ∀ total d total' d',
    for_of l (refund_item req) total d = (Returned total', d') →
    ∃ lines,
      Forall2 (λ it line,
          sale_items d !! saleItemId it = Some line ∧
          SaleItems.sale_id line = saleId req ∧
          quantityToRefund it ≤ SaleItems.quantity line) l lines ∧
      total' = foldl (λ t (x : item * SaleItems.row),
                        (t + itemRefundAmount x.2 (quantityToRefund x.1))%Q)
                 total (zip l lines) ∧
      products d' = products d ∧ sales d' = sales d ∧
      sale_items d' = sale_items d ∧
      purchase_orders d' = purchase_orders d ∧
      purchase_order_items d' = purchase_order_items d ∧
      dom (inventory d') = dom (inventory d) ∧
      accounted d d' ∧
      Forall (λ m, StockMovements.movement_type m = "return" ∧
                   StockMovements.reference_id m = Some (saleId req) ∧
                   StockMovements.reference_type m = Some "sale_refund")
        (written d d').
Proof.
  induction l as [|it l IH]; intros total d total' d'; simpl.
  - intros [= <- <-]. exists []. split; [constructor|].
    do 7 (split; [done|]). split; [apply accounted_refl|].
    unfold written, written_since. rewrite drop_all. constructor.
  - rewrite bind_run.
    destruct (refund_item req total it d) as [[t1|e] d1] eqn:E; [|done].
    pose proof (refund_item_accounted _ _ _ _ _ _ E) as [Hacc1 Hret1].
    pose proof E as E'.
    apply refund_item_returned in E as (line & Hline & Hsid & Hq & Hd1).
    assert (t1 = (total + itemRefundAmount line (quantityToRefund it))%Q) as ->.
    { unfold refund_item in E'. tx_unfold. rewrite Hline in E'.
      rewrite decide_True in E' by done.
      destruct (products d !! SaleItems.product_id line); [|done].
      rewrite decide_False in E' by lia. tx_simpl. by injection E' as <- _. }
    intros Hloop.
    apply IH in Hloop as (lines & Hall & -> & Hp & Hs & Hsi & Hpo & Hpoi & Hdom
                          & Hacc & Hret).
    rewrite Hd1 in Hp, Hs, Hsi, Hpo, Hpoi, Hdom, Hall. simpl in *.
    exists (line :: lines). split; [by constructor|]. split; [done|].
    do 5 (split; [done|]).
    split; [by rewrite Hdom, dom_alter_L|].
    split; [by eapply accounted_trans|].
    destruct Hacc1 as (Hlog1 & _), Hacc as (Hlog2 & _).
    erewrite (written_app d d' (written d d1 ++ written d1 d')).
    + by apply Forall_app.
    + by rewrite Hlog2, Hlog1, app_assoc.
Qed.
End RefundLoop.

(** A refund that succeeds: what it has checked, what it answers and what
    it leaves. *)
Lemma processRefund_effect nts req d res d' :
  processRefund nts req d = (res, d') → success res = true →
  ∃ sale lines,
    ProcessRefund.items req ≠ [] ∧
    sales d !! ProcessRefund.saleId req = Some sale ∧
    Sales.payment_status sale = "completed" ∧
    Forall2 (λ it line,
        sale_items d !! ProcessRefund.saleItemId it = Some line ∧
        SaleItems.sale_id line = ProcessRefund.saleId req ∧
        ProcessRefund.quantityToRefund it ≤ SaleItems.quantity line)
      (ProcessRefund.items req) lines ∧
    let total :=
      foldl (λ t (x : ProcessRefund.item * SaleItems.row),
               (t + itemRefundAmount x.2 (ProcessRefund.quantityToRefund x.1))%Q)
        0%Q (zip (ProcessRefund.items req) lines) in
    let final := default total (truthy_amount (ProcessRefund.refundAmount req)) in
    let status :=
      if Qle_bool (Sales.total_amount sale) final then "refunded"
      else "partial" in
    (∀ a, truthy_amount (ProcessRefund.refundAmount req) = Some a →
          Qle_bool (Qabs (a - total)) (1 # 100) = true) ∧
    res = Response 200 true "Refund processed successfully"
            (RefundData (ProcessRefund.saleId req) final status) ∧
    (∃ sale', sales d' = <[ProcessRefund.saleId req := sale']> (sales d) ∧
              Sales.payment_status sale' = status ∧
              Sales.total_amount sale' = Sales.total_amount sale ∧
              sale' =
                Sales.set_status_notes status
                  (append_note (Sales.notes sale)
                     (String "010"%char "Refund processed: $" +:+
                      nts final +:+ ". Reason: " +:+
                      string_or (ProcessRefund.reason req) "N/A")) sale) ∧
    products d' = products d ∧ sale_items d' = sale_items d ∧
    purchase_orders d' = purchase_orders d ∧
    purchase_order_items d' = purchase_order_items d ∧
    dom (inventory d') = dom (inventory d) ∧
    accounted d d' ∧
    Forall (λ m, StockMovements.movement_type m = "return" ∧
                 StockMovements.reference_id m =
                   Some (ProcessRefund.saleId req) ∧
                 StockMovements.reference_type m = Some "sale_refund")
      (written d d').
Proof.
  intros Hrun Hsucc. unfold processRefund in Hrun.
  case_decide as Hitems; [by simplify_eq|].
  destruct (transaction _ d) as [[r|e] w] eqn:E; [|by simplify_eq].
  injection Hrun as -> ->. apply transaction_returned in E.
  unfold processRefund_callback in E. rewrite bind_run in E.
  unfold select at 1 in E.
  destruct (sales d !! ProcessRefund.saleId req) as [sale|] eqn:Hsale; [|done].
  case_decide as Hstatus; [|done].
  rewrite bind_run in E.
  destruct (for_of _ _ _ d) as [[total|e] d1] eqn:Eloop; [|done].
  apply refund_loop in Eloop
    as (lines & Hall & -> & Hp & Hs & Hsi & Hpo & Hpoi & Hdom & Hacc & Hret).
  exists sale, lines. do 4 (split; [done|]). cbv zeta.
  destruct (truthy_amount (ProcessRefund.refundAmount req)) as [a|] eqn:Hamount.
  - destruct (negb _) eqn:Hclose; [done|]. apply negb_false_iff in Hclose.
    tx_unfold. injection E as <- <-.
    split; [by intros ? [= <-]|]. split; [reflexivity|].
    split.
    { eexists. split.
      - cbn [sales with_sales]. rewrite Hs.
        apply alter_as_insert, Hsale.
      - by destruct sale. }
    destruct Hacc as (Hlog & Hcons & Hk).
    do 5 (split; [done|]). split; [|exact Hret].
    exact (conj Hlog (conj Hcons Hk)).
  - tx_unfold. injection E as <- <-.
    split; [done|]. split; [reflexivity|].
    split.
    { eexists. split.
      - cbn [sales with_sales]. rewrite Hs.
        apply alter_as_insert, Hsale.
      - by destruct sale. }
    destruct Hacc as (Hlog & Hcons & Hk).
    do 5 (split; [done|]). split; [|exact Hret].
    exact (conj Hlog (conj Hcons Hk)).
Qed.

(** ** Refunds of several entries *)

(** X9. What a refund that succeeds has checked: the request lists at least
    one entry, the sale exists with payment status 'completed', and every
    entry names a line of that sale with a quantity that is at most the
    quantity sold on the line. A refund that misses one of these is answered
    with a failure. *)
Theorem processRefund_checks_every_entry nts req d :
  success (processRefund nts req d).1 = true →
  ProcessRefund.items req ≠ [] ∧
  (∃ sale, sales d !! ProcessRefund.saleId req = Some sale ∧
           Sales.payment_status sale = "completed") ∧
  ∀ it, it ∈ ProcessRefund.items req →
    ∃ line, sale_items d !! ProcessRefund.saleItemId it = Some line ∧
            SaleItems.sale_id line = ProcessRefund.saleId req ∧
            ProcessRefund.quantityToRefund it ≤ SaleItems.quantity line.
Proof.
  destruct (processRefund nts req d) as [res d'] eqn:Hrun. simpl.
  intros Hsucc.
  destruct (processRefund_effect _ _ _ _ _ Hrun Hsucc)
    as (sale & lines & Hitems & Hsale & Hstatus & Hall & _).
  split; [done|]. split; [by exists sale|].
  intros it Hit. apply list_elem_of_lookup in Hit as [n Hn].
  destruct (Forall2_lookup_l _ _ _ _ _ Hall Hn) as (line & _ & Hline).
  by exists line.
Qed.

Lemma processRefund_checks_every_entry_witness :
  ProcessRefund.items Examples.full_refund ≠ [] ∧
  (∃ sale, sales Examples.sold_pharmacy
             !! ProcessRefund.saleId Examples.full_refund = Some sale ∧
           Sales.payment_status sale = "completed") ∧
  ∀ it, it ∈ ProcessRefund.items Examples.full_refund →
    ∃ line, sale_items Examples.sold_pharmacy
              !! ProcessRefund.saleItemId it = Some line ∧
            SaleItems.sale_id line = ProcessRefund.saleId Examples.full_refund ∧
            ProcessRefund.quantityToRefund it ≤ SaleItems.quantity line.
Proof.
  apply (processRefund_checks_every_entry Examples.number_to_string
           Examples.full_refund Examples.sold_pharmacy).
  reflexivity.
Defined.

(** X10. What a refund that succeeds answers and records: the answer
    carries the sale id, an amount and the new payment status, which is
    'refunded' or 'partial'; the amount is the one of the request when the
    request gives one that is not zero; the sale is stored with that status
    and with a note that gives the same amount and the reason of the request
    ('N/A' when it gives none), and its other columns, the total among them,
    are as they were. *)
Theorem processRefund_answers_what_it_records nts req d :
  success (processRefund nts req d).1 = true →
  ∃ sale final status,
    sales d !! ProcessRefund.saleId req = Some sale ∧
    (processRefund nts req d).1 =
      Response 200 true "Refund processed successfully"
        (RefundData (ProcessRefund.saleId req) final status) ∧
    (∀ a, truthy_amount (ProcessRefund.refundAmount req) = Some a →
          final = a) ∧
    (status = "refunded" ∨ status = "partial") ∧
    sales (processRefund nts req d).2 =
      <[ProcessRefund.saleId req :=
          Sales.set_status_notes status
            (append_note (Sales.notes sale)
               (String "010"%char "Refund processed: $" +:+ nts final +:+
                ". Reason: " +:+ string_or (ProcessRefund.reason req) "N/A"))
            sale]> (sales d).
Proof.
  destruct (processRefund nts req d) as [res d'] eqn:Hrun. simpl.
  intros Hsucc.
  destruct (processRefund_effect _ _ _ _ _ Hrun Hsucc)
    as (sale & lines & _ & Hsale & _ & _ & Hrest).
  cbv zeta in Hrest.
  destruct Hrest as (_ & -> & (sale' & Hsales & _ & _ & ->) & _).
  eexists sale, _, _. split; [done|]. split; [reflexivity|]. split.
  { intros a Ha. by rewrite Ha. }
  split; [|exact Hsales]. destruct (Qle_bool _ _); auto.
Qed.

Lemma processRefund_answers_what_it_records_witness :
  success (processRefund Examples.number_to_string Examples.full_refund
             Examples.sold_pharmacy).1 = true ∧
  ∃ sale final status,
    sales Examples.sold_pharmacy !! 1 = Some sale ∧
    sales (processRefund Examples.number_to_string Examples.full_refund
             Examples.sold_pharmacy).2 =
      <[1 := Sales.set_status_notes status
               (append_note (Sales.notes sale)
                  (String "010"%char "Refund processed: $" +:+
                   Examples.number_to_string final +:+
                   ". Reason: " +:+ "N/A")) sale]>
        (sales Examples.sold_pharmacy).
Proof.
  split; [reflexivity|].
  destruct (processRefund_answers_what_it_records Examples.number_to_string
              Examples.full_refund Examples.sold_pharmacy eq_refl)
    as (sale & final & status & Hsale & _ & _ & _ & Hsales).
  exists sale, final, status. done.
Defined.

(** X11. What a refund touches, whether it succeeds or fails: every movement
    it appends is a 'return' that refers to the sale as a 'sale_refund'; no
    batch is added or removed; the products, the sale lines and the purchase
    orders are as they were, and so is every sale but the refunded one. *)
Theorem processRefund_writes_returns_only nts req d :
  Forall (λ m, StockMovements.movement_type m = "return" ∧
               StockMovements.reference_id m =
                 Some (ProcessRefund.saleId req) ∧
               StockMovements.reference_type m = Some "sale_refund")
    (written d (processRefund nts req d).2) ∧
  dom (inventory (processRefund nts req d).2) = dom (inventory d) ∧
  products (processRefund nts req d).2 = products d ∧
  sale_items (processRefund nts req d).2 = sale_items d ∧
  purchase_orders (processRefund nts req d).2 = purchase_orders d ∧
  purchase_order_items (processRefund nts req d).2 = purchase_order_items d ∧
  ∀ k, k ≠ ProcessRefund.saleId req →
       sales (processRefund nts req d).2 !! k = sales d !! k.
Proof.
  destruct (success (processRefund nts req d).1) eqn:Hsucc.
  - destruct (processRefund nts req d) as [res d'] eqn:Hrun.
    destruct (processRefund_effect _ _ _ _ _ Hrun Hsucc)
      as (sale & lines & _ & _ & _ & _ & Hrest).
    cbv zeta in Hrest.
    destruct Hrest as (_ & _ & (sale' & Hsales & _) & Hp & Hsi & Hpo & Hpoi
                       & Hdom & _ & Hret).
    simpl. do 6 (split; [done|]). intros k Hk.
    by rewrite Hsales, lookup_insert_ne.
  - rewrite processRefund_failure by done.
    split; [|done]. unfold written, written_since. rewrite drop_all.
    constructor.
Qed.

(** ** Adjustments and transfers *)

Lemma select_active_batch_product id d i rest :
  select_active_batch id d = i :: rest →
  is_Some (products d !! Inventory.product_id i).
Proof.
  unfold select_active_batch. repeat case_match; try done.
  intros [= <- <-]. by eexists.
Qed.


Lemma createAdjustment_returned req d res d' :
  createAdjustment req d = (res, d') → success res = true →
  CreateAdjustment.inventoryId req ≠ 0 ∧
  CreateAdjustment.quantityChange req ≠ 0 ∧
  blank (CreateAdjustment.reason req) = false ∧
  ∃ i,
    inventory d !! CreateAdjustment.inventoryId req = Some i ∧
    Inventory.status i = "active" ∧
    is_Some (products d !! Inventory.product_id i) ∧
    0 ≤ Inventory.quantity_on_hand i + CreateAdjustment.quantityChange req ∧
    d' = Db (products d)
           (alter (Inventory.set_quantity_on_hand
                     (Inventory.quantity_on_hand i +
                      CreateAdjustment.quantityChange req))
                  (CreateAdjustment.inventoryId req) (inventory d))
           (sales d) (sale_items d)
           (stock_movements d ++
              [StockMovements.Row (CreateAdjustment.inventoryId req)
                 (Inventory.product_id i)
                 (CreateAdjustment.adjustmentType req)
                 (CreateAdjustment.quantityChange req)
                 (Inventory.quantity_on_hand i)
                 (Inventory.quantity_on_hand i +
                  CreateAdjustment.quantityChange req) None None
                 (Some (default (Inventory.unit_cost i)
                          (truthy_amount (CreateAdjustment.unitCost req))))
                 (trim (default "" (CreateAdjustment.reason req)))
                 (CreateAdjustment.userId req)])
           (purchase_orders d) (purchase_order_items d).
Proof.
  intros Hrun Hsucc. unfold createAdjustment in Hrun.
  case_decide as Hids; [by simplify_eq|].
  destruct (blank _) eqn:Hblank; [by simplify_eq|].
  destruct (transaction _ d) as [[r|e] w] eqn:E; [|by simplify_eq].
  injection Hrun as -> ->.
  apply transaction_returned in E. unfold createAdjustment_callback in E.
  tx_unfold.
  destruct (select_active_batch _ d) as [|i ?] eqn:Ei; [done|].
  pose proof (select_active_batch_product _ _ _ _ Ei) as Hp.
  apply select_active_batch_cons in Ei as (Hi & Hst & _).
  case_decide; [done|]. injection E as <- <-.
  split; [tauto|]. split; [tauto|]. split; [done|].
  exists i. do 3 (split; [done|]). split; [lia|]. done.
Qed.







(** [trim] strips the white space of JavaScript, the no-break space U+00A0
    (the bytes C2 A0) with the rest: an adjustment whose reason is that one
    character is answered with 400. *)
Example adjustment_with_a_blank_reason :
  let nbsp := String "194"%char (String "160"%char "") in
  trim (String "009"%char " damaged " +:+ nbsp) = "damaged" ∧
  blank (Some nbsp) = true ∧
  createAdjustment
    (CreateAdjustment.Request 1 "adjustment" (-5) (Some nbsp) None 7)
    Examples.pharmacy =
  (failure 400 "Reason for adjustment is required", Examples.pharmacy).
Proof. repeat split; vm_compute; reflexivity. Qed.


Lemma createTransfer_checked req d :
  success (createTransfer req d).1 = true →
  ¬ falsy_number (CreateTransfer.fromInventoryId req) ∧
  ¬ falsy_number (CreateTransfer.toInventoryId req) ∧
  0 < CreateTransfer.quantity req ∧
  CreateTransfer.fromInventoryId req ≠ CreateTransfer.toInventoryId req ∧
  blank (CreateTransfer.reason req) = false ∧
  ∃ a b,
    inventory d !! number_of (CreateTransfer.fromInventoryId req) = Some a ∧
    inventory d !! number_of (CreateTransfer.toInventoryId req) = Some b ∧
    Inventory.status a = "active" ∧ Inventory.status b = "active" ∧
    Inventory.product_id a = Inventory.product_id b ∧
    is_Some (products d !! Inventory.product_id a) ∧
    CreateTransfer.quantity req ≤ Inventory.quantity_on_hand a.
Proof.
  unfold createTransfer.
  case_decide as Hreq; [done|]. case_decide as Hsame; [done|].
  destruct (blank _) eqn:Hblank; [done|].
  unfold transaction, createTransfer_callback. tx_unfold.
  destruct (select_active_batch
              (number_of (CreateTransfer.fromInventoryId req)) d)
    as [|a ?] eqn:Ea; [done|].
  destruct (select_active_batch
              (number_of (CreateTransfer.toInventoryId req)) d)
    as [|b ?] eqn:Eb; [done|].
  pose proof (select_active_batch_product _ _ _ _ Ea) as Hp.
  apply select_active_batch_cons in Ea as (Ha & Hsa & _).
  apply select_active_batch_cons in Eb as (Hb & Hsb & _).
  case_decide as Hprod; [done|]. case_decide as Hq; [done|]. intros _.
  split; [tauto|]. split; [tauto|]. split; [lia|]. do 2 (split; [done|]).
  exists a, b. do 4 (split; [done|]).
  split; [by destruct (decide (Inventory.product_id a = Inventory.product_id b))|].
  split; [done|]. lia.
Qed.


(** X8. Adjustments and transfers never take a quantity on hand below zero:
    if no batch is below zero before, none is after, whether the request
    succeeds or fails. *)
Theorem adjustment_and_transfer_keep_on_hand_nonnegative d :
  (∀ k q, on_hand d k = Some q → 0 ≤ q) →
  (∀ req k q, on_hand (createAdjustment req d).2 k = Some q → 0 ≤ q) ∧
  (∀ req k q, on_hand (createTransfer req d).2 k = Some q → 0 ≤ q).
Proof.
  intros Hd. split; intros req k q.
  - destruct (success (createAdjustment req d).1) eqn:Hsucc.
    + destruct (createAdjustment req d) as [res d'] eqn:Hrun.
      destruct (createAdjustment_returned _ _ _ _ Hrun Hsucc)
        as (_ & _ & _ & i & Hi & _ & _ & Hle & ->).
      unfold on_hand. simpl.
      destruct (decide (CreateAdjustment.inventoryId req = k)) as [<-|Hne].
      * rewrite lookup_alter_eq, Hi. simpl. intros [= <-]. lia.
      * rewrite lookup_alter_ne by done. apply Hd.
    + rewrite createAdjustment_failure by done. apply Hd.
  - destruct (success (createTransfer req d).1) eqn:Hsucc.
    + pose proof (createTransfer_checked req d Hsucc)
        as (_ & _ & Hpos & _ & _ & a' & b' & Ha' & Hb' & _ & _ & _ & _ & Hq).
      destruct (createTransfer req d) as [res d'] eqn:Hrun.
      destruct (createTransfer_returned _ _ _ _ Hrun Hsucc)
        as (_ & a & b & Ha & Hb & _ & Hinv & _).
      rewrite Ha in Ha'. injection Ha' as <-.
      pose proof (Hd (number_of (CreateTransfer.toInventoryId req))) as Hdb.
      unfold on_hand in Hdb. rewrite Hb in Hdb. specialize (Hdb _ eq_refl).
      unfold on_hand. simpl. rewrite Hinv.
      destruct (decide (number_of (CreateTransfer.toInventoryId req) = k))
        as [<-|Hto].
      * rewrite lookup_alter_eq.
        destruct (decide (number_of (CreateTransfer.fromInventoryId req) =
                          number_of (CreateTransfer.toInventoryId req)))
          as [Hsame|Hdiff].
        -- rewrite <- Hsame, lookup_alter_eq, Ha. simpl. intros [= <-].
           simpl in Hdb. lia.
        -- rewrite lookup_alter_ne, Hb by done. simpl. intros [= <-].
           simpl in Hdb. lia.
      * rewrite lookup_alter_ne by done.
        destruct (decide (number_of (CreateTransfer.fromInventoryId req) = k))
          as [<-|Hfrom].
        -- rewrite lookup_alter_eq, Ha. simpl. intros [= <-]. lia.
        -- rewrite lookup_alter_ne by done. apply Hd.
    + rewrite createTransfer_failure by done. apply Hd.
Qed.

(** On the pharmacy, whose two batches hold 10 units each, no adjustment and
    no transfer leaves a batch below zero. *)
Lemma adjustment_and_transfer_keep_on_hand_nonnegative_witness :
  (∀ k q, on_hand Examples.pharmacy k = Some q → 0 ≤ q) ∧
  (∀ req k q,
     on_hand (createAdjustment req Examples.pharmacy).2 k = Some q → 0 ≤ q) ∧
  (∀ req k q,
     on_hand (createTransfer req Examples.pharmacy).2 k = Some q → 0 ≤ q).
Proof.
  assert (∀ k q, on_hand Examples.pharmacy k = Some q → 0 ≤ q) as Hd.
  { intros k q. unfold on_hand.
    change (inventory Examples.pharmacy)
      with ({[1 := Examples.batch_X; 2 := Examples.batch_Y]} : gmap Z _).
    destruct (decide (k = 1)) as [->|H1]; [by intros [= <-]|].
    rewrite lookup_insert_ne by done.
    destruct (decide (k = 2)) as [->|H2]; [by intros [= <-]|].
    by rewrite lookup_singleton_ne. }
  split; [exact Hd|].
  exact (adjustment_and_transfer_keep_on_hand_nonnegative Examples.pharmacy Hd).
Defined.

(** ** An adjustment on the pharmacy *)


(** ** Goods receipts and the purchase order *)

Lemma taken_cons a alloc k :
  taken (a :: alloc) k =
  if decide (a.1 = k) then a.2 + taken alloc k else taken alloc k.
Proof. reflexivity. Qed.

Lemma receipts_cons it l :
  receipts (it :: l) =
  (ReceiveGoods.po_item_id it, number_of (ReceiveGoods.quantity_received it))
    :: receipts l.
Proof. reflexivity. Qed.

(** The receipt loop that ran to its end, on the purchase order lines. *)
Lemma receive_loop_lines req l :
  ∀ d d',
    for_of l (receive_item req) () d = (Returned (), d') →
    products d' = products d ∧ sales d' = sales d ∧
    sale_items d' = sale_items d ∧ purchase_orders d' = purchase_orders d ∧
    (l ≠ [] → is_Some (purchase_orders d !! ReceiveGoods.id req)) ∧
    Forall (λ it, ∃ poi,
              purchase_order_items d !! ReceiveGoods.po_item_id it = Some poi ∧
              PurchaseOrderItems.po_id poi = ReceiveGoods.id req) l ∧
    dom (purchase_order_items d') = dom (purchase_order_items d) ∧
    ∀ k poi, purchase_order_items d !! k = Some poi →
      ∃ poi',
        purchase_order_items d' !! k = Some poi' ∧
        PurchaseOrderItems.po_id poi' = PurchaseOrderItems.po_id poi ∧
        PurchaseOrderItems.product_id poi' = PurchaseOrderItems.product_id poi ∧
        PurchaseOrderItems.quantity_ordered poi' =
          PurchaseOrderItems.quantity_ordered poi ∧
        PurchaseOrderItems.unit_cost poi' = PurchaseOrderItems.unit_cost poi ∧
        (Forall (λ it, is_number (ReceiveGoods.quantity_received it)) l →
           PurchaseOrderItems.quantity_received poi' =
             PurchaseOrderItems.quantity_received poi + taken (receipts l) k ∧
           (k ∈ (receipts l).*1 →
            PurchaseOrderItems.status poi' =
              if decide (PurchaseOrderItems.quantity_received poi' =
                         PurchaseOrderItems.quantity_ordered poi')
              then "received" else "partially_received")) ∧
        (k ∈ (receipts l).*1 →
           PurchaseOrderItems.quantity_received poi' ≤
             PurchaseOrderItems.quantity_ordered poi' ∧
           (PurchaseOrderItems.status poi' = "received" ∨
            PurchaseOrderItems.status poi' = "partially_received")) ∧
        (k ∉ (receipts l).*1 → poi' = poi).
Proof.
  induction l as [|it l IH]; intros d d'; cbn [for_of].
  - intros [= <-]. do 4 (split; [done|]). split; [done|].
    split; [constructor|]. split; [done|].
    intros k poi Hk. exists poi. split; [done|]. do 4 (split; [done|]).
    simpl. split.
    { intros _. split; [lia|]. intros Hin. by apply elem_of_nil in Hin. }
    split; [|done].
    intros Hin. by apply elem_of_nil in Hin.
  - rewrite bind_run.
    destruct (receive_item req () it d) as [[[]|e] d1] eqn:E; [|done].
    apply receive_item_effect in E
      as (poi0 & po & stored & status & Hpoi0 & Hpo0 & _ & Hord & Hle & Hst
          & Hnum0 & Hp1 & Hs1 & Hsi1 & Hpo1 & Hitems1 & _).
    intros Hloop.
    apply IH in Hloop as (Hp & Hs & Hsi & Hpo & _ & Hall & Hdom & Hlines).
    split; [congruence|]. split; [congruence|]. split; [congruence|].
    split; [congruence|]. split; [by eexists|]. split.
    { constructor; [by exists poi0|].
      eapply Forall_impl; [exact Hall|]. intros it' (poi1 & Hpoi1 & Hid1).
      rewrite Hitems1 in Hpoi1.
      destruct (decide (ReceiveGoods.po_item_id it' = ReceiveGoods.po_item_id it))
        as [Heq|Hne].
      - rewrite Heq, lookup_insert_eq in Hpoi1. injection Hpoi1 as <-.
        rewrite Heq. by exists poi0.
      - rewrite lookup_insert_ne in Hpoi1 by done. by exists poi1. }
    split.
    { rewrite Hdom, Hitems1. by apply dom_insert_lookup_L. }
    intros k poi Hk. rewrite receipts_cons, taken_cons, fmap_cons.
    cbn [fst snd].
    destruct (decide (ReceiveGoods.po_item_id it = k)) as [<-|Hne].
    + rewrite Hpoi0 in Hk. injection Hk as <-.
      edestruct (Hlines (ReceiveGoods.po_item_id it))
        as (poi' & Hk' & H1 & H2 & H3 & H4 & H5 & Hin & Hout).
      { rewrite Hitems1. apply lookup_insert_eq. }
      cbn [PurchaseOrderItems.po_id PurchaseOrderItems.product_id
           PurchaseOrderItems.quantity_ordered PurchaseOrderItems.unit_cost
           PurchaseOrderItems.quantity_received] in H1, H2, H3, H4, H5.
      exists poi'. split; [done|]. do 4 (split; [done|]).
      split; [|split].
      * intros Hnums. apply Forall_cons in Hnums as [Hnum Hnums].
        destruct (ReceiveGoods.quantity_received it) as [n|n] eqn:Hq; [|done].
        destruct (Hnum0 n eq_refl) as [-> ->].
        destruct (H5 Hnums) as [Hrec Hstatus]. simpl.
        split; [lia|]. intros _.
        destruct (decide (ReceiveGoods.po_item_id it ∈ (receipts l).*1))
          as [Hl|Hl]; [by apply Hstatus|].
        by rewrite (Hout Hl).
      * intros _.
        destruct (decide (ReceiveGoods.po_item_id it ∈ (receipts l).*1))
          as [Hl|Hl]; [by apply Hin|].
        rewrite (Hout Hl). simpl. by split.
      * intros Hnot. exfalso. apply Hnot, elem_of_cons. by left.
    + edestruct (Hlines k poi)
        as (poi' & Hk' & H1 & H2 & H3 & H4 & H5 & Hin & Hout).
      { rewrite Hitems1. by rewrite lookup_insert_ne. }
      exists poi'. split; [done|]. do 4 (split; [done|]).
      split; [|split].
      * intros Hnums. apply Forall_cons in Hnums as [_ Hnums].
        destruct (H5 Hnums) as [Hrec Hstatus]. split; [done|].
        intros Hin'. apply elem_of_cons in Hin' as [Heq|Hin']; [done|].
        by apply Hstatus.
      * intros Hin'. apply elem_of_cons in Hin' as [Heq|Hin']; [done|].
        by apply Hin.
      * intros Hnot. apply Hout. intros Hin'. apply Hnot, elem_of_cons.
        by right.
Qed.

Lemma length_filter_all {A} (P : A → Prop) `{∀ x, Decision (P x)} (l : list A) :
  length (filter P l) = length l ↔ Forall P l.
Proof.
  induction l as [|x l IH].
  - split; [constructor|done].
  - rewrite filter_cons. pose proof (length_filter P l) as Hle.
    case_decide; simpl.
    + split.
      * intros [= Hlen]. constructor; [done|by apply IH].
      * intros Hall. apply Forall_cons in Hall as [_ Hall].
        f_equal. by apply IH.
    + split; [lia|]. intros Hall. by apply Forall_cons in Hall as [? _].
Qed.

Lemma length_filter_pos {A} (P : A → Prop) `{∀ x, Decision (P x)} (l : list A) x :
  x ∈ l → P x → (0 < length (filter P l))%nat.
Proof.
  intros Hx HP. assert (x ∈ filter P l) as Hin by (by apply list_elem_of_filter).
  destruct (filter P l); [by apply elem_of_nil in Hin|simpl; lia].
Qed.

(** A goods receipt that succeeds is the loop over its lines followed by
    the update of the order. *)
Lemma receiveGoods_effect req d res d' :
  receiveGoods req d = (res, d') → success res = true →
  ReceiveGoods.items req ≠ [] ∧
  ∃ d1,
    for_of (ReceiveGoods.items req) (receive_item req) () d
      = (Returned (), d1) ∧
    d' = with_purchase_orders
           (alter (λ po, PurchaseOrders.Row
                           (PurchaseOrders.supplier_id po)
                           (poStatus (ReceiveGoods.id req) d1)
                           (coalesce (ReceiveGoods.actual_delivery_date req)
                              (PurchaseOrders.actual_delivery_date po))
                           (coalesce (ReceiveGoods.notes req)
                              (PurchaseOrders.notes po)))
                  (ReceiveGoods.id req)) d1.
Proof.
  intros Hrun Hsucc. unfold receiveGoods in Hrun.
  case_decide as Hitems; [by simplify_eq|]. split; [done|].
  destruct (transaction _ d) as [[r|e] w] eqn:E; [|by simplify_eq].
  apply transaction_returned in E. unfold receiveGoods_callback in E.
  rewrite bind_run in E.
  destruct (for_of _ _ _ d) as [[[]|e] d1] eqn:Eloop; [|done].
  exists d1. split; [done|]. tx_unfold. unfold poStatus.
  injection E as _ <-. by destruct r; simplify_eq.
Qed.

(** X12. What a goods receipt that succeeds books on the purchase order
    lines: every entry names a line of the order; every line keeps its
    order, product, ordered quantity and unit cost; a line that an entry
    names ends with no more received than ordered and with status 'received'
    or 'partially_received'; a line that no entry names is as it was; no
    line is added. When the body gives every quantity as a number, the
    received quantity of every line grows by the sum of the quantities that
    the entries give for it, and a line that an entry names ends 'received'
    exactly when it has received what was ordered. *)
Theorem receiveGoods_books_the_lines req d :
  success (receiveGoods req d).1 = true →
  let after := (receiveGoods req d).2 in
  Forall (λ it, ∃ poi,
            purchase_order_items d !! ReceiveGoods.po_item_id it = Some poi ∧
            PurchaseOrderItems.po_id poi = ReceiveGoods.id req)
    (ReceiveGoods.items req) ∧
  dom (purchase_order_items after) = dom (purchase_order_items d) ∧
  ∀ k poi, purchase_order_items d !! k = Some poi →
    ∃ poi',
      purchase_order_items after !! k = Some poi' ∧
      PurchaseOrderItems.po_id poi' = PurchaseOrderItems.po_id poi ∧
      PurchaseOrderItems.product_id poi' = PurchaseOrderItems.product_id poi ∧
      PurchaseOrderItems.quantity_ordered poi' =
        PurchaseOrderItems.quantity_ordered poi ∧
      PurchaseOrderItems.unit_cost poi' = PurchaseOrderItems.unit_cost poi ∧
      (Forall (λ it, is_number (ReceiveGoods.quantity_received it))
         (ReceiveGoods.items req) →
         PurchaseOrderItems.quantity_received poi' =
           PurchaseOrderItems.quantity_received poi +
           taken (receipts (ReceiveGoods.items req)) k ∧
         (k ∈ (receipts (ReceiveGoods.items req)).*1 →
          PurchaseOrderItems.status poi' =
            if decide (PurchaseOrderItems.quantity_received poi' =
                       PurchaseOrderItems.quantity_ordered poi')
            then "received" else "partially_received")) ∧
      (k ∈ (receipts (ReceiveGoods.items req)).*1 →
         PurchaseOrderItems.quantity_received poi' ≤
           PurchaseOrderItems.quantity_ordered poi' ∧
         (PurchaseOrderItems.status poi' = "received" ∨
          PurchaseOrderItems.status poi' = "partially_received")) ∧
      (k ∉ (receipts (ReceiveGoods.items req)).*1 → poi' = poi).
Proof.
  destruct (receiveGoods req d) as [res d'] eqn:Hrun. simpl. intros Hsucc.
  destruct (receiveGoods_effect _ _ _ _ Hrun Hsucc) as (_ & d1 & Hloop & ->).
  apply receive_loop_lines in Hloop
    as (_ & _ & _ & _ & _ & Hall & Hdom & Hlines).
  done.
Qed.

Lemma receiveGoods_books_the_lines_witness :
  let after := (receiveGoods Examples.receipt_matching_X Examples.depot).2 in
  ∃ poi',
    purchase_order_items after !! 1 = Some poi' ∧
    PurchaseOrderItems.quantity_received poi' = 5 ∧
    PurchaseOrderItems.status poi' = "partially_received".
Proof.
  destruct (receiveGoods_books_the_lines Examples.receipt_matching_X
              Examples.depot eq_refl) as (_ & _ & Hlines).
  destruct (Hlines 1 (PurchaseOrderItems.Row 1 1 20 0 1 "ordered") eq_refl)
    as (poi' & Hk & _ & _ & Hord & _ & Hnum & _).
  destruct Hnum as [Hrec Hst]; [by repeat constructor|].
  exists poi'. split; [exact Hk|]. split; [exact Hrec|].
  rewrite Hst by (by apply list_elem_of_singleton).
  rewrite Hrec, Hord. reflexivity.
Defined.

(** The receipt of the 20 units that were ordered, the quantity sent as the
    string '20': [+] gives '020', which is not above 20 and not strictly
    equal to 20, so the line is booked with 20 units received and the status
    'partially_received', and so is the order; the same receipt with the
    number 20 ends 'received'. *)
Example receipt_of_a_string :
  let receipt q :=
    ReceiveGoods.Request 1 [ReceiveGoods.Item 1 q None None None] None None
      19500 in
  let line q :=
    purchase_order_items (receiveGoods (receipt q) Examples.depot).2 !! 1 in
  line (AsString 20) =
    Some (PurchaseOrderItems.Row 1 1 20 20 1 "partially_received") ∧
  line (AsNumber 20) = Some (PurchaseOrderItems.Row 1 1 20 20 1 "received") ∧
  on_hand (receiveGoods (receipt (AsString 20)) Examples.depot).2 2 = Some 20.
Proof. repeat split; vm_compute; reflexivity. Qed.

(** X13. A goods receipt never books more than was ordered: if no purchase
    order line has received more than its ordered quantity before, none has
    after, whether the receipt succeeds or fails. *)
Theorem receiveGoods_never_over_receives req d :
  po_items_ok d → po_items_ok (receiveGoods req d).2.
Proof.
  intros Hok.
  destruct (success (receiveGoods req d).1) eqn:Hsucc.
  - destruct (receiveGoods req d) as [res d'] eqn:Hrun.
    destruct (receiveGoods_effect _ _ _ _ Hrun Hsucc) as (_ & d1 & Hloop & ->).
    apply receive_loop_lines in Hloop
      as (_ & _ & _ & _ & _ & _ & Hdom & Hlines).
    intros k poi' Hk'. simpl in Hk'.
    assert (is_Some (purchase_order_items d !! k)) as [poi Hk].
    { apply elem_of_dom. rewrite <- Hdom. apply elem_of_dom. by eexists. }
    destruct (Hlines k poi Hk) as (poi2 & Hk2 & _ & _ & _ & _ & _ & Hin & Hout).
    rewrite Hk' in Hk2. injection Hk2 as <-.
    destruct (decide (k ∈ (receipts (ReceiveGoods.items req)).*1)) as [Hl|Hl].
    + by apply Hin.
    + rewrite (Hout Hl). by eapply Hok.
  - by rewrite receiveGoods_failure.
Qed.

Lemma receiveGoods_never_over_receives_witness :
  po_items_ok Examples.depot ∧
  po_items_ok (receiveGoods Examples.receipt_matching_X Examples.depot).2.
Proof.
  assert (po_items_ok Examples.depot) as Hok.
  { intros k poi Hk.
    change (purchase_order_items Examples.depot)
      with ({[1 := PurchaseOrderItems.Row 1 1 20 0 1 "ordered"]} : gmap Z _)
      in Hk.
    apply lookup_singleton_Some in Hk as [_ <-]. by vm_compute. }
  split; [exact Hok|].
  exact (receiveGoods_never_over_receives Examples.receipt_matching_X
           Examples.depot Hok).
Defined.

(** X14. What a goods receipt that succeeds does to the order: the order
    exists; it keeps its supplier, takes the delivery date and the notes of
    the request when the request gives them, and ends 'received' exactly
    when every line of the order has status 'received', and
    'partially_received' otherwise; the other orders, the products and the
    sales are as they were. *)
Theorem receiveGoods_sets_the_order_status req d :
  success (receiveGoods req d).1 = true →
  let after := (receiveGoods req d).2 in
  ∃ po po',
    purchase_orders d !! ReceiveGoods.id req = Some po ∧
    purchase_orders after = <[ReceiveGoods.id req := po']> (purchase_orders d) ∧
    PurchaseOrders.supplier_id po' = PurchaseOrders.supplier_id po ∧
    PurchaseOrders.actual_delivery_date po' =
      coalesce (ReceiveGoods.actual_delivery_date req)
        (PurchaseOrders.actual_delivery_date po) ∧
    PurchaseOrders.notes po' =
      coalesce (ReceiveGoods.notes req) (PurchaseOrders.notes po) ∧
    (PurchaseOrders.status po' = "received" ∨
     PurchaseOrders.status po' = "partially_received") ∧
    (PurchaseOrders.status po' = "received" ↔
     ∀ k poi, purchase_order_items after !! k = Some poi →
              PurchaseOrderItems.po_id poi = ReceiveGoods.id req →
              PurchaseOrderItems.status poi = "received") ∧
    products after = products d ∧ sales after = sales d ∧
    sale_items after = sale_items d.
Proof.
  destruct (receiveGoods req d) as [res d'] eqn:Hrun. simpl. intros Hsucc.
  destruct (receiveGoods_effect _ _ _ _ Hrun Hsucc)
    as (Hitems & d1 & Hloop & ->).
  apply receive_loop_lines in Hloop
    as (Hp & Hs & Hsi & Hpo & Hord & Hall & Hdom & Hlines).
  destruct (Hord Hitems) as [po Hpo0].
  exists po. eexists. split; [done|]. split.
  { cbn [purchase_orders with_purchase_orders]. rewrite Hpo.
    etrans; [apply (alter_as_insert _ _ _ _ Hpo0)|]. reflexivity. }
  do 3 (split; [done|]). cbn [PurchaseOrders.status purchase_order_items
                                with_purchase_orders].
  assert (poStatus (ReceiveGoods.id req) d1 = "received" ↔
          ∀ k poi, purchase_order_items d1 !! k = Some poi →
                   PurchaseOrderItems.po_id poi = ReceiveGoods.id req →
                   PurchaseOrderItems.status poi = "received") as Hiff.
  { unfold poStatus. cbv zeta. case_decide as Hlen.
    - split; [|done]. intros _ k poi Hk Hid.
      apply length_filter_all in Hlen.
      rewrite Forall_forall in Hlen.
      apply (Hlen (k, poi)). apply list_elem_of_filter. split; [done|].
      by apply elem_of_map_to_list.
    - split; [by case_decide|]. intros Hrec. exfalso. apply Hlen.
      apply length_filter_all. apply Forall_forall. intros [k poi] Hin.
      apply list_elem_of_filter in Hin as [Hid Hin].
      apply elem_of_map_to_list in Hin. by apply (Hrec k poi). }
  split; [|split; [exact Hiff|done]].
  unfold poStatus. cbv zeta. case_decide as Hlen; [by left|].
  rewrite decide_True; [by right|].
  destruct (ReceiveGoods.items req) as [|it rest] eqn:Hreq; [done|].
  apply Forall_cons in Hall as [(poi & Hpoi & Hid) _].
  destruct (Hlines _ _ Hpoi) as (poi' & Hk' & Hid' & _ & _ & _ & _ & Hin & _).
  destruct Hin as [_ Hst].
  { rewrite receipts_cons, fmap_cons. apply elem_of_cons. by left. }
  assert ((ReceiveGoods.po_item_id it, poi') ∈
          filter (λ kr : Z * PurchaseOrderItems.row,
                    PurchaseOrderItems.po_id kr.2 = ReceiveGoods.id req)
            (map_to_list (purchase_order_items d1))) as Hmem.
  { apply list_elem_of_filter. split; [simpl; congruence|].
    by apply elem_of_map_to_list. }
  destruct Hst as [Hfull|Hpart].
  - right. by eapply length_filter_pos; [exact Hmem|].
  - left. by eapply length_filter_pos; [exact Hmem|].
Qed.

Lemma receiveGoods_sets_the_order_status_witness :
  let after := (receiveGoods Examples.receipt_matching_X Examples.depot).2 in
  ∃ po',
    purchase_orders after = <[1 := po']> (purchase_orders Examples.depot) ∧
    PurchaseOrders.status po' = "partially_received".
Proof.
  destruct (receiveGoods_sets_the_order_status Examples.receipt_matching_X
              Examples.depot eq_refl)
    as (po & po' & _ & Hafter & _ & _ & _ & _ & _).
  exists po'. split; [exact Hafter|].
  assert (purchase_orders
            (receiveGoods Examples.receipt_matching_X Examples.depot).2 !! 1
          = Some po') as Hk by (rewrite Hafter; apply lookup_insert_eq).
  vm_compute in Hk. by injection Hk as <-.
Defined.

(** ** Cancelling and updating purchase orders *)

(** X15. No purchase order is ever cancelled by [cancelPurchaseOrder]: the
    request is answered with 404 when the order does not exist, with 400 when
    the order is 'received' or 'cancelled', and with 500 otherwise, because
    the UPDATE that would cancel it is refused by the database; whatever the
    answer, the database is left as it was. *)
Theorem cancelPurchaseOrder_never_cancels req d :
  success (cancelPurchaseOrder req d).1 = false ∧
  (cancelPurchaseOrder req d).2 = d ∧
  (purchase_orders d !! CancelPurchaseOrder.id req = None →
   (cancelPurchaseOrder req d).1 = failure 404 "Purchase order not found") ∧
  (∀ po, purchase_orders d !! CancelPurchaseOrder.id req = Some po →
     (PurchaseOrders.status po = "received" ∨
      PurchaseOrders.status po = "cancelled" →
      (cancelPurchaseOrder req d).1 =
      failure 400
        "Cannot cancel a purchase order that is already received or cancelled")
     ∧
     (PurchaseOrders.status po ≠ "received" →
      PurchaseOrders.status po ≠ "cancelled" →
      (cancelPurchaseOrder req d).1 =
      failure 500 "Error cancelling purchase order")).
Proof.
  unfold cancelPurchaseOrder, cancel_update, throw. cbv zeta.
  destruct (purchase_orders d !! CancelPurchaseOrder.id req) as [po|] eqn:Hpo.
  - case_decide as Hst; simpl.
    + do 2 (split; [done|]). split; [done|]. intros ? [= <-].
      split; [done|]. intros Hr Hc.
      apply elem_of_cons in Hst as [Hst|Hst]; [done|].
      by apply list_elem_of_singleton in Hst.
    + do 2 (split; [done|]). split; [done|]. intros ? [= <-].
      split; [|done]. intros [Hr|Hc]; destruct Hst; rewrite ?Hr, ?Hc.
      * apply list_elem_of_here.
      * apply list_elem_of_further, list_elem_of_here.
  - simpl. do 2 (split; [done|]). split; [done|]. by intros.
Qed.

Lemma updatePurchaseOrderStatus_returned req d :
  success (updatePurchaseOrderStatus req d).1 = true ↔
  UpdatePurchaseOrderStatus.status req ∈ validStatuses ∧
  is_Some (purchase_orders d !! UpdatePurchaseOrderStatus.id req).
Proof.
  unfold updatePurchaseOrderStatus. cbv zeta.
  case_decide as Hst; [|by split; [|intros []]].
  cbn [purchase_orders with_purchase_orders]. rewrite lookup_alter_eq.
  destruct (purchase_orders d !! UpdatePurchaseOrderStatus.id req) as [po|];
    simpl.
  - split; [|done]. intros _. split; [done|by eexists].
  - split; [done|]. by intros [_ [? ?]].
Qed.

(** X16. The status update of a purchase order refuses no transition: it
    succeeds exactly when the new status is one of pending, ordered,
    partially_received, received, cancelled and the order exists, whatever
    the order's current status; it then stores that status, keeps the
    supplier and the delivery date, and replaces the notes only when the
    request gives notes; an update that fails changes nothing. *)
Theorem updatePurchaseOrderStatus_refuses_no_transition req d :
  let id := UpdatePurchaseOrderStatus.id req in
  let after := (updatePurchaseOrderStatus req d).2 in
  (success (updatePurchaseOrderStatus req d).1 = true ↔
   UpdatePurchaseOrderStatus.status req ∈ validStatuses ∧
   is_Some (purchase_orders d !! id)) ∧
  (∀ po, purchase_orders d !! id = Some po →
     UpdatePurchaseOrderStatus.status req ∈ validStatuses →
     after = with_purchase_orders
               (insert id
                  (PurchaseOrders.Row (PurchaseOrders.supplier_id po)
                     (UpdatePurchaseOrderStatus.status req)
                     (PurchaseOrders.actual_delivery_date po)
                     (coalesce (UpdatePurchaseOrderStatus.notes req)
                        (PurchaseOrders.notes po)))) d) ∧
  (success (updatePurchaseOrderStatus req d).1 = false → after = d).
Proof.
  intros id after. subst id after.
  split; [apply updatePurchaseOrderStatus_returned|]. split.
  - intros po Hpo Hst. unfold updatePurchaseOrderStatus. cbv zeta.
    rewrite decide_True by done.
    cbn [purchase_orders with_purchase_orders].
    rewrite lookup_alter_eq, Hpo. simpl. unfold with_purchase_orders. f_equal.
    etrans; [apply (alter_as_insert _ _ _ _ Hpo)|]. reflexivity.
  - unfold updatePurchaseOrderStatus. cbv zeta.
    case_decide as Hst; [|done].
    cbn [purchase_orders with_purchase_orders]. rewrite lookup_alter_eq.
    destruct (purchase_orders d !! UpdatePurchaseOrderStatus.id req) as [po|]
      eqn:Hpo; simpl; [done|].
    intros _. unfold with_purchase_orders. destruct d. simpl in *. f_equal.
    apply map_eq. intros k. destruct (decide (k = UpdatePurchaseOrderStatus.id req)) as [->|Hne].
    + by rewrite lookup_alter_eq, Hpo.
    + by rewrite lookup_alter_ne.
Qed.

(** A received order is set back to 'pending' by the update. *)
Example received_order_is_reopened :
  let d :=
    Db ∅ ∅ ∅ ∅ [] {[1 := PurchaseOrders.Row 1 "received" (Some 19500) None]} ∅ in
  let req := UpdatePurchaseOrderStatus.Request 1 "pending" None in
  success (updatePurchaseOrderStatus req d).1 = true ∧
  PurchaseOrders.status <$>
    purchase_orders (updatePurchaseOrderStatus req d).2 !! 1 = Some "pending".
Proof. split; vm_compute; reflexivity. Qed.

(** ** Expiration alerts *)

Lemma alert_type_within e cd : e ≤ cd + 90 → is_Some (alert_type e cd).
Proof. intros He. unfold alert_type. repeat case_decide; eauto; lia. Qed.

Lemma alert_exists_lookup alerts k e t :
  alert_exists alerts k e t ↔
  ∃ key a, alerts !! key = Some a ∧
           ExpirationAlerts.inventory_id a = k ∧
           ExpirationAlerts.expiration_date a = e ∧
           ExpirationAlerts.alert_type a = t.
Proof.
  unfold alert_exists. rewrite Exists_exists. split.
  - intros ([key a] & Hin & H). apply elem_of_map_to_list in Hin.
    by exists key, a.
  - intros (key & a & Hin & H). exists (key, a).
    by split; [apply elem_of_map_to_list|].
Qed.

Lemma alert_exists_mono alerts alerts' k e t :
  alerts ⊆ alerts' → alert_exists alerts k e t → alert_exists alerts' k e t.
Proof.
  intros Hsub. rewrite !alert_exists_lookup.
  intros (key & a & Hin & H). exists key, a. split; [|done].
  by eapply lookup_weaken.
Qed.

(** The row that the loop inserts for an item of alert type [t]. *)
Lemma needs_alert_Some cd alerts kr item :
  needs_alert cd alerts kr = Some item →
  ∃ e t,
    Inventory.expiration_date kr.2 = Some e ∧
    Inventory.status kr.2 = "active" ∧
    0 < Inventory.quantity_on_hand kr.2 ∧
    e ≤ cd + 90 ∧
    alert_type e cd = Some t ∧
    ¬ alert_exists alerts kr.1 e t ∧
    item = AlertItem kr.1 (Inventory.product_id kr.2)
             (Inventory.batch_number kr.2) e
             (Inventory.quantity_on_hand kr.2) (Some t).
Proof.
  unfold needs_alert.
  destruct (Inventory.expiration_date kr.2) as [e|]; [|done].
  case_decide as H; [|done]. destruct H as (Hst & Hq & He & Hno).
  intros [= <-]. destruct (alert_type_within e cd He) as [t Ht].
  exists e, t. do 4 (split; [done|]). split; [done|].
  unfold has_alert in Hno. rewrite Ht in Hno. split; [done|].
  by rewrite Ht.
Qed.

Lemma insert_alert_Some dflt cd acc item t :
  item_alert_type item = Some t →
  insert_alert dflt cd acc item =
  (S acc.1, <[next_id acc.2 := alert_of dflt cd item t]> acc.2).
Proof. unfold insert_alert. by intros ->. Qed.

Lemma insert_alert_loop dflt cd items :
  ∀ acc,
    Forall (λ item, is_Some (item_alert_type item)) items →
    let r := foldl (insert_alert dflt cd) acc items in
    r.1 = (acc.1 + length items)%nat ∧
    size r.2 = (size acc.2 + length items)%nat ∧
    acc.2 ⊆ r.2 ∧
    Forall (λ item, ∃ key t, item_alert_type item = Some t ∧
                             r.2 !! key = Some (alert_of dflt cd item t))
      items ∧
    ∀ key a, r.2 !! key = Some a →
      acc.2 !! key = Some a ∨
      ∃ item t, item ∈ items ∧ item_alert_type item = Some t ∧
                a = alert_of dflt cd item t.
Proof.
  induction items as [|item items IH]; intros acc Hall; simpl.
  - split; [lia|]. split; [lia|]. split; [done|]. split; [constructor|].
    intros key a Ha. by left.
  - apply Forall_cons in Hall as [[t Ht] Hall].
    rewrite (insert_alert_Some _ _ _ _ _ Ht).
    destruct (IH (S acc.1, <[next_id acc.2 := alert_of dflt cd item t]> acc.2)
                Hall) as (Hn & Hsize & Hsub & Hin & Hout).
    cbv zeta in *. cbn [fst snd] in Hn, Hsize, Hsub, Hout.
    pose proof (next_id_fresh acc.2) as Hfresh.
    split; [lia|]. split.
    { rewrite Hsize, map_size_insert_None by done. lia. }
    split.
    { etrans; [|exact Hsub]. by apply insert_subseteq. }
    split.
    { constructor; [|done]. exists (next_id acc.2), t. split; [done|].
      eapply lookup_weaken; [|exact Hsub]. apply lookup_insert_eq. }
    intros key a Ha. apply Hout in Ha as [Ha|(item' & t' & Him & Ht' & ->)].
    + destruct (decide (key = next_id acc.2)) as [->|Hne].
      * rewrite lookup_insert_eq in Ha. injection Ha as <-. right.
        exists item, t. split; [apply list_elem_of_here|done].
      * rewrite lookup_insert_ne in Ha by done. by left.
    + right. exists item', t'. split; [by apply list_elem_of_further|done].
Qed.

Lemma needs_alert_items cd alerts l :
  Forall (λ item, is_Some (item_alert_type item))
    (omap (needs_alert cd alerts) l).
Proof.
  apply Forall_forall. intros item Hin.
  apply list_elem_of_omap in Hin as (kr & _ & Hkr).
  apply needs_alert_Some in Hkr as (e & t & _ & _ & _ & _ & _ & _ & ->).
  by eexists.
Qed.

(** Once the alerts are generated, every batch that qualifies has its
    alert. *)
Lemma generateExpirationAlerts_covered dflt cd d alerts k i e :
  inventory d !! k = Some i → Inventory.status i = "active" →
  0 < Inventory.quantity_on_hand i →
  Inventory.expiration_date i = Some e → e ≤ cd + 90 →
  ∃ t, alert_type e cd = Some t ∧
       alert_exists (generateExpirationAlerts dflt cd d alerts).2 k e t.
Proof.
  intros Hk Hst Hq He Hle. unfold generateExpirationAlerts. cbv zeta.
  destruct (insert_alert_loop dflt cd
              (omap (needs_alert cd alerts) (map_to_list (inventory d)))
              (0%nat, alerts) (needs_alert_items _ _ _))
    as (_ & _ & Hsub & Hin & _).
  cbn [fst snd] in *.
  destruct (alert_type_within e cd Hle) as [t Ht]. exists t.
  split; [done|].
  destruct (decide (alert_exists alerts k e t)) as [Hex|Hno].
  { by eapply alert_exists_mono. }
  assert (needs_alert cd alerts (k, i) =
          Some (AlertItem k (Inventory.product_id i)
                  (Inventory.batch_number i) e
                  (Inventory.quantity_on_hand i) (Some t))) as Hneeds.
  { unfold needs_alert. cbn [fst snd]. rewrite He.
    rewrite decide_True; [by rewrite Ht|].
    do 3 (split; [done|]). unfold has_alert. by rewrite Ht. }
  rewrite Forall_forall in Hin.
  destruct (Hin (AlertItem k (Inventory.product_id i)
                   (Inventory.batch_number i) e
                   (Inventory.quantity_on_hand i) (Some t)))
    as (key & t' & Ht' & Hkey).
  { apply list_elem_of_omap. exists (k, i).
    split; [by apply elem_of_map_to_list|done]. }
  simpl in Ht'. injection Ht' as <-.
  apply alert_exists_lookup. by eexists key, _.
Qed.

(** X17. What the generation of expiration alerts leaves on the day it
    runs: the alerts there were, untouched; for every active batch with some
    quantity on hand that expires at most 90 days ahead, an alert for that
    batch and date with the alert type of the date ('expired', '30_days',
    '60_days', '90_days'); and nothing else: every alert it adds is dated
    today, carries the quantity on hand and the alert type of such a batch
    that had no such alert, and their number is the number it answers. *)
Theorem generateExpirationAlerts_covers_every_batch dflt cd d alerts :
  let created := (generateExpirationAlerts dflt cd d alerts).1 in
  let after := (generateExpirationAlerts dflt cd d alerts).2 in
  alerts ⊆ after ∧
  size after = (size alerts + created)%nat ∧
  (∀ k i e,
     inventory d !! k = Some i → Inventory.status i = "active" →
     0 < Inventory.quantity_on_hand i →
     Inventory.expiration_date i = Some e → e ≤ cd + 90 →
     ∃ t, alert_type e cd = Some t ∧ alert_exists after k e t) ∧
  (∀ key a,
     after !! key = Some a → alerts !! key = None →
     ∃ i, inventory d !! ExpirationAlerts.inventory_id a = Some i ∧
          Inventory.status i = "active" ∧
          Inventory.expiration_date i =
            Some (ExpirationAlerts.expiration_date a) ∧
          ExpirationAlerts.quantity a = Inventory.quantity_on_hand i ∧
          0 < ExpirationAlerts.quantity a ∧
          ExpirationAlerts.product_id a = Inventory.product_id i ∧
          alert_type (ExpirationAlerts.expiration_date a) cd =
            Some (ExpirationAlerts.alert_type a) ∧
          ExpirationAlerts.alert_date a = cd ∧
          ExpirationAlerts.is_acknowledged a = dflt ∧
          ¬ alert_exists alerts (ExpirationAlerts.inventory_id a)
              (ExpirationAlerts.expiration_date a)
              (ExpirationAlerts.alert_type a)).
Proof.
  intros created after. subst created after.
  split; [|split; [|split; [apply generateExpirationAlerts_covered|]]];
    unfold generateExpirationAlerts; cbv zeta;
    destruct (insert_alert_loop dflt cd
                (omap (needs_alert cd alerts) (map_to_list (inventory d)))
                (0%nat, alerts) (needs_alert_items _ _ _))
      as (Hn & Hsize & Hsub & Hin & Hout);
    cbn [fst snd] in *.
  - done.
  - by rewrite Hsize, Hn.
  - intros key a Ha Hnew.
    destruct (Hout key a Ha) as [Hold|(item & t & Hitem & Ht & ->)];
      [congruence|].
    apply list_elem_of_omap in Hitem as ([k i] & Hki & Hneeds).
    apply elem_of_map_to_list in Hki.
    apply needs_alert_Some
      in Hneeds as (e & t' & He & Hst & Hq & Hle & Htype & Hno & ->).
    simpl in *. injection Ht as <-. exists i. done.
Qed.

(** X18. Generating the expiration alerts twice on the same day over the
    same stock creates nothing the second time: the second run answers 0 and
    leaves the alerts of the first. *)
Theorem generateExpirationAlerts_twice dflt cd d alerts :
  let first := generateExpirationAlerts dflt cd d alerts in
  generateExpirationAlerts dflt cd d first.2 = (0%nat, first.2).
Proof.
  intros first.
  assert (omap (needs_alert cd first.2) (map_to_list (inventory d)) = [])
    as Hnone.
  { destruct (omap _ _) as [|item rest] eqn:Hitems; [done|]. exfalso.
    assert (item ∈ omap (needs_alert cd first.2) (map_to_list (inventory d)))
      as Hin by (rewrite Hitems; apply list_elem_of_here).
    apply list_elem_of_omap in Hin as ([k i] & Hki & Hneeds).
    apply elem_of_map_to_list in Hki.
    apply needs_alert_Some
      in Hneeds as (e & t & He & Hst & Hq & Hle & Htype & Hno & _).
    apply Hno. cbn [fst snd] in *.
    destruct (generateExpirationAlerts_covered dflt cd d alerts
                k i e Hki Hst Hq He Hle) as (t' & Ht' & Hex).
    rewrite Htype in Ht'. injection Ht' as <-. exact Hex. }
  unfold generateExpirationAlerts at 1. cbv zeta. by rewrite Hnone.
Qed.

(** ** Acknowledging alerts *)

Lemma acknowledgeAlert_returned req alerts :
  alert_success (acknowledgeAlert req alerts).1 = true →
  AcknowledgeAlert.errors_isEmpty req = true ∧
  ∃ a,
    alerts !! AcknowledgeAlert.id req = Some a ∧
    ExpirationAlerts.is_acknowledged a = false ∧
    acknowledgeAlert req alerts =
      let a' := acknowledged (AcknowledgeAlert.acknowledged_by req)
                  (AcknowledgeAlert.now req)
                  (AcknowledgeAlert.action_taken req) a in
      (AlertResponse 200 true "Alert acknowledged successfully" [a'],
       <[AcknowledgeAlert.id req := a']> alerts).
Proof.
  unfold acknowledgeAlert. cbv zeta.
  destruct (AcknowledgeAlert.errors_isEmpty req); [|done]. simpl.
  destruct (alerts !! AcknowledgeAlert.id req) as [a|] eqn:Ha; [|done].
  destruct (ExpirationAlerts.is_acknowledged a) eqn:Hack; [done|].
  intros _. split; [done|]. exists a. do 2 (split; [done|]).
  rewrite lookup_alter_eq, Ha. simpl. f_equal.
  etrans; [apply (alter_as_insert _ _ _ _ Ha)|]. reflexivity.
Qed.

(** X19. An alert is acknowledged once: the acknowledgement succeeds
    exactly when the request passes validation and the alert exists and is
    not acknowledged; it then marks the alert with the user, the time and the
    action of the request, leaves every other alert as it was, and every
    later acknowledgement of that alert is answered with 400 and changes
    nothing, so the first acknowledger is never overwritten; an
    acknowledgement that fails changes nothing. *)
Theorem acknowledgeAlert_acknowledges_once req alerts :
  let id := AcknowledgeAlert.id req in
  let after := (acknowledgeAlert req alerts).2 in
  (alert_success (acknowledgeAlert req alerts).1 = true ↔
   AcknowledgeAlert.errors_isEmpty req = true ∧
   ∃ a, alerts !! id = Some a ∧ ExpirationAlerts.is_acknowledged a = false) ∧
  (alert_success (acknowledgeAlert req alerts).1 = true →
   ∃ a,
     alerts !! id = Some a ∧
     after = <[id := acknowledged (AcknowledgeAlert.acknowledged_by req)
                       (AcknowledgeAlert.now req)
                       (AcknowledgeAlert.action_taken req) a]> alerts ∧
     ∀ req', AcknowledgeAlert.id req' = id →
       AcknowledgeAlert.errors_isEmpty req' = true →
       acknowledgeAlert req' after =
       (AlertResponse 400 false "Alert has already been acknowledged" [],
        after)) ∧
  (alert_success (acknowledgeAlert req alerts).1 = false → after = alerts).
Proof.
  intros id after. subst id after. split; [|split].
  - split.
    + intros Hsucc.
      destruct (acknowledgeAlert_returned _ _ Hsucc) as (? & a & ? & ? & _).
      split; [done|]. by exists a.
    + intros (Hvalid & a & Ha & Hack). unfold acknowledgeAlert. cbv zeta.
      by rewrite Hvalid, Ha, Hack.
  - intros Hsucc.
    destruct (acknowledgeAlert_returned _ _ Hsucc)
      as (_ & a & Ha & _ & Hrun).
    rewrite Hrun. cbv zeta. cbn [snd]. exists a.
    do 2 (split; [done|]).
    intros req' Hid Hvalid. unfold acknowledgeAlert. cbv zeta.
    by rewrite Hvalid, Hid, lookup_insert_eq.
  - unfold acknowledgeAlert. cbv zeta.
    destruct (AcknowledgeAlert.errors_isEmpty req); [|done]. simpl.
    destruct (alerts !! AcknowledgeAlert.id req) as [a|]; [|done].
    by destruct (ExpirationAlerts.is_acknowledged a).
Qed.

Lemma bulkAcknowledgeAlerts_lookup req alerts k :
  BulkAcknowledgeAlerts.alert_ids req ≠ [] →
  (bulkAcknowledgeAlerts req alerts).2 !! k =
  (λ a, if decide (to_acknowledge (BulkAcknowledgeAlerts.alert_ids req) k a)
        then acknowledged (BulkAcknowledgeAlerts.acknowledged_by req)
               (BulkAcknowledgeAlerts.now req)
               (BulkAcknowledgeAlerts.action_taken req) a
        else a) <$> alerts !! k.
Proof.
  intros Hids. unfold bulkAcknowledgeAlerts. cbv zeta.
  rewrite decide_False by done. cbn [snd].
  rewrite map_lookup_imap. by destruct (alerts !! k).
Qed.

(** X20. The bulk acknowledgement never overwrites an acknowledgement: an
    alert that was acknowledged keeps its user, time and action, also when
    the request names it; every alert that the request names and that exists
    ends acknowledged; the alerts it does not name are as they were; the
    answer counts the alerts it has marked; and the same request sent again
    marks none and changes nothing. *)
Theorem bulkAcknowledgeAlerts_skips_acknowledged req alerts :
  BulkAcknowledgeAlerts.alert_ids req ≠ [] →
  let ids := BulkAcknowledgeAlerts.alert_ids req in
  let after := (bulkAcknowledgeAlerts req alerts).2 in
  (∀ k a, alerts !! k = Some a → ExpirationAlerts.is_acknowledged a = true →
          after !! k = Some a) ∧
  (∀ k a, alerts !! k = Some a → k ∉ ids → after !! k = Some a) ∧
  (∀ k a, alerts !! k = Some a → k ∈ ids →
          ExpirationAlerts.is_acknowledged a = false →
          after !! k =
            Some (acknowledged (BulkAcknowledgeAlerts.acknowledged_by req)
                    (BulkAcknowledgeAlerts.now req)
                    (BulkAcknowledgeAlerts.action_taken req) a)) ∧
  dom after = dom alerts ∧
  (∀ k a, after !! k = Some a → k ∈ ids →
          ExpirationAlerts.is_acknowledged a = true) ∧
  alert_message (bulkAcknowledgeAlerts req alerts).1 =
    pretty (length (alert_data (bulkAcknowledgeAlerts req alerts).1)) +:+
    " alerts acknowledged successfully" ∧
  Forall (λ a, ExpirationAlerts.is_acknowledged a = true)
    (alert_data (bulkAcknowledgeAlerts req alerts).1) ∧
  bulkAcknowledgeAlerts req after =
    (AlertResponse 200 true "0 alerts acknowledged successfully" [], after).
Proof.
  intros Hids ids after. subst ids after.
  pose proof (bulkAcknowledgeAlerts_lookup req alerts) as Hlookup.
  assert (∀ k a, (bulkAcknowledgeAlerts req alerts).2 !! k = Some a →
            k ∈ BulkAcknowledgeAlerts.alert_ids req →
            ExpirationAlerts.is_acknowledged a = true) as Hacked.
  { intros k a Hk Hin. rewrite Hlookup in Hk by done.
    destruct (alerts !! k) as [a0|]; [|done]. simpl in Hk.
    injection Hk as <-. case_decide as Hto; [done|].
    destruct (ExpirationAlerts.is_acknowledged a0) eqn:Hack; [done|].
    exfalso. by apply Hto. }
  split.
  { intros k a Ha Hack. rewrite Hlookup, Ha by done. simpl.
    rewrite decide_False; [done|]. intros [_ Hno]. congruence. }
  split.
  { intros k a Ha Hout. rewrite Hlookup, Ha by done. simpl.
    rewrite decide_False; [done|]. by intros [? _]. }
  split.
  { intros k a Ha Hin Hack. rewrite Hlookup, Ha by done. simpl.
    by rewrite decide_True. }
  split.
  { apply set_eq. intros k. rewrite !elem_of_dom, Hlookup by done.
    by rewrite fmap_is_Some. }
  split; [exact Hacked|].
  split.
  { unfold bulkAcknowledgeAlerts. cbv zeta. by rewrite decide_False. }
  split.
  { unfold bulkAcknowledgeAlerts. cbv zeta. rewrite decide_False by done.
    cbn [fst alert_data]. apply Forall_fmap, Forall_forall. by intros. }
  unfold bulkAcknowledgeAlerts at 1. cbv zeta. rewrite decide_False by done.
  assert (filter (λ ka : Z * ExpirationAlerts.row,
                    to_acknowledge (BulkAcknowledgeAlerts.alert_ids req)
                      ka.1 ka.2)
            (map_to_list (bulkAcknowledgeAlerts req alerts).2) = []) as ->.
  { destruct (filter _ _) as [|[k a] rest] eqn:Hf; [done|]. exfalso.
    assert ((k, a) ∈ filter (λ ka : Z * ExpirationAlerts.row,
                    to_acknowledge (BulkAcknowledgeAlerts.alert_ids req)
                      ka.1 ka.2)
            (map_to_list (bulkAcknowledgeAlerts req alerts).2)) as Hin
      by (rewrite Hf; apply list_elem_of_here).
    apply list_elem_of_filter in Hin as [[Hk Hno] Hin].
    apply elem_of_map_to_list in Hin. simpl in *.
    rewrite (Hacked k a Hin Hk) in Hno. done. }
  simpl. f_equal. apply map_eq. intros k. rewrite map_lookup_imap.
  destruct ((bulkAcknowledgeAlerts req alerts).2 !! k) as [a|] eqn:Ha;
    [|done].
  simpl. rewrite decide_False; [done|]. intros [Hk Hno].
  rewrite (Hacked k a Ha Hk) in Hno. done.
Qed.

(** User 7 acknowledges alerts 1 and 2: alert 2 keeps the acknowledgement
    of user 3, alert 1 is marked for user 7. *)
Lemma bulkAcknowledgeAlerts_skips_acknowledged_witness :
  let after := (bulkAcknowledgeAlerts AlertExamples.acknowledge_both
                  AlertExamples.alerts).2 in
  BulkAcknowledgeAlerts.alert_ids AlertExamples.acknowledge_both ≠ [] ∧
  after !! 2 = Some AlertExamples.closed_alert ∧
  ExpirationAlerts.acknowledged_by <$> after !! 1 = Some (Some 7) ∧
  bulkAcknowledgeAlerts AlertExamples.acknowledge_both after =
    (AlertResponse 200 true "0 alerts acknowledged successfully" [], after).
Proof.
  assert (BulkAcknowledgeAlerts.alert_ids AlertExamples.acknowledge_both ≠ [])
    as Hids by done.
  destruct (bulkAcknowledgeAlerts_skips_acknowledged
              AlertExamples.acknowledge_both AlertExamples.alerts Hids)
    as (Hkept & _ & Hmarked & _ & _ & _ & _ & Hagain).
  split; [exact Hids|]. split; [by apply Hkept|]. split; [|exact Hagain].
  erewrite Hmarked; [reflexivity|reflexivity| |reflexivity].
  apply list_elem_of_here.
Defined.

(** ** The expiration report *)

Lemma urgency_filter_level u e c :
  urgency_filter u e c → urgency_level e c = u.
Proof.
  unfold urgency_level. destruct u; simpl; intros H;
    repeat case_decide; try done; lia.
Qed.

Lemma urgency_conditions_level u e c :
  urgency_conditions (Some (urgency_name u)) e c → urgency_level e c = u.
Proof.
  intros H. apply urgency_filter_level. by destruct u.
Qed.

Lemma summarize_counts rows :
  ∀ s,
    let s' := foldl summarize s rows in
    (∀ u, (ExpirationReport.count (tally_of s u)
           ≤ ExpirationReport.count (tally_of s' u))%nat) ∧
    (ExpirationReport.count (ExpirationReport.expired s') +
     ExpirationReport.count (ExpirationReport.critical s') +
     ExpirationReport.count (ExpirationReport.warning s') +
     ExpirationReport.count (ExpirationReport.watch s') =
     ExpirationReport.count (ExpirationReport.expired s) +
     ExpirationReport.count (ExpirationReport.critical s) +
     ExpirationReport.count (ExpirationReport.warning s) +
     ExpirationReport.count (ExpirationReport.watch s) + length rows)%nat ∧
    ExpirationReport.quantity (ExpirationReport.expired s') +
    ExpirationReport.quantity (ExpirationReport.critical s') +
    ExpirationReport.quantity (ExpirationReport.warning s') +
    ExpirationReport.quantity (ExpirationReport.watch s') =
    ExpirationReport.quantity (ExpirationReport.expired s) +
    ExpirationReport.quantity (ExpirationReport.critical s) +
    ExpirationReport.quantity (ExpirationReport.warning s) +
    ExpirationReport.quantity (ExpirationReport.watch s) +
    foldl (λ sum row, sum + ExpirationReport.quantityOnHand row) 0 rows ∧
    ∀ u, Forall (λ row, ExpirationReport.urgencyLevel_of row = u) rows →
         ∀ v, v ≠ u → tally_of s' v = tally_of s v.
Proof.
  induction rows as [|row rows IH] using rev_ind; intros s.
  - simpl. split; [done|]. split; [lia|]. split; [lia|done].
  - cbv zeta. rewrite !foldl_snoc, length_app. simpl.
    destruct (IH s) as (Hmono & Hcount & Hquantity & Hother). cbv zeta in *.
    set (s1 := foldl summarize s rows) in *.
    set (q1 := foldl _ 0 rows) in *.
    split.
    { intros u. specialize (Hmono u). unfold summarize.
      destruct (ExpirationReport.urgencyLevel_of row), u; simpl in *; lia. }
    split.
    { unfold summarize.
      destruct (ExpirationReport.urgencyLevel_of row); simpl; lia. }
    split.
    { unfold summarize.
      destruct (ExpirationReport.urgencyLevel_of row); simpl; lia. }
    intros u Hall v Hv. apply Forall_app in Hall as [Hall Hrow].
    rewrite Forall_singleton in Hrow.
    rewrite <- (Hother u Hall v Hv).
    unfold summarize. rewrite Hrow. by destruct u, v.
Qed.

Lemma expiration_row_Some category_id req cd d kr it :
  expiration_row category_id req cd d kr = Some it →
  ExpirationReport.inventoryId it = kr.1 ∧
  ExpirationReport.productId it = Inventory.product_id kr.2 ∧
  is_Some (products d !! Inventory.product_id kr.2) ∧
  Inventory.status kr.2 = "active" ∧
  0 < Inventory.quantity_on_hand kr.2 ∧
  ExpirationReport.quantityOnHand it = Inventory.quantity_on_hand kr.2 ∧
  Inventory.expiration_date kr.2 = Some (ExpirationReport.expirationDate it) ∧
  ExpirationReport.expirationDate it ≤ cd + ExpirationReport.days req ∧
  ExpirationReport.daysToExpiry it = ExpirationReport.expirationDate it - cd ∧
  ExpirationReport.urgencyLevel_of it =
    urgency_level (ExpirationReport.expirationDate it) cd ∧
  urgency_conditions (ExpirationReport.urgencyLevel req)
    (ExpirationReport.expirationDate it) cd.
Proof.
  unfold expiration_row.
  destruct (products d !! Inventory.product_id kr.2) as [p|]; [|done].
  destruct (Inventory.expiration_date kr.2) as [e|]; [|done].
  case_decide as H; [|done]. destruct H as (Hst & Hq & Hh & Hu & Hc).
  intros [= <-]. simpl. by repeat (split; [done|]).
Qed.

(** X21. The expiration report lists, in any of its three orders, exactly
    the active batches with some quantity on hand whose product exists and
    whose expiration date is within the horizon (and passes the urgency and
    category filters); every row carries the tier of its date; the counts of
    the four tiers add up to the number of rows and their quantities to the
    total quantity at risk; and when the request asks for one tier, every
    row is of that tier and the other three tallies are empty. *)
Theorem getExpirationReport_adds_up category_id req cd d :
  let r := getExpirationReport category_id req cd d in
  let s := ExpirationReport.urgencyBreakdown r in
  ExpirationReport.totalItems r = length (ExpirationReport.items r) ∧
  (ExpirationReport.count (ExpirationReport.expired s) +
   ExpirationReport.count (ExpirationReport.critical s) +
   ExpirationReport.count (ExpirationReport.warning s) +
   ExpirationReport.count (ExpirationReport.watch s))%nat =
    ExpirationReport.totalItems r ∧
  ExpirationReport.quantity (ExpirationReport.expired s) +
  ExpirationReport.quantity (ExpirationReport.critical s) +
  ExpirationReport.quantity (ExpirationReport.warning s) +
  ExpirationReport.quantity (ExpirationReport.watch s) =
    ExpirationReport.totalQuantityAtRisk r ∧
  (∀ it, it ∈ ExpirationReport.items r ↔
         ∃ k i, inventory d !! k = Some i ∧
                expiration_row category_id req cd d (k, i) = Some it) ∧
  Forall (λ it, ∃ i,
            inventory d !! ExpirationReport.inventoryId it = Some i ∧
            is_Some (products d !! Inventory.product_id i) ∧
            Inventory.status i = "active" ∧
            0 < Inventory.quantity_on_hand i ∧
            ExpirationReport.quantityOnHand it = Inventory.quantity_on_hand i ∧
            Inventory.expiration_date i =
              Some (ExpirationReport.expirationDate it) ∧
            ExpirationReport.expirationDate it ≤
              cd + ExpirationReport.days req ∧
            ExpirationReport.urgencyLevel_of it =
              urgency_level (ExpirationReport.expirationDate it) cd)
    (ExpirationReport.items r) ∧
  ∀ u, ExpirationReport.urgencyLevel req = Some (urgency_name u) →
       Forall (λ it, ExpirationReport.urgencyLevel_of it = u)
         (ExpirationReport.items r) ∧
       ∀ v, v ≠ u → tally_of s v = ExpirationReport.Tally 0 0 0.
Proof.
  intros r s. subst r s. unfold getExpirationReport. cbv zeta.
  cbn [ExpirationReport.totalItems ExpirationReport.items
       ExpirationReport.urgencyBreakdown ExpirationReport.totalQuantityAtRisk].
  set (rows := merge_sort _ _).
  assert (∀ it, it ∈ rows ↔
            ∃ k i, inventory d !! k = Some i ∧
                   expiration_row category_id req cd d (k, i) = Some it)
    as Hrows.
  { intros it. subst rows. rewrite merge_sort_Permutation.
    rewrite list_elem_of_omap. split.
    - intros ([k i] & Hin & Hrow). apply elem_of_map_to_list in Hin.
      by exists k, i.
    - intros (k & i & Hin & Hrow). exists (k, i).
      by split; [apply elem_of_map_to_list|]. }
  destruct (summarize_counts rows
              (ExpirationReport.Summary (ExpirationReport.Tally 0 0 0)
                 (ExpirationReport.Tally 0 0 0) (ExpirationReport.Tally 0 0 0)
                 (ExpirationReport.Tally 0 0 0)))
    as (_ & Hcount & Hquantity & Hother).
  cbv zeta in *. simpl in Hcount, Hquantity.
  split; [done|]. split; [lia|]. split; [lia|]. split; [exact Hrows|].
  assert (Forall (λ it, ∃ k i, inventory d !! k = Some i ∧
            expiration_row category_id req cd d (k, i) = Some it) rows)
    as Hall.
  { apply Forall_forall. intros it Hit. by apply Hrows. }
  split.
  { eapply Forall_impl; [exact Hall|]. intros it (k & i & Hk & Hrow).
    apply expiration_row_Some in Hrow
      as (Hid & _ & Hp & Hst & Hq & Hqq & He & Hle & _ & Hu & _).
    simpl in *. exists i. rewrite Hid. done. }
  intros u Hu.
  assert (Forall (λ it, ExpirationReport.urgencyLevel_of it = u) rows) as Htier.
  { eapply Forall_impl; [exact Hall|]. intros it (k & i & Hk & Hrow).
    apply expiration_row_Some in Hrow
      as (_ & _ & _ & _ & _ & _ & _ & _ & _ & Hlevel & Hcond).
    rewrite Hlevel. rewrite Hu in Hcond.
    by apply urgency_conditions_level. }
  split; [exact Htier|]. intros v Hv.
  rewrite (Hother u Htier v Hv). by destruct v.
Qed.

(** ** The low stock lists *)

Lemma count_status_loop rows :
  ∀ s,
    let s' := foldl count_status s rows in
    totalProducts s' = totalProducts s ∧
    (Forall (λ row, stock_status row ≠ "reorder") rows →
     reorder s' = reorder s) ∧
    (Forall (λ row, stock_status row = "out_of_stock" ∨
                    stock_status row = "critical" ∨
                    stock_status row = "low") rows →
     (outOfStock s' + critical_products s' + low s' =
      outOfStock s + critical_products s + low s + length rows)%nat).
Proof.
  induction rows as [|row rows IH]; intros s; simpl.
  - split; [done|]. split; [done|]. intros _. lia.
  - destruct (IH (count_status s row)) as (Htotal & Hreorder & Hsum).
    cbv zeta in *. split.
    { rewrite Htotal. unfold count_status. by repeat case_decide. }
    split.
    + intros Hall. apply Forall_cons in Hall as [Hrow Hall].
      rewrite (Hreorder Hall). unfold count_status.
      by repeat case_decide.
    + intros Hall. apply Forall_cons in Hall as [Hrow Hall].
      rewrite (Hsum Hall). unfold count_status.
      repeat case_decide; simpl; try lia;
        destruct Hrow as [?|[?|?]]; congruence.
Qed.

(** X22. The low stock lists never show a product at its reorder point:
    every row of the low stock alerts is 'Out of Stock' or 'Low Stock', and
    every row of the low stock report, unless it is asked for the critical
    products only, is 'out_of_stock', 'critical' or 'low', so that the
    report's [reorder] counter is 0 and its other three counters add up to
    the number of products listed; asked for the critical products only, the
    report lists products with at most 5 units available. And every product
    that the alerts list is in the report that has no category filter and is
    not for the critical products only, with the same stock and shortage. *)
Theorem low_stock_lists_never_reach_reorder minimum_stock_level reorder_point
    category_id criticalStockThreshold limit categoryId criticalOnly d :
  let alerts := getLowStockAlerts minimum_stock_level reorder_point limit d in
  let report :=
    getLowStockReport minimum_stock_level reorder_point category_id
      criticalStockThreshold categoryId criticalOnly d in
  Forall (λ row, current_stock row ≤ minimum_level row ∧
                 (stock_status row = "Out of Stock" ∨
                  stock_status row = "Low Stock")) alerts ∧
  totalProducts report.1 = length report.2 ∧
  (criticalOnly ≠ "true" →
   Forall (λ row, current_stock row ≤ minimum_level row ∧
                  (stock_status row = "out_of_stock" ∨
                   stock_status row = "critical" ∨
                   stock_status row = "low")) report.2 ∧
   reorder report.1 = 0%nat ∧
   (outOfStock report.1 + critical_products report.1 + low report.1)%nat =
     totalProducts report.1) ∧
  (criticalOnly = "true" →
   Forall (λ row, current_stock row ≤ 5) report.2) ∧
  (criticalOnly ≠ "true" → categoryId = None →
   ∀ row, row ∈ alerts →
     ∃ row', row' ∈ report.2 ∧
             stock_product_id row' = stock_product_id row ∧
             current_stock row' = current_stock row ∧
             shortage_quantity row' = shortage_quantity row).
Proof.
  intros alerts report. subst alerts report.
  unfold getLowStockAlerts, getLowStockReport. cbv zeta. cbn [fst snd].
  set (rows := merge_sort shortage_desc_available_asc _).
  destruct (count_status_loop rows (StockSummary (length rows) 0 0 0 0))
    as (Htotal & Hreorder & Hsum). cbv zeta in *. simpl in Htotal, Hreorder, Hsum.
  split.
  { apply Forall_forall. intros row Hin. apply subseteq_take in Hin.
    rewrite merge_sort_Permutation in Hin.
    apply list_elem_of_omap in Hin as (kp & _ & Hrow).
    unfold low_stock_alert in Hrow. cbv zeta in Hrow.
    case_decide as H; [|done]. destruct H as [_ Hle].
    injection Hrow as <-. simpl. split; [done|].
    unfold alert_stock_status. repeat case_decide; auto; lia. }
  split; [done|].
  assert (∀ row, row ∈ rows ↔
            ∃ kp, kp ∈ map_to_list (products d) ∧
                  low_stock_product minimum_stock_level reorder_point
                    category_id criticalStockThreshold categoryId
                    criticalOnly d kp = Some row) as Hrows.
  { intros row. subst rows. rewrite merge_sort_Permutation.
    apply list_elem_of_omap. }
  split.
  { intros Hmode.
    assert (Forall (λ row, current_stock row ≤ minimum_level row ∧
                           (stock_status row = "out_of_stock" ∨
                            stock_status row = "critical" ∨
                            stock_status row = "low")) rows) as Hall.
    { apply Forall_forall. intros row Hin.
      apply Hrows in Hin as (kp & _ & Hrow).
      unfold low_stock_product in Hrow. cbv zeta in Hrow.
      case_decide as H; [|done]. destruct H as (_ & _ & Hhave).
      unfold report_having in Hhave. rewrite decide_False in Hhave by done.
      injection Hrow as <-. simpl. split; [done|].
      unfold report_stock_status. repeat case_decide; auto; lia. }
    split; [exact Hall|]. split.
    - apply Hreorder. eapply Forall_impl; [exact Hall|].
      intros row [_ [H|[H|H]]]; by rewrite H.
    - rewrite Htotal. rewrite Hsum; [lia|].
      eapply Forall_impl; [exact Hall|]. by intros row [_ ?]. }
  split.
  { intros Hmode. apply Forall_forall. intros row Hin.
    apply Hrows in Hin as (kp & _ & Hrow).
    unfold low_stock_product in Hrow. cbv zeta in Hrow.
    case_decide as H; [|done]. destruct H as (_ & _ & Hhave).
    unfold report_having in Hhave. rewrite decide_True in Hhave by done.
    by injection Hrow as <-. }
  intros Hmode Hcat row Hin.
  apply subseteq_take in Hin.
  rewrite merge_sort_Permutation in Hin.
  apply list_elem_of_omap in Hin as (kp & Hkp & Hrow).
  unfold low_stock_alert in Hrow. cbv zeta in Hrow.
  case_decide as H; [|done]. destruct H as [Hactive Hle].
  injection Hrow as <-.
  eexists. split.
  - apply Hrows. exists kp. split; [done|].
    unfold low_stock_product. cbv zeta. rewrite decide_True; [reflexivity|].
    split; [done|]. rewrite Hcat. split; [done|].
    unfold report_having. by rewrite decide_False.
  - done.
Qed.

(** ** Pagination *)

Lemma ceil_div_spec total limit :
  0 < limit →
  (ceil_div total limit - 1) * limit < total ≤ ceil_div total limit * limit.
Proof.
  intros Hlimit. unfold ceil_div.
  pose proof (Z.div_mod (- total) limit) as Hdiv.
  pose proof (Z.mod_pos_bound (- total) limit Hlimit) as Hmod.
  nia.
Qed.

(** X23. The two paginated lists agree on the pages: for a positive page
    size, the number of pages is the least number of pages that holds all
    the rows, and both [hasNextPage] of the sales list (the page is before
    the last page) and [hasNext] of the alerts list (page times size is
    less than the total) say exactly that rows remain past the current
    page's offset plus the page size. *)
Theorem pagination_has_next page limit total :
  0 < limit →
  let sales := getSales_pagination page limit total in
  let alerts := getAllAlerts_pagination page limit total in
  (totalPages sales - 1) * limit < total ≤ totalPages sales * limit ∧
  alerts_totalPages alerts = totalPages sales ∧
  (hasNextPage sales = true ↔ offset page limit + limit < total) ∧
  hasNext alerts = hasNextPage sales ∧
  (hasPrevPage sales = true ↔ 0 < offset page limit) ∧
  hasPrev alerts = hasPrevPage sales.
Proof.
  intros Hlimit sales alerts. subst sales alerts.
  unfold getSales_pagination, getAllAlerts_pagination, offset. cbv zeta.
  simpl. pose proof (ceil_div_spec total limit Hlimit) as Hceil.
  split; [done|]. split; [done|].
  assert (page < ceil_div total limit ↔ page * limit < total) as Hnext
    by (split; nia).
  split.
  { rewrite bool_decide_eq_true. rewrite Hnext. split; lia. }
  split.
  { apply bool_decide_ext. by symmetry. }
  split; [|done].
  rewrite bool_decide_eq_true. split; nia.
Qed.

Lemma pagination_has_next_witness :
  0 < 20 ∧
  totalPages (getSales_pagination 3 20 45) = 3 ∧
  hasNextPage (getSales_pagination 2 20 45) = true ∧
  hasNextPage (getSales_pagination 3 20 45) = false ∧
  hasNext (getAllAlerts_pagination 3 20 45) =
    hasNextPage (getSales_pagination 3 20 45).
Proof.
  assert (0 < 20) as Hlimit by lia.
  destruct (pagination_has_next 3 20 45 Hlimit) as (_ & _ & _ & Hsame & _).
  split; [exact Hlimit|]. split; [reflexivity|]. split; [reflexivity|].
  split; [reflexivity|exact Hsame].
Defined.

(** ** Bulk updates of quantities *)

Lemma validate_updates_inr updates :
  ∀ index validated,
    validate_updates index updates = inr validated →
    Forall (λ u, 0 < BulkUpdateQuantities.inventory_id u ∧
                 0 ≤ BulkUpdateQuantities.new_quantity u) updates ∧
    validated = validated_of <$> updates.
Proof.
  induction updates as [|u updates IH]; intros index validated; simpl.
  - intros [= <-]. by split; [constructor|].
  - repeat case_decide; try done.
    destruct (validate_updates (S index) updates) as [e|vs] eqn:E; [done|].
    intros [= <-]. destruct (IH _ _ E) as [Hall ->].
    split; [|done]. constructor; [lia|done].
Qed.

Lemma validate_updates_inl updates :
  ∀ index error,
    validate_updates index updates = inl error →
    Exists (λ u, BulkUpdateQuantities.inventory_id u ≤ 0 ∨
                 BulkUpdateQuantities.new_quantity u < 0) updates.
Proof.
  induction updates as [|u updates IH]; intros index error; simpl; [done|].
  repeat case_decide; try (intros _; apply Exists_cons_hd; by auto).
  destruct (validate_updates (S index) updates) as [e|vs] eqn:E; [|done].
  intros _. apply Exists_cons_tl. by eapply IH.
Qed.

(** X24. A bulk update of quantities reaches the model layer only with a
    batch that is valid as a whole: between 1 and 100 updates, each with a
    positive batch id and a quantity that is not negative; the model then
    gets every update, in order, with its reason or 'Bulk update'. One
    invalid update anywhere in the batch is answered with 400 before anything
    is written. *)
Theorem bulkUpdateQuantities_validates_first model updates d :
  let valid :=
    updates ≠ [] ∧ (length updates ≤ 100)%nat ∧
    Forall (λ u, 0 < BulkUpdateQuantities.inventory_id u ∧
                 0 ≤ BulkUpdateQuantities.new_quantity u) updates in
  (valid →
   bulkUpdateQuantities model updates d =
   match model (validated_of <$> updates) d with
   | (Thrown error, d1) => (RowsResponse 500 false error [], d1)
   | (Returned updatedInventory, d1) =>
       (RowsResponse 200 true
          (pretty (length updatedInventory) +:+
           " inventory records updated successfully") updatedInventory, d1)
   end) ∧
  (¬ valid →
   rows_http_status (bulkUpdateQuantities model updates d).1 = 400 ∧
   rows_success (bulkUpdateQuantities model updates d).1 = false ∧
   (bulkUpdateQuantities model updates d).2 = d).
Proof.
  intros valid. subst valid. unfold bulkUpdateQuantities. split.
  - intros (Hne & Hlen & Hall). rewrite decide_False by done.
    rewrite decide_False by lia.
    destruct (validate_updates 0 updates) as [e|vs] eqn:E.
    + apply validate_updates_inl in E. apply Exists_exists in E as (u & Hu & Hbad).
      rewrite Forall_forall in Hall. specialize (Hall u Hu). lia.
    + by apply validate_updates_inr in E as [_ ->].
  - intros Hinvalid. case_decide as Hne; [done|].
    case_decide as Hlen; [done|].
    destruct (validate_updates 0 updates) as [e|vs] eqn:E; [done|].
    exfalso. apply Hinvalid. apply validate_updates_inr in E as [Hall _].
    split; [done|]. split; [lia|done].
Qed.

(** ** The operations change quantities only *)

Lemma same_batch_refl i : same_batch i i.
Proof. by repeat split. Qed.

Lemma same_batch_trans i1 i2 i3 :
  same_batch i1 i2 → same_batch i2 i3 → same_batch i1 i3.
Proof.
  unfold same_batch. intros (?&?&?&?&?&?&?&?) (?&?&?&?&?&?&?&?).
  repeat split; congruence.
Qed.

Lemma quantities_only_refl d : quantities_only d d.
Proof.
  split; [done|]. intros k i Hk. exists i. split; [done|apply same_batch_refl].
Qed.

Lemma quantities_only_trans d1 d2 d3 :
  quantities_only d1 d2 → quantities_only d2 d3 → quantities_only d1 d3.
Proof.
  intros [Hp1 Hb1] [Hp2 Hb2]. split; [congruence|].
  intros k i Hk. destruct (Hb1 k i Hk) as (i2 & Hk2 & Hs2).
  destruct (Hb2 k i2 Hk2) as (i3 & Hk3 & Hs3).
  exists i3. split; [done|]. by eapply same_batch_trans.
Qed.

(** An UPDATE of one batch that keeps the batch's identity. *)
Lemma quantities_only_alter (f : Inventory.row → Inventory.row) id d d' :
  (∀ i, same_batch i (f i)) →
  products d' = products d →
  inventory d' = alter f id (inventory d) →
  quantities_only d d'.
Proof.
  intros Hf Hp Hinv. split; [done|]. intros k i Hk. rewrite Hinv.
  destruct (decide (id = k)) as [->|Hne].
  - rewrite lookup_alter_eq, Hk. simpl. by eexists.
  - rewrite lookup_alter_ne, Hk by done. exists i.
    split; [done|apply same_batch_refl].
Qed.

Lemma same_batch_set_quantity_on_hand q i :
  same_batch i (Inventory.set_quantity_on_hand q i).
Proof. by repeat split. Qed.

Lemma createSale_quantities_only st req d :
  quantities_only d (createSale st req d).2.
Proof.
  destruct (success (createSale st req d).1) eqn:Hsucc.
  - destruct (createSale st req d) as [res d'] eqn:Hrun.
    destruct (createSale_returned _ _ _ _ _ Hrun Hsucc)
      as (ps & sale & line_items & sub & tax & _ & _ & _ & _ & _ & _ & _ & _
          & _ & _ & _ & ->).
    split; [done|]. intros k i Hk. simpl.
    rewrite consume_reserve_all_lookup, Hk. simpl. eexists.
    split; [done|apply same_batch_set_quantity_on_hand].
  - rewrite createSale_failure by done. apply quantities_only_refl.
Qed.

Lemma refund_item_quantities_only req total it d :
  quantities_only d (refund_item req total it d).2.
Proof.
  destruct (refund_item req total it d) as [[t|e] d'] eqn:E.
  - apply refund_item_returned in E as (line & _ & _ & _ & ->). simpl.
    eapply (quantities_only_alter
              (restock (ProcessRefund.quantityToRefund it))); [|done..].
    intros i. apply same_batch_set_quantity_on_hand.
  - unfold refund_item in E. tx_unfold.
    repeat case_match; simplify_eq/=; apply quantities_only_refl.
Qed.

Lemma processRefund_quantities_only nts req d :
  quantities_only d (processRefund nts req d).2.
Proof.
  destruct (success (processRefund nts req d).1) eqn:Hsucc.
  - unfold processRefund in *. case_decide; [done|].
    unfold transaction in *. unfold processRefund_callback in *.
    rewrite bind_run in *. unfold select at 1 in Hsucc. unfold select at 1.
    destruct (sales d !! ProcessRefund.saleId req) as [sale|]; [|done].
    case_decide; [|done]. rewrite bind_run in *.
    pose proof (for_of_preserves (quantities_only d) (refund_item req)) as Hloop.
    specialize (Hloop (λ s x w Hw, quantities_only_trans _ _ _ Hw
                                     (refund_item_quantities_only req s x w))
                  (ProcessRefund.items req) 0%Q d (quantities_only_refl d)).
    destruct (for_of _ _ _ d) as [[total|e] d1]; [|done].
    simpl in Hloop.
    destruct (match truthy_amount _ with Some _ => _ | None => _ end);
      [done|].
    tx_unfold. simpl. destruct Hloop as [Hp Hb]. by split.
  - rewrite processRefund_failure by done. apply quantities_only_refl.
Qed.

Lemma createAdjustment_quantities_only req d :
  quantities_only d (createAdjustment req d).2.
Proof.
  destruct (success (createAdjustment req d).1) eqn:Hsucc.
  - destruct (createAdjustment req d) as [res d'] eqn:Hrun.
    destruct (createAdjustment_returned _ _ _ _ Hrun Hsucc)
      as (_ & _ & _ & i & _ & _ & _ & _ & ->).
    simpl. eapply quantities_only_alter; [|done..].
    intros i0. apply same_batch_set_quantity_on_hand.
  - rewrite createAdjustment_failure by done. apply quantities_only_refl.
Qed.

Lemma createTransfer_products req d :
  products (createTransfer req d).2 = products d.
Proof.
  unfold createTransfer. repeat case_decide; try done.
  destruct (blank _); [done|].
  unfold transaction, createTransfer_callback. tx_unfold.
  repeat case_match; simplify_eq/=; done.
Qed.

Lemma createTransfer_quantities_only req d :
  quantities_only d (createTransfer req d).2.
Proof.
  destruct (success (createTransfer req d).1) eqn:Hsucc.
  - pose proof (createTransfer_products req d) as Hp.
    destruct (createTransfer req d) as [res d'] eqn:Hrun.
    destruct (createTransfer_returned _ _ _ _ Hrun Hsucc)
      as (_ & a & b & _ & _ & _ & Hinv & _).
    simpl in *. split; [done|]. intros k i Hk. rewrite Hinv.
    destruct (decide (number_of (CreateTransfer.toInventoryId req) = k))
      as [<-|Hto].
    + rewrite lookup_alter_eq.
      destruct (decide (number_of (CreateTransfer.fromInventoryId req) =
                        number_of (CreateTransfer.toInventoryId req)))
        as [Heq|Hfrom].
      * rewrite Heq, lookup_alter_eq, Hk. simpl. eexists. split; [done|].
        by repeat split.
      * rewrite lookup_alter_ne, Hk by done. simpl. eexists.
        split; [done|apply same_batch_set_quantity_on_hand].
    + rewrite lookup_alter_ne by done.
      destruct (decide (number_of (CreateTransfer.fromInventoryId req) = k))
        as [<-|Hfrom].
      * rewrite lookup_alter_eq, Hk. simpl. eexists.
        split; [done|apply same_batch_set_quantity_on_hand].
      * rewrite lookup_alter_ne, Hk by done. exists i.
        split; [done|apply same_batch_refl].
  - rewrite createTransfer_failure by done. apply quantities_only_refl.
Qed.

Lemma receiveGoods_quantities_only req d :
  quantities_only d (receiveGoods req d).2.
Proof.
  destruct (success (receiveGoods req d).1) eqn:Hsucc.
  - destruct (receiveGoods req d) as [res d'] eqn:Hrun.
    destruct (receiveGoods_effect _ _ _ _ Hrun Hsucc) as (_ & d1 & Hloop & ->).
    pose proof (receive_loop_lines _ _ _ _ Hloop) as (Hp & _).
    apply receive_loop in Hloop as (Hsub & _).
    split; [done|]. intros k i Hk. exists i. simpl.
    split; [by eapply lookup_weaken|apply same_batch_refl].
  - rewrite receiveGoods_failure by done. apply quantities_only_refl.
Qed.

(** X25. The five core operations change quantities only: whatever
    requests are served one after the other, and whether they succeed or
    fail, the products are as they were and every batch is still in stock
    with its product, supplier, batch and lot number, unit cost, expiration
    date, received date and status; no operation deletes a batch or
    rewrites its identity. *)
Theorem operations_change_quantities_only st nts ops d :
  quantities_only d (serve st nts ops d).
Proof.
  revert d. induction ops as [|op ops IH]; intros d.
  - apply quantities_only_refl.
  - unfold serve. simpl. eapply quantities_only_trans; [|apply IH].
    destruct op; simpl.
    + apply createSale_quantities_only.
    + apply processRefund_quantities_only.
    + apply createAdjustment_quantities_only.
    + apply createTransfer_quantities_only.
    + apply receiveGoods_quantities_only.
Qed.

(** ** Sold quantities stay positive *)

Lemma createTransfer_sale_items req d :
  sale_items (createTransfer req d).2 = sale_items d.
Proof.
  unfold createTransfer. repeat case_decide; try done.
  destruct (blank _); [done|].
  unfold transaction, createTransfer_callback. tx_unfold.
  repeat case_match; simplify_eq/=; done.
Qed.

Lemma processRefund_sale_items nts req d :
  sale_items (processRefund nts req d).2 = sale_items d.
Proof.
  destruct (success (processRefund nts req d).1) eqn:Hsucc.
  - destruct (processRefund nts req d) as [res d'] eqn:Hrun.
    destruct (processRefund_effect _ _ _ _ _ Hrun Hsucc)
      as (sale & lines & _ & _ & _ & _ & Hrest).
    cbv zeta in Hrest. by destruct Hrest as (_ & _ & _ & _ & ? & _).
  - by rewrite processRefund_failure.
Qed.

Lemma createAdjustment_sale_items req d :
  sale_items (createAdjustment req d).2 = sale_items d.
Proof.
  destruct (success (createAdjustment req d).1) eqn:Hsucc.
  - destruct (createAdjustment req d) as [res d'] eqn:Hrun.
    by destruct (createAdjustment_returned _ _ _ _ Hrun Hsucc)
      as (_ & _ & _ & i & _ & _ & _ & _ & ->).
  - by rewrite createAdjustment_failure.
Qed.

Lemma receiveGoods_sale_items req d :
  sale_items (receiveGoods req d).2 = sale_items d.
Proof.
  destruct (success (receiveGoods req d).1) eqn:Hsucc.
  - destruct (receiveGoods req d) as [res d'] eqn:Hrun.
    destruct (receiveGoods_effect _ _ _ _ Hrun Hsucc) as (_ & d1 & Hloop & ->).
    by apply receive_loop_lines in Hloop as (_ & _ & ? & _).
  - by rewrite receiveGoods_failure.
Qed.

Lemma createSale_sold_positive st req d :
  sold_positive d → sold_positive (createSale st req d).2.
Proof.
  intros Hd.
  destruct (success (createSale st req d).1) eqn:Hsucc.
  - destruct (createSale st req d) as [res d'] eqn:Hrun.
    destruct (createSale_returned _ _ _ _ _ Hrun Hsucc)
      as (ps & sale & line_items & sub & tax & Hall & _ & _ & _ & _ & _ & _ & _
          & _ & Hnew & _ & ->).
    intros k line Hline. simpl in Hline.
    destruct (Hnew k line Hline) as [Hold|(_ & p & Hp & Hq & _)].
    + by apply (Hd k line).
    + apply list_elem_of_lookup in Hp as [n Hn].
      destruct (Forall2_lookup_r _ _ _ _ _ Hall Hn)
        as (it & _ & (Hq' & Hpos & _) & _).
      simpl in *. lia.
  - by rewrite createSale_failure.
Qed.

(** X27. Sold quantities stay positive: if every sale line in the database
    was sold with a positive quantity, so is every sale line after any
    sequence of sales, refunds, adjustments, transfers and receipts; only
    sales add sale lines, each with the (positive) quantity of a line of the
    request, and no operation rewrites a sale line. The refund divides the
    line total by this quantity. *)
Theorem sold_quantities_stay_positive st nts ops d :
  sold_positive d → sold_positive (serve st nts ops d).
Proof.
  revert d. induction ops as [|op ops IH]; intros d Hd; [done|].
  unfold serve. simpl. apply IH. unfold sold_positive in *.
  destruct op; simpl.
  - by apply createSale_sold_positive.
  - by rewrite processRefund_sale_items.
  - by rewrite createAdjustment_sale_items.
  - by rewrite createTransfer_sale_items.
  - by rewrite receiveGoods_sale_items.
Qed.

(** The pharmacy has no sale line; after the sale of 5 units and its refund
    the one sale line it has was sold with 5 units. *)
Lemma sold_quantities_stay_positive_witness :
  let ops := [Sale (Examples.sale_of 5); Refund Examples.full_refund] in
  sold_positive Examples.pharmacy ∧
  sold_positive (serve "completed" Examples.number_to_string ops
                   Examples.pharmacy) ∧
  size (sale_items (serve "completed" Examples.number_to_string ops
                      Examples.pharmacy)) = 1%nat.
Proof.
  assert (sold_positive Examples.pharmacy) as Hd.
  { unfold sold_positive. apply map_Forall_empty. }
  split; [exact Hd|]. split; [|reflexivity].
  exact (sold_quantities_stay_positive "completed" Examples.number_to_string
           _ Examples.pharmacy Hd).
Defined.
